(** * home-network-monitor: the probing core, embedded and verified

    A shallow embedding of the backend's probe executor
    ([services/ping_service.py]), the SQLite-backed repository
    ([repositories/ping_repository.py] over [config/database.py]), the
    add-host route ([routers/api.py]) and the manual retention triggers
    ([services/cleanup_service.py]).

    Python floats are IEEE-754 binary64 values, here Rocq's primitive
    floats.  Python ints are unbounded, here [Z]; an int that a caller
    hands to a SQL statement must fit SQLite's 64 bits.  Strings are text
    with code points below 256.  Code that touches the database, the clock
    or the network runs in a state-and-exception monad over an explicit
    [world]. *)

From Stdlib Require Import ZArith Floats.
From stdpp Require Import base decidable option list sorting strings gmap.

Local Open Scope Z_scope.

(** ** Python floats *)

Module PyFloat.

(** Truth value of a float ([float.__bool__]): everything but [0.0] and
    [-0.0] is true, [nan] included. *)
Definition truthy (x : float) : bool := negb (PrimFloat.eqb x 0%float).

(** The magnitude [k] with sign [neg], as an exact, unrounded binary
    float [k * 2^0]. *)
Definition SF_of_Z (neg : bool) (k : Z) : spec_float :=
  match k with
  | Zpos p => S754_finite neg p 0
  | _ => S754_zero neg
  end.

(** [float(k)] for a Python int: the nearest double. *)
Definition of_Z (k : Z) : float :=
  SF2Prim (binary_normalize prec emax k 0 false).

(** [a / b] on Python ints ([b] nonzero): the exact quotient, rounded
    once to the nearest double. *)
Definition truediv (a b : Z) : float :=
  SF2Prim (SFdiv prec emax (SF_of_Z (a <? 0) (Z.abs a))
                           (SF_of_Z (b <? 0) (Z.abs b))).

(** Nearest integer to [num / den], ties to the even one ([0 < den]). *)
Definition div_half_even (num den : Z) : Z :=
  let q := num / den in
  let r := num mod den in
  match 2 * r ?= den with
  | Lt => q
  | Gt => q + 1
  | Eq => if Z.even q then q else q + 1
  end.

(** The builtin [round(x, 2)]: the exact value of [x] is rounded to two
    decimals, ties to even, and the decimal is read back as the nearest
    double (CPython's [double_round]: [dtoa] in mode 3, then [strtod]).
    Infinities, [nan] and floats without a fractional part are returned
    as they are. *)
Definition round2 (x : float) : float :=
  match Prim2SF x with
  | S754_finite s m e =>
      if 0 <=? e then x
      else
        let k := div_half_even (Zpos m * 100) (2 ^ (- e)) in
        SF2Prim (SFdiv prec emax (SF_of_Z s k) (SF_of_Z false 100))
  | _ => x
  end.

(** The builtin [int(x)] on a finite float: truncation toward zero.
    (On [nan] and the infinities Python raises; the clock never returns
    those, and the model answers [0] there.) *)
Definition to_int (x : float) : Z :=
  match Prim2SF x with
  | S754_finite s m e =>
      let a := if 0 <=? e then Zpos m * 2 ^ e else Zpos m / 2 ^ (- e) in
      if s then - a else a
  | _ => 0
  end.

End PyFloat.

(** ** Data model ([models/schemas.py]) *)

Record PingResult := mkPingResult {
  host : string;
  timestamp : Z;
  latency : option float;
  success : bool;
  error : option string
}.

Record Host := mkHost {
  id : option Z;
  hostname : string;
  display_name : string;
  enabled : bool;
  created_at : option Z
}.

(** ** Settings ([config/settings.py]) *)

Record Settings := mkSettings {
  ping_interval : Z;
  ping_timeout : Z;
  ping_retries : Z;
  retention_days : Z;
  cleanup_hour : Z
}.

Definition default_settings : Settings :=
  {| ping_interval := 60; ping_timeout := 5; ping_retries := 2;
     retention_days := 120; cleanup_hour := 2 |}.

(** ** Persisted layout ([SCHEMA] in [config/database.py]) *)

(** A row of [ping_results]; [success] is the stored INTEGER. *)
Record ping_results_row := mkPingRow {
  row_host : string;
  row_timestamp : Z;
  row_latency : option float;
  row_success : Z;
  row_error : option string
}.

(** A row of [hosts]. *)
Record hosts_row := mkHostRow {
  row_id : Z;
  row_hostname : string;
  row_display_name : string;
  row_enabled : Z;
  row_created_at : Z
}.

(** The database file: both tables in rowid order, each with its
    AUTOINCREMENT counter (the largest id ever handed out).  The id of a
    [ping_results] row is never read back, so those rows do not carry it. *)
Record store := mkStore {
  ping_results : list ping_results_row;
  ping_results_seq : Z;
  hosts : list hosts_row;
  hosts_seq : Z
}.

(** ** Exceptions and the world *)

Inductive exn :=
| Exception (msg : string)
| HTTPException (status_code : Z) (detail : string).

(** [str(e)] *)
Definition str (e : exn) : string :=
  match e with
  | Exception msg => msg
  | HTTPException _ detail => detail
  end.

Inductive result (A : Type) :=
| Ok (a : A)
| Raise (e : exn).
Arguments Ok {A} a.
Arguments Raise {A} e.

(** What [pythonping.ping] hands back: [success()] and [rtt_avg_ms]. *)
Record ResponseList := mkResponse {
  resp_success : bool;
  rtt_avg_ms : float
}.

Inductive event :=
| EvPing (target : string) (timeout_s : Z)
| EvSleep (seconds : float).

(** Everything outside the program.  [w_faults] is the fate of the coming
    database connections ([Some msg]: the statement raises [msg]), [w_net]
    the fate of the n-th call of [ping], [w_time] what [time.time()]
    returns, [w_trace] the calls made so far, oldest first. *)
Record world := mkWorld {
  w_db : store;
  w_faults : list (option string);
  w_net : nat → result ResponseList;
  w_time : float;
  w_trace : list event
}.

Definition M (A : Type) : Type := world → result A * world.

Global Instance M_ret : MRet M := λ A a w, (Ok a, w).
Global Instance M_bind : MBind M := λ A B f m w,
  match m w with
  | (Ok a, w') => f a w'
  | (Raise e, w') => (Raise e, w')
  end.

Definition raise {A} (e : exn) : M A := λ w, (Raise e, w).

(** [try: body except Exception as e: handler e] *)
Definition try_except {A} (body : M A) (handler : exn → M A) : M A := λ w,
  match body w with
  | (Ok a, w') => (Ok a, w')
  | (Raise e, w') => handler e w'
  end.

(** ** Validation of the data model ([models/schemas.py]) *)

(** [Field(..., min_length=1, max_length=255)] on a [str]. *)
Definition field_ok (s : string) : Prop := (1 ≤ String.length s ≤ 255)%nat.

Global Instance field_ok_dec s : Decision (field_ok s).
Proof. unfold field_ok. apply _. Defined.

(** The two constrained fields of [Host]. *)
Definition valid_Host (h : Host) : Prop :=
  field_ok (hostname h) ∧ field_ok (display_name h).

Global Instance valid_Host_dec h : Decision (valid_Host h).
Proof. unfold valid_Host. apply _. Defined.

(** pydantic's [ValidationError] for a [Host].  Of [str(e)] only the
    first line is kept, which counts the fields that failed. *)
Definition ValidationError (h : Host) : exn :=
  Exception (if decide (field_ok (hostname h) ∨ field_ok (display_name h))
             then "1 validation error for Host"
             else "2 validation errors for Host").

(** [Host(id=..., hostname=..., display_name=..., enabled=...,
    created_at=...)]: the fields are validated when the object is built. *)
Definition Host_init (h : Host) : M Host :=
  if decide (valid_Host h) then mret h else raise (ValidationError h).

Definition is_ping (ev : event) : bool :=
  match ev with EvPing _ _ => true | EvSleep _ => false end.

(** Number of calls of [ping] recorded in a trace. *)
Definition pings_made (tr : list event) : nat := length (filter is_ping tr).

Definition time_time : M float := λ w, (Ok (w_time w), w).

Definition time_sleep (seconds : float) : M unit := λ w,
  (Ok tt, mkWorld (w_db w) (w_faults w) (w_net w) (w_time w)
            (w_trace w ++ [EvSleep seconds])).

(** [ping(host, count=1, timeout=..., verbose=False)] *)
Definition ping (target : string) (timeout_s : Z) : M ResponseList := λ w,
  (w_net w (pings_made (w_trace w)),
   mkWorld (w_db w) (w_faults w) (w_net w) (w_time w)
     (w_trace w ++ [EvPing target timeout_s])).

(** ** The probe executor ([services/ping_service.py]) *)

Record PingService := mkPingService {
  timeout : Z;
  retries : Z
}.

(** [x or y] on an optional int: [None] and [0] are false. *)
Definition py_or (x : option Z) (y : Z) : Z :=
  match x with
  | Some v => if v =? 0 then y else v
  | None => y
  end.

(** [PingService.__init__] *)
Definition PingService_init (settings : Settings)
    (timeout_arg retries_arg : option Z) : PingService :=
  {| timeout := py_or timeout_arg (ping_timeout settings);
     retries := py_or retries_arg (ping_retries settings) |}.

(** [range(n)] *)
Definition py_range (n : Z) : list Z := Z.of_nat <$> seq 0 (Z.to_nat n).

(** The literal [0.1] of [time.sleep(0.1)], as the double Python reads. *)
Definition sleep_delay : float := 0x1.999999999999ap-4%float.

(** One pass through the body of the [for] loop: [Some r] is [return r],
    [None] is [continue]. *)
Definition attempt_body (self : PingService) (target : string) (ts : Z)
    (attempt : Z) : M (option PingResult) :=
  try_except
    (response ← ping target (timeout self);
     if resp_success response then
       let latency_ms := rtt_avg_ms response in
       mret (Some (mkPingResult target ts
                     (Some (PyFloat.round2 latency_ms)) true None))
     else if attempt <? retries self then mret None
     else mret (Some (mkPingResult target ts None false
                        (Some "Host unreachable or timeout"%string))))
    (λ e,
     if attempt <? retries self then time_sleep sleep_delay ;; mret None
     else mret (Some (mkPingResult target ts None false (Some (str e))))).

Fixpoint for_attempts (self : PingService) (target : string) (ts : Z)
    (attempts : list Z) : M PingResult :=
  match attempts with
  | [] =>
      mret (mkPingResult target ts None false
              (Some "Maximum retries exceeded"%string))
  | attempt :: rest =>
      r ← attempt_body self target ts attempt;
      match r with
      | Some res => mret res
      | None => for_attempts self target ts rest
      end
  end.

(** [PingService.execute_ping] *)
Definition execute_ping (self : PingService) (target : string) : M PingResult :=
  t ← time_time;
  let ts := PyFloat.to_int (t * 1000)%float in
  for_attempts self target ts (py_range (retries self + 1)).

(** ** The connection manager ([config/database.py]) *)

Definition set_db (w : world) (s : store) (fs : list (option string)) : world :=
  mkWorld s fs (w_net w) (w_time w) (w_trace w).

(** [with self.get_connection() as conn: ...]: one connection, one
    transaction.  The statement's effect is committed when it returns and
    rolled back when it raises; the exception is raised again.  A fault of
    the storage ([w_faults]) raises before anything is changed. *)
Definition with_connection {A} (stmt : store → result A * store) : M A := λ w,
  let run fs :=
    match stmt (w_db w) with
    | (Ok a, s') => (Ok a, set_db w s' fs)
    | (Raise e, _) => (Raise e, set_db w (w_db w) fs)
    end in
  match w_faults w with
  | Some msg :: fs => (Raise (Exception msg), set_db w (w_db w) fs)
  | None :: fs => run fs
  | [] => run []
  end.

(** [Database.execute_query]: the rows of a SELECT. *)
Definition execute_query {A} (query : store → list A) : M (list A) :=
  with_connection (λ s, (Ok (query s), s)).

(** [Database.execute_update]: runs the statement and returns
    [cursor.lastrowid] ([None] unless the statement was an INSERT). *)
Definition execute_update (stmt : store → result (option Z) * store)
    : M (option Z) :=
  with_connection stmt.

(** [Database.vacuum]: its own connection, no change to the tables. *)
Definition vacuum : M unit :=
  with_connection (λ s, (Ok tt, s)).

(** An integer SQLite can hold: 64 bits, signed. *)
Definition sqlite_int (n : Z) : Prop := - 2 ^ 63 ≤ n < 2 ^ 63.

Global Instance sqlite_int_dec n : Decision (sqlite_int n).
Proof. unfold sqlite_int. apply _. Defined.

Definition OverflowError : exn :=
  Exception "Python int too large to convert to SQLite INTEGER".

(** [conn.execute(query, params)] binds the parameters before the
    statement runs and raises [OverflowError] for a Python int that does
    not fit.  [params] lists the ints a caller of the repository supplies
    (an id, the bounds of a window, a limit).  Timestamps and cutoffs that
    the program reads off the clock are not listed: they fit for every
    clock and retention setting of a running system. *)
Definition bind {A} (params : list Z) (stmt : store → result A * store)
    (s : store) : result A * store :=
  if decide (Forall sqlite_int params) then stmt s else (Raise OverflowError, s).

(** [Database.execute_query] and [Database.execute_update] with ints of
    the caller among the parameters. *)
Definition execute_query_with {A} (params : list Z) (query : store → list A)
    : M (list A) :=
  with_connection (bind params (λ s, (Ok (query s), s))).

Definition execute_update_with (params : list Z)
    (stmt : store → result (option Z) * store) : M (option Z) :=
  with_connection (bind params stmt).

(** ** The order in which SQLite hands out rows *)

Section StableSort.

Context {A : Type} (R : A → A → Prop) `{∀ x y, Decision (R x y)}.

(** [x] goes in front of the first element it may precede. *)
Fixpoint insert_sorted (x : A) (l : list A) : list A :=
  match l with
  | [] => [x]
  | y :: l' => if decide (R x y) then x :: y :: l' else y :: insert_sorted x l'
  end.

(** Sorting that keeps elements of equal rank in the order of the input,
    as an index does with its rowid column and the sorter of an
    [ORDER BY] with its sequence number. *)
Definition stable_sort (l : list A) : list A := foldr insert_sorted [] l.

End StableSort.

(** ** The SQL statements of [repositories/ping_repository.py] *)

Module SQL.

(** [LIMIT ?]: a negative limit is no limit. *)
Definition limit {A} (n : Z) (l : list A) : list A :=
  if n <? 0 then l else take (Z.to_nat n) l.

(** [timestamp DESC], the order of the index. *)
Definition timestamp_ge (a b : ping_results_row) : Prop :=
  row_timestamp b ≤ row_timestamp a.

Global Instance timestamp_ge_dec a b : Decision (timestamp_ge a b).
Proof. unfold timestamp_ge. apply _. Defined.

(** Every statement that selects probe rows by host is answered through
    [idx_host_timestamp ON ping_results(host, timestamp DESC)]: the rows
    are visited newest first, rows of one timestamp in rowid order. *)
Definition newest_first : list ping_results_row → list ping_results_row :=
  stable_sort timestamp_ge.

(** [ORDER BY timestamp ASC]: the index is walked backwards. *)
Definition order_by_timestamp (rows : list ping_results_row)
    : list ping_results_row :=
  reverse (newest_first rows).

(** [WHERE host = ? AND timestamp BETWEEN ? AND ?] *)
Definition in_range (h : string) (start_time end_time : Z)
    (r : ping_results_row) : Prop :=
  row_host r = h ∧ start_time ≤ row_timestamp r ∧ row_timestamp r ≤ end_time.

Global Instance in_range_dec h a b r : Decision (in_range h a b r).
Proof. unfold in_range. apply _. Defined.

(** [INSERT INTO ping_results (host, timestamp, latency, success, error)
    VALUES (?, ?, ?, ?, ?)] *)
Definition insert_ping (r : ping_results_row) (s : store)
    : result (option Z) * store :=
  let i := 1 + ping_results_seq s in
  (Ok (Some i), mkStore (ping_results s ++ [r]) i (hosts s) (hosts_seq s)).

(** [SELECT host, timestamp, latency, success, error FROM ping_results
    WHERE host = ? AND timestamp BETWEEN ? AND ?
    ORDER BY timestamp ASC LIMIT ?] *)
Definition select_ping_data (h : string) (start_time end_time lim : Z)
    (s : store) : list ping_results_row :=
  limit lim
    (order_by_timestamp (filter (in_range h start_time end_time) (ping_results s))).

(** [SELECT ... FROM hosts WHERE id = ?] *)
Definition select_host_by_id (host_id : Z) (s : store) : list hosts_row :=
  filter (λ r, row_id r = host_id) (hosts s).

(** [SELECT ... FROM hosts WHERE hostname = ?] *)
Definition select_host_by_hostname (name : string) (s : store)
    : list hosts_row :=
  filter (λ r, row_hostname r = name) (hosts s).

(** The rowid AUTOINCREMENT picks: one more than the largest ever used. *)
Definition next_host_id (s : store) : Z :=
  1 + foldr Z.max (hosts_seq s) (row_id <$> hosts s).

(** [INSERT INTO hosts (hostname, display_name, enabled, created_at)
    VALUES (?, ?, 1, ?)]; [hostname] is UNIQUE. *)
Definition insert_host (name display : string) (created : Z) (s : store)
    : result (option Z) * store :=
  if bool_decide (name ∈ row_hostname <$> hosts s) then
    (Raise (Exception "UNIQUE constraint failed: hosts.hostname"), s)
  else
    let i := next_host_id s in
    (Ok (Some i),
     mkStore (ping_results s) (ping_results_seq s)
       (hosts s ++ [mkHostRow i name display 1 created]) i).

(** [DELETE FROM ping_results WHERE host = ?] *)
Definition delete_pings_of (h : string) (s : store)
    : result (option Z) * store :=
  (Ok None,
   mkStore (filter (λ r, row_host r ≠ h) (ping_results s))
     (ping_results_seq s) (hosts s) (hosts_seq s)).

(** [DELETE FROM hosts WHERE id = ?] *)
Definition delete_host_row (host_id : Z) (s : store)
    : result (option Z) * store :=
  (Ok None,
   mkStore (ping_results s) (ping_results_seq s)
     (filter (λ r, row_id r ≠ host_id) (hosts s)) (hosts_seq s)).

(** [SELECT COUNT( * ) as count FROM ping_results WHERE timestamp < ?] *)
Definition count_older (cutoff : Z) (s : store) : list Z :=
  [Z.of_nat (length (filter (λ r, row_timestamp r < cutoff) (ping_results s)))].

(** [DELETE FROM ping_results WHERE timestamp < ?] *)
Definition delete_older (cutoff : Z) (s : store)
    : result (option Z) * store :=
  (Ok None,
   mkStore (filter (λ r, ¬ row_timestamp r < cutoff) (ping_results s))
     (ping_results_seq s) (hosts s) (hosts_seq s)).

(** The one row of the aggregate query of [calculate_stats]. *)
Record stats_row := mkStatsRow {
  avg_latency : option float;
  min_latency : option float;
  max_latency : option float;
  total_pings : Z;
  successful_pings : option Z
}.

(** [AVG(latency)]: NULLs are skipped; NULL when nothing is left.  The
    values are added up one by one, in the order in which the rows are
    visited, and the sum is divided by their number ([sumStep] and
    [avgFinalize] of SQLite 3.40; newer releases of SQLite carry a
    compensation term beside the sum, which is not modelled). *)
Definition avg (xs : list float) : option float :=
  match xs with
  | [] => None
  | _ => Some (foldl PrimFloat.add 0%float xs / PyFloat.of_Z (Z.of_nat (length xs)))%float
  end.

(** [MIN(latency)] and [MAX(latency)] *)
Definition min (xs : list float) : option float :=
  match xs with
  | [] => None
  | x :: rest => Some (foldl (λ m y, if (y <? m)%float then y else m) x rest)
  end.

Definition max (xs : list float) : option float :=
  match xs with
  | [] => None
  | x :: rest => Some (foldl (λ m y, if (m <? y)%float then y else m) x rest)
  end.

(** [SUM(CASE WHEN success = 1 THEN 1 ELSE 0 END)]: NULL over no row. *)
Definition sum_success (rows : list ping_results_row) : option Z :=
  match rows with
  | [] => None
  | _ => Some (foldr (λ r acc, (if row_success r =? 1 then 1 else 0) + acc) 0 rows)
  end.

(** [SELECT AVG(latency), MIN(latency), MAX(latency), COUNT( * ),
    SUM(CASE WHEN success = 1 THEN 1 ELSE 0 END) FROM ping_results
    WHERE host = ? AND timestamp BETWEEN ? AND ?]: always one row. *)
Definition select_stats (h : string) (start_time end_time : Z) (s : store)
    : list stats_row :=
  let rows := newest_first (filter (in_range h start_time end_time) (ping_results s)) in
  let lats := omap row_latency rows in
  [mkStatsRow (avg lats) (min lats) (max lats)
     (Z.of_nat (length rows)) (sum_success rows)].

End SQL.

(** ** Python values and dicts *)

(** [datetime.now()]: the wall clock at the call. *)
Record datetime := mkDatetime { posix : float }.

Inductive pyval :=
| VNone
| VBool (b : bool)
| VInt (n : Z)
| VFloat (x : float)
| VStr (s : string)
| VIsoformat (d : datetime).  (* the text [d.isoformat()] *)

Abbreviation dict := (gmap string pyval).

(** [round(v, 2)] on a number: an int is returned as it is. *)
Definition round2_val (v : pyval) : pyval :=
  match v with
  | VFloat x => VFloat (PyFloat.round2 x)
  | _ => v
  end.

Definition datetime_now : M datetime := λ w, (Ok (mkDatetime (w_time w)), w).

(** ** The repository ([repositories/ping_repository.py]) *)

Module PingRepository.

Definition to_row (r : PingResult) : ping_results_row :=
  mkPingRow (host r) (timestamp r) (latency r)
    (if success r then 1 else 0) (error r).

(** [PingResult(host=row["host"], ..., success=bool(row["success"]), ...)] *)
Definition of_row (row : ping_results_row) : PingResult :=
  mkPingResult (row_host row) (row_timestamp row) (row_latency row)
    (negb (row_success row =? 0)) (row_error row).

(** The fields [Host(id=row["id"], ..., enabled=bool(row["enabled"]), ...)]
    is given. *)
Definition host_of_row (row : hosts_row) : Host :=
  mkHost (Some (row_id row)) (row_hostname row) (row_display_name row)
    (negb (row_enabled row =? 0)) (Some (row_created_at row)).

Definition insert_ping_result (r : PingResult) : M unit :=
  execute_update (SQL.insert_ping (to_row r)) ;; mret tt.

Definition get_ping_data (h : string) (start_time end_time : Z) (limit : Z)
    : M (list PingResult) :=
  rows ← execute_query_with [start_time; end_time; limit]
           (SQL.select_ping_data h start_time end_time limit);
  mret (of_row <$> rows).

(** The default [limit: int = 1000] *)
Definition default_limit : Z := 1000.

Definition get_host_by_id (host_id : Z) : M (option Host) :=
  rows ← execute_query_with [host_id] (SQL.select_host_by_id host_id);
  match rows with
  | [] => mret None
  | row :: _ => h ← Host_init (host_of_row row); mret (Some h)
  end.

Definition get_host_by_hostname (name : string) : M (option Host) :=
  rows ← execute_query (SQL.select_host_by_hostname name);
  match rows with
  | [] => mret None
  | row :: _ => h ← Host_init (host_of_row row); mret (Some h)
  end.

Definition add_host (name display : string) : M Host :=
  t ← time_time;
  let created := PyFloat.to_int (t * 1000)%float in
  host_id ← execute_update (SQL.insert_host name display created);
  Host_init (mkHost host_id name display true (Some created)).

Definition delete_host (host_id : Z) : M bool :=
(* First check if host exists *)
  h ← get_host_by_id host_id;
  match h with
  | None => mret false
  | Some h =>
      (* Delete ping data *)
      execute_update (SQL.delete_pings_of (hostname h)) ;;
      (* Delete host *)
      execute_update_with [host_id] (SQL.delete_host_row host_id) ;;
      mret true
  end.

(** [cutoff_time = int((time.time() - (retention_days * 24 * 60 * 60)) * 1000)] *)
Definition cutoff_time (t : float) (days : Z) : Z :=
  PyFloat.to_int ((t - PyFloat.of_Z (days * 24 * 60 * 60)) * 1000)%float.

(** The body of [delete_old_pings] once the cutoff is known: count the
    rows to delete, delete them, return the count. *)
Definition delete_older_than (cutoff : Z) : M Z :=
  rows ← execute_query (SQL.count_older cutoff);
  let count := match rows with c :: _ => c | [] => 0 end in
  execute_update (SQL.delete_older cutoff) ;;
  mret count.

Definition delete_old_pings (days : Z) : M Z :=
  t ← time_time;
  delete_older_than (cutoff_time t days).

(** [round(x, 2) if x else None] on a nullable aggregate *)
Definition rounded_or_none (x : option float) : pyval :=
  match x with
  | Some v => if PyFloat.truthy v then VFloat (PyFloat.round2 v) else VNone
  | None => VNone
  end.

Definition no_stats : dict :=
  {[ "avg_latency" := VNone; "min_latency" := VNone;
     "max_latency" := VNone; "success_rate" := VFloat 0 ]}.

Definition calculate_stats (h : string) (start_time end_time : Z) : M dict :=
  rows ← execute_query_with [start_time; end_time]
           (SQL.select_stats h start_time end_time);
  match rows with
  | [] => mret no_stats
  | row :: _ =>
      if SQL.total_pings row =? 0 then mret no_stats
      else
        success_rate ←
          (if 0 <? SQL.total_pings row then
             match SQL.successful_pings row with
             | Some n =>
                 mret (VFloat (PyFloat.truediv n (SQL.total_pings row) * 100)%float)
             | None =>
                 raise (Exception "unsupported operand type(s) for /: 'NoneType' and 'int'")
             end
           else mret (VInt 0));
        mret ({[ "avg_latency" := rounded_or_none (SQL.avg_latency row);
                 "min_latency" := rounded_or_none (SQL.min_latency row);
                 "max_latency" := rounded_or_none (SQL.max_latency row);
                 "success_rate" := round2_val success_rate ]} : dict)
  end.

End PingRepository.

(** ** The add-host route ([routers/api.py]) *)

Module api.

Record HostCreate := mkHostCreate {
  new_hostname : string;
  new_display_name : string
}.

(** The constraints of [HostCreate]; FastAPI builds the object from the
    request and answers 422 before the route runs when they fail. *)
Definition valid_HostCreate (hc : HostCreate) : Prop :=
  field_ok (new_hostname hc) ∧ field_ok (new_display_name hc).

Definition add_host (host_create : HostCreate) : M Host :=
  try_except
    ((* Check if hostname already exists *)
     existing ← PingRepository.get_host_by_hostname (new_hostname host_create);
     match existing with
     | Some _ =>
         raise (HTTPException 409
                  ("Host '" +:+ new_hostname host_create +:+ "' already exists"))
     | None =>
         (* Add the host *)
         PingRepository.add_host (new_hostname host_create)
           (new_display_name host_create)
     end)
    (λ e,
     match e with
     | HTTPException _ _ => raise e
     | Exception _ => raise (HTTPException 500 "Failed to add host")
     end).

End api.

(** ** Manual retention triggers ([services/cleanup_service.py]) *)

Module CleanupService.

Record t := mk {
  running : bool;
  last_cleanup : option datetime;
  last_vacuum : option datetime
}.

(** [CleanupService.__init__] *)
Definition init : t := mk false None None.

Definition cleanup_now (settings : Settings) (self : t) : M (dict * t) :=
  try_except
    (deleted_count ← PingRepository.delete_old_pings (retention_days settings);
     now ← datetime_now;
     let self' := mk (running self) (Some now) (last_vacuum self) in
     mret ({[ "success" := VBool true;
              "deleted_count" := VInt deleted_count;
              "timestamp" := VIsoformat now ]} : dict, self'))
    (λ e,
     mret ({[ "success" := VBool false;
              "error" := VStr (str e);
              "deleted_count" := VInt 0 ]} : dict, self)).

Definition vacuum_now (self : t) : M (dict * t) :=
  try_except
    (vacuum ;;
     now ← datetime_now;
     let self' := mk (running self) (last_cleanup self) (Some now) in
     mret ({[ "success" := VBool true;
              "timestamp" := VIsoformat now ]} : dict, self'))
    (λ e,
     mret ({[ "success" := VBool false;
              "error" := VStr (str e) ]} : dict, self)).

End CleanupService.

(** ** The out-of-band probe ([services/scheduler_service.py]) *)

Module SchedulerService.

Definition opt_float (x : option float) : pyval :=
  match x with Some v => VFloat v | None => VNone end.

Definition opt_str (x : option string) : pyval :=
  match x with Some v => VStr v | None => VNone end.

(** [SchedulerService.ping_now], over the module's [ping_service]. *)
Definition ping_now (ping_service : PingService) (target : string) : M dict :=
  try_except
    (r ← execute_ping ping_service target;
     PingRepository.insert_ping_result r ;;
     mret ({[ "success" := VBool (success r);
              "latency" := opt_float (latency r);
              "timestamp" := VInt (timestamp r);
              "error" := opt_str (error r) ]} : dict))
    (λ e,
     mret ({[ "success" := VBool false;
              "latency" := VNone;
              "timestamp" := VNone;
              "error" := VStr (str e) ]} : dict)).

End SchedulerService.

(** ** Vocabulary of the properties *)

(** The invariant of a probe result in the data model. *)
Definition probe_invariant (r : PingResult) : Prop :=
  if success r then is_Some (latency r)
  else latency r = None ∧ is_Some (error r).

(** An attempt that fails: no reply, or an exception of the transport. *)
Definition failing (o : result ResponseList) : Prop :=
  match o with
  | Ok resp => resp_success resp = false
  | Raise _ => True
  end.

(** A soft failure: the call returns, without a reply. *)
Definition soft_failure (o : result ResponseList) : Prop :=
  match o with
  | Ok resp => resp_success resp = false
  | Raise _ => False
  end.

(** The error text the executor reports for a last attempt that failed. *)
Definition failure_text (o : result ResponseList) : string :=
  match o with
  | Ok _ => "Host unreachable or timeout"
  | Raise e => str e
  end.

(** The world once [ping] has been called, and once the executor slept. *)
Definition pinged (target : string) (timeout_s : Z) (w : world) : world :=
  mkWorld (w_db w) (w_faults w) (w_net w) (w_time w)
    (w_trace w ++ [EvPing target timeout_s]).

Definition slept (w : world) : world :=
  mkWorld (w_db w) (w_faults w) (w_net w) (w_time w)
    (w_trace w ++ [EvSleep sleep_delay]).

(** Calls of [ping] made by a run from [w] to [w']. *)
Definition attempts_made (w w' : world) : Z :=
  Z.of_nat (pings_made (w_trace w')) - Z.of_nat (pings_made (w_trace w)).

(** Every attempt of a run of the executor from [w] has outcome [P]: the
    run calls [ping] at most [retries + 1] times. *)
Definition every_attempt (P : result ResponseList → Prop) (self : PingService)
    (w : world) : Prop :=
  ∀ k : nat, (k ≤ Z.to_nat (retries self))%nat →
    P (w_net w (pings_made (w_trace w) + k)%nat).

(** A transport for the examples: two lost replies, then an answer. *)
Definition flaky_net (n : nat) : result ResponseList :=
  match n with
  | 0%nat => Ok (mkResponse false 0)
  | 1%nat => Raise (Exception "Network is unreachable")
  | _ => Ok (mkResponse true 12.3125)
  end.

Definition silent_net (_ : nat) : result ResponseList :=
  Ok (mkResponse false 0).

Definition broken_net (_ : nat) : result ResponseList :=
  Raise (Exception "Temporary failure in name resolution").

Definition empty_store : store := mkStore [] 0 [] 0.

Definition quiet_world (s : store) (net : nat → result ResponseList) : world :=
  mkWorld s [] net 1702468800.5 [].



(** The rows of [hosts] with a given id, and the rows of [ping_results] of
    a given hostname. *)
Definition host_rows (host_id : Z) (s : store) : list hosts_row :=
  filter (λ r, row_id r = host_id) (hosts s).

Definition probe_rows (name : string) (s : store) : list ping_results_row :=
  filter (λ r, row_host r = name) (ping_results s).

(** [hostname] is UNIQUE in [hosts]. *)
Definition unique_hostnames (s : store) : Prop :=
  NoDup (row_hostname <$> hosts s).

(** A row of [hosts] that [Host] accepts when it is read back, and a
    [hosts] table of such rows. *)
Definition readable (row : hosts_row) : Prop :=
  valid_Host (PingRepository.host_of_row row).

Global Instance readable_dec row : Decision (readable row).
Proof. unfold readable. apply _. Defined.

Definition readable_hosts (s : store) : Prop := Forall readable (hosts s).

(** A store for the examples: two hosts, three probes. *)
Definition example_store : store :=
  mkStore
    [mkPingRow "router.local" 1702468700000 (Some 0.25%float) 1 None;
     mkPingRow "8.8.8.8" 1702468700005 None 0
       (Some "Host unreachable or timeout"%string);
     mkPingRow "router.local" 1702468760000 (Some 0.5%float) 1 None]
    3
    [mkHostRow 1 "router.local" "Home Router" 1 1702468000000;
     mkHostRow 2 "8.8.8.8" "Google DNS" 1 1702468000001]
    2.

(** The store the seeding of the hostname [".local"] leaves behind: the
    row is committed with the empty display name [''.title()]. *)
Definition dot_local_store : store :=
  mkStore [] 0 [mkHostRow 1 ".local" "" 1 1702468800500] 1.

(** The example store on a disk that fails at the third connection. *)
Definition failing_disk_world : world :=
  mkWorld example_store [None; None; Some "disk I/O error"%string]
    silent_net 1702468800.5 [].

(** The store once the probe rows of a hostname, or the host row of an id,
    have been deleted. *)
Definition without_probes (name : string) (s : store) : store :=
  mkStore (filter (λ p, row_host p ≠ name) (ping_results s))
    (ping_results_seq s) (hosts s) (hosts_seq s).

Definition without_host (host_id : Z) (s : store) : store :=
  mkStore (ping_results s) (ping_results_seq s)
    (filter (λ h, row_id h ≠ host_id) (hosts s)) (hosts_seq s).

(** Probe results as the repository reads them back, the window of a range
    query, and the order of its answer. *)
Definition stored_results (s : store) : list PingResult :=
  PingRepository.of_row <$> ping_results s.

Definition in_window (h : string) (start_time end_time : Z) (r : PingResult) : Prop :=
  host r = h ∧ start_time ≤ timestamp r ∧ timestamp r ≤ end_time.

Global Instance in_window_dec h a b r : Decision (in_window h a b r).
Proof. unfold in_window. apply _. Defined.

Definition by_timestamp (a b : PingResult) : Prop := timestamp a ≤ timestamp b.

(** A probe result for the examples. *)
Definition new_probe : PingResult :=
  mkPingResult "router.local" 1702468800000 (Some 12.5%float) true None.

(** The rows of a statistics window in the order the statement visits
    them, its successes, and the latencies that rows carry. *)
Definition window_rows (h : string) (start_time end_time : Z) (s : store)
    : list ping_results_row :=
  SQL.newest_first (filter (SQL.in_range h start_time end_time) (ping_results s)).

Definition successes (rows : list ping_results_row) : list ping_results_row :=
  filter (λ r, row_success r = 1) rows.

Definition latencies (rows : list ping_results_row) : list float :=
  omap row_latency rows.

(** Four successes of one host, a minute apart, with the latencies 20.41,
    21.02, 29.81 and 47.82 ms as doubles. *)
Definition four_probes_store : store :=
  mkStore
    [mkPingRow "nas.local" 1702468500000 (Some 0x1.468f5c28f5c29p+4%float) 1 None;
     mkPingRow "nas.local" 1702468560000 (Some 0x1.5051eb851eb85p+4%float) 1 None;
     mkPingRow "nas.local" 1702468620000 (Some 0x1.dcf5c28f5c28fp+4%float) 1 None;
     mkPingRow "nas.local" 1702468680000 (Some 0x1.7e8f5c28f5c29p+5%float) 1 None]
    4 [] 0.

(** A row as the scheduler stores it: an executor result that satisfies
    the invariant, written by [insert_ping_result]. *)
Definition executor_row (row : ping_results_row) : Prop :=
  ∃ r, probe_invariant r ∧ row = PingRepository.to_row r.

(** An entry of the dict a call returned, [None] when the call raised or
    the key is missing. *)
Definition entry {S : Type} (key : string) (run : result dict * S) : option pyval :=
  match fst run with
  | Ok d => d !! key
  | Raise _ => None
  end.

(** A reply within 4 microseconds, as a host on the same machine gives. *)
Definition loopback_net (_ : nat) : result ResponseList :=
  Ok (mkResponse true 0.00390625).

(** The store after one probe of such a host. *)
Definition loopback_store : store :=
  mkStore [mkPingRow "127.0.0.1" 1702468800500 (Some 0%float) 1 None] 1
    [mkHostRow 1 "127.0.0.1" "This machine" 1 1702468000000] 1.

(** The store before that probe: the host is registered, nothing is
    recorded yet. *)
Definition loopback_registered : store :=
  mkStore [] 0 [mkHostRow 1 "127.0.0.1" "This machine" 1 1702468000000] 1.

(** A world whose storage refuses the next connection. *)
Definition locked_world : world :=
  mkWorld example_store [Some "database is locked"%string] silent_net
    1702468800.5 [].

(** The dict a manual trigger hands back, without the updated service. *)
Definition handed_back {S : Type} (run : result (dict * CleanupService.t) * S)
    : result dict * S :=
  (match fst run with
   | Ok (d, _) => Ok d
   | Raise e => Raise e
   end, snd run).

(** The two shapes of the dict of a manual trigger; [counted] tells the
    cleanup, which reports [deleted_count], from the vacuum, which does
    not. *)
Definition success_reply (counted : bool) (d : dict) : Prop :=
  d !! "success" = Some (VBool true)
  ∧ (∃ now, d !! "timestamp" = Some (VIsoformat now))
  ∧ (if counted then ∃ n, d !! "deleted_count" = Some (VInt n)
     else d !! "deleted_count" = None)
  ∧ d !! "error" = None.

Definition failure_reply (counted : bool) (d : dict) : Prop :=
  d !! "success" = Some (VBool false)
  ∧ (∃ msg, d !! "error" = Some (VStr msg))
  ∧ (if counted then d !! "deleted_count" = Some (VInt 0)
     else d !! "deleted_count" = None)
  ∧ d !! "timestamp" = None.

(** ** Host listing and current status ([repositories/ping_repository.py]) *)

Module StatusSQL.

(** [ORDER BY display_name ASC]: the order of the bytes; rows of one
    display name stay in rowid order. *)
Definition display_name_le (a b : hosts_row) : Prop :=
  String.le (row_display_name a) (row_display_name b).

Global Instance display_name_le_dec a b : Decision (display_name_le a b).
Proof. unfold display_name_le. apply _. Defined.

(** [SELECT id, hostname, display_name, enabled, created_at FROM hosts
    ORDER BY display_name ASC] *)
Definition select_hosts (s : store) : list hosts_row :=
  stable_sort display_name_le (hosts s).

(** [SELECT timestamp, latency, success FROM ping_results WHERE host = ?
    ORDER BY timestamp DESC LIMIT 1]: the first row of the index. *)
Definition select_recent (h : string) (s : store) : list ping_results_row :=
  SQL.limit 1 (SQL.newest_first (filter (λ r, row_host r = h) (ping_results s))).

(** The one row of the 24-hour aggregate. *)
Record day_row := mkDayRow {
  avg_latency : option float;
  total_pings : Z;
  successful_pings : option Z
}.

(** [SELECT AVG(latency), COUNT( * ),
    SUM(CASE WHEN success = 1 THEN 1 ELSE 0 END) FROM ping_results
    WHERE host = ? AND timestamp >= ?] *)
Definition select_day_stats (h : string) (since : Z) (s : store) : list day_row :=
  let rows :=
    SQL.newest_first
      (filter (λ r, row_host r = h ∧ since ≤ row_timestamp r) (ping_results s)) in
  [mkDayRow (SQL.avg (omap row_latency rows)) (Z.of_nat (length rows))
     (SQL.sum_success rows)].

End StatusSQL.

Module HostStatus.

Record t := mk {
  id : Z;
  hostname : string;
  display_name : string;
  enabled : bool;
  last_ping : option Z;
  latency : option float;
  success : bool;
  last_24h_avg : option float;
  uptime_24h : option float
}.

End HostStatus.

Module StatusRepository.

(** [[Host(id=row["id"], ...) for row in rows]]: the objects are built
    row by row, and the first row that [Host] refuses ends the loop. *)
Fixpoint hosts_of_rows (rows : list hosts_row) : M (list Host) :=
  match rows with
  | [] => mret []
  | row :: rest =>
      h ← Host_init (PingRepository.host_of_row row);
      hs ← hosts_of_rows rest;
      mret (h :: hs)
  end.

(** [PingRepository.get_hosts] *)
Definition get_hosts : M (list Host) :=
  rows ← execute_query StatusSQL.select_hosts;
  hosts_of_rows rows.

(** [status.last_ping = ...; status.latency = ...; status.success = ...] *)
Definition set_recent (row : ping_results_row) (st : HostStatus.t) : HostStatus.t :=
  HostStatus.mk (HostStatus.id st) (HostStatus.hostname st)
    (HostStatus.display_name st) (HostStatus.enabled st)
    (Some (row_timestamp row)) (row_latency row) (negb (row_success row =? 0))
    (HostStatus.last_24h_avg st) (HostStatus.uptime_24h st).

(** [status.last_24h_avg = ...; status.uptime_24h = ...] *)
Definition set_day (day_avg : option float) (uptime : float) (st : HostStatus.t)
    : HostStatus.t :=
  HostStatus.mk (HostStatus.id st) (HostStatus.hostname st)
    (HostStatus.display_name st) (HostStatus.enabled st)
    (HostStatus.last_ping st) (HostStatus.latency st) (HostStatus.success st)
    day_avg (Some uptime).

(** One pass through the loop of [get_current_status].  [HostStatus]
    wants an [int] for [id]; a host read from the table has one. *)
Definition status_of_host (h : Host) : M HostStatus.t :=
  (* Get most recent ping *)
  recent ← execute_query (StatusSQL.select_recent (hostname h));
  (* Calculate 24h statistics *)
  t ← time_time;
  let now := PyFloat.to_int (t * 1000)%float in
  let day_ago := now - 24 * 60 * 60 * 1000 in
  stats ← execute_query (StatusSQL.select_day_stats (hostname h) day_ago);
  (* Build status object *)
  match id h with
  | None => raise (Exception "id: Input should be a valid integer")
  | Some i =>
      let status :=
        HostStatus.mk i (hostname h) (display_name h) (enabled h)
          None None false None None in
      let status :=
        match recent with
        | row :: _ => set_recent row status
        | [] => status
        end in
      match stats with
      | day :: _ =>
          if 0 <? StatusSQL.total_pings day then
            match StatusSQL.successful_pings day with
            | Some n =>
                let success_rate :=
                  (PyFloat.truediv n (StatusSQL.total_pings day) * 100)%float in
                mret (set_day (StatusSQL.avg_latency day)
                        (PyFloat.round2 success_rate) status)
            | None =>
                raise (Exception
                  "unsupported operand type(s) for /: 'NoneType' and 'int'")
            end
          else mret status
      | [] => mret status
      end
  end.

Fixpoint status_loop (hs : list Host) (status_list : list HostStatus.t)
    : M (list HostStatus.t) :=
  match hs with
  | [] => mret status_list
  | h :: rest =>
      status ← status_of_host h;
      status_loop rest (status_list ++ [status])
  end.

(** [PingRepository.get_current_status] *)
Definition get_current_status : M (list HostStatus.t) :=
  hs ← get_hosts;
  status_loop hs [].

End StatusRepository.

(** ** One scheduled probe ([services/scheduler_service.py]) *)

Module SchedulerRound.

(** [SchedulerService._ping_and_store], for one host; the probe runs to
    its end before the result is stored. *)
Definition _ping_and_store (ping_service : PingService) (target : string) : M bool :=
  try_except
    (r ← execute_ping ping_service target;
     (* Store result in database *)
     PingRepository.insert_ping_result r ;;
     mret (success r))
    (λ e, mret false).

End SchedulerRound.

(** ** Scheduled retention jobs and status ([services/cleanup_service.py]) *)

Module CleanupJobs.

(** [CleanupService._run_cleanup] *)
Definition _run_cleanup (settings : Settings) (self : CleanupService.t)
    : M CleanupService.t :=
  try_except
    (deleted_count ← PingRepository.delete_old_pings (retention_days settings);
     now ← datetime_now;
     mret (CleanupService.mk (CleanupService.running self) (Some now)
             (CleanupService.last_vacuum self)))
    (λ e, mret self).

(** [CleanupService._run_vacuum] *)
Definition _run_vacuum (self : CleanupService.t) : M CleanupService.t :=
  try_except
    (vacuum ;;
     now ← datetime_now;
     mret (CleanupService.mk (CleanupService.running self)
             (CleanupService.last_cleanup self) (Some now)))
    (λ e, mret self).

(** [d.isoformat() if d else None] *)
Definition isoformat_or_none (d : option datetime) : pyval :=
  match d with
  | Some d => VIsoformat d
  | None => VNone
  end.

(** [CleanupService.get_status] *)
Definition get_status (settings : Settings) (self : CleanupService.t) : dict :=
  {[ "running" := VBool (CleanupService.running self);
     "last_cleanup" := isoformat_or_none (CleanupService.last_cleanup self);
     "last_vacuum" := isoformat_or_none (CleanupService.last_vacuum self);
     "retention_days" := VInt (retention_days settings);
     "cleanup_hour" := VInt (cleanup_hour settings) ]}.

End CleanupJobs.

(** ** The other routes ([routers/api.py]) *)

Module router.

(** [except HTTPException: raise / except Exception: raise
    HTTPException(status_code=500, detail=...)] *)
Definition reraise_or_500 {A} (detail : string) (e : exn) : M A :=
  match e with
  | HTTPException _ _ => raise e
  | Exception _ => raise (HTTPException 500 detail)
  end.

(** [except Exception: raise HTTPException(status_code=500, detail=...)] *)
Definition always_500 {A} (detail : string) (e : exn) : M A :=
  raise (HTTPException 500 detail).

Definition get_hosts : M (list Host) :=
  try_except StatusRepository.get_hosts (always_500 "Failed to fetch hosts").

Definition delete_host (host_id : Z) : M unit :=
  try_except
    (PingRepository.delete_host host_id ≫= λ deleted : bool,
     if deleted then mret tt
     else raise (HTTPException 404 "Host not found"))
    (reraise_or_500 "Failed to delete host").

Definition get_current_status : M (list HostStatus.t) :=
  try_except StatusRepository.get_current_status
    (always_500 "Failed to fetch current status").

Record PingDataResponse := mkPingDataResponse {
  response_host : string;
  data : list PingResult;
  stats : dict
}.

(** The body of the route; [limit] has passed the bounds the route
    declares ([ge=1, le=10000]). *)
Definition get_ping_data (name : string) (start_time end_time limit : Z)
    : M PingDataResponse :=
  try_except
    ((* Validate time range *)
     if end_time <=? start_time then
       raise (HTTPException 400 "Start time must be before end time")
     else
       d ← PingRepository.get_ping_data name start_time end_time limit;
       st ← PingRepository.calculate_stats name start_time end_time;
       mret (mkPingDataResponse name d st))
    (reraise_or_500 "Failed to fetch ping data").

Definition manual_ping (ping_service : PingService) (name : string) : M dict :=
  try_except (SchedulerService.ping_now ping_service name)
    (always_500 "Failed to execute ping").

Definition trigger_cleanup (settings : Settings) (self : CleanupService.t)
    : M (dict * CleanupService.t) :=
  try_except (CleanupService.cleanup_now settings self)
    (always_500 "Failed to trigger cleanup").

Definition trigger_vacuum (self : CleanupService.t) : M (dict * CleanupService.t) :=
  try_except (CleanupService.vacuum_now self)
    (always_500 "Failed to trigger vacuum").

End router.

(** ** Vocabulary of the further properties *)

Definition is_sleep (ev : event) : bool :=
  match ev with EvSleep _ => true | EvPing _ _ => false end.

(** Number of calls of [time.sleep] recorded in a trace. *)
Definition sleeps_made (tr : list event) : nat := length (filter is_sleep tr).

(** A hard failure: the transport raises. *)
Definition raised (o : result ResponseList) : bool :=
  match o with Raise _ => true | Ok _ => false end.

(** Among the calls [p, p+1, ..., p+k-1] of a transport, those that raise. *)
Fixpoint hard_failures_from (net : nat → result ResponseList) (p k : nat) : nat :=
  match k with
  | O => 0
  | S k' => (if raised (net p) then 1 else 0) + hard_failures_from net (S p) k'
  end.

(** Among the first [k] attempts of a run from [w], those that raise. *)
Definition hard_failures (w : world) (k : nat) : nat :=
  hard_failures_from (w_net w) (pings_made (w_trace w)) k.

(** Two worlds that differ at most in their trace, the second one's trace
    extending the first one's. *)
Definition only_trace_grows (w w' : world) : Prop :=
  w_db w' = w_db w ∧ w_faults w' = w_faults w ∧ w_net w' = w_net w
  ∧ w_time w' = w_time w ∧ ∃ evs, w_trace w' = w_trace w ++ evs.

(** A transport that raises twice and then answers in 12.3125 ms. *)
Definition recovering_net (n : nat) : result ResponseList :=
  match n with
  | 0%nat => Raise (Exception "Network is unreachable")
  | 1%nat => Raise (Exception "Network is unreachable")
  | _ => Ok (mkResponse true 12.3125)
  end.

(** A computation keeps a property of the database, whatever else happens
    in the world and however the computation ends. *)
Definition preserves {A} (P : store → Prop) (m : M A) : Prop :=
  ∀ w, P (w_db w) → P (w_db (snd (m w))).

(** What the schema promises of [hosts]: [hostname] is UNIQUE, [id] is a
    PRIMARY KEY, and AUTOINCREMENT has handed out every id in the table. *)
Definition store_ok (s : store) : Prop :=
  NoDup (row_hostname <$> hosts s)
  ∧ NoDup (row_id <$> hosts s)
  ∧ Forall (λ r, row_id r ≤ hosts_seq s) (hosts s).

(** The [hosts] table with its counter, and the [ping_results] table with
    its counter. *)
Definition hosts_table (s : store) : list hosts_row * Z := (hosts s, hosts_seq s).

Definition probes_table (s : store) : list ping_results_row * Z :=
  (ping_results s, ping_results_seq s).

(** The order of the host listing. *)
Definition by_display_name (a b : Host) : Prop :=
  String.le (display_name a) (display_name b).

(** The probe rows of a hostname in the 24 hours before the clock reading
    [t], in the order the statement visits them. *)
Definition day_rows (name : string) (t : float) (s : store) : list ping_results_row :=
  SQL.newest_first
    (filter (λ r, row_host r = name
                  ∧ PyFloat.to_int (t * 1000)%float - 24 * 60 * 60 * 1000 ≤ row_timestamp r)
       (ping_results s)).

(** What a status says of a row of [hosts], over the store [s] with the
    clock at [t]: the host's own columns; the latest probe, if any; and
    the 24-hour aggregate, if the host was probed in that time. *)
Definition describes (s : store) (t : float) (hr : hosts_row) (st : HostStatus.t) : Prop :=
  HostStatus.id st = row_id hr
  ∧ HostStatus.hostname st = row_hostname hr
  ∧ HostStatus.display_name st = row_display_name hr
  ∧ HostStatus.enabled st = negb (row_enabled hr =? 0)
  ∧ (probe_rows (row_hostname hr) s = [] →
     HostStatus.last_ping st = None ∧ HostStatus.latency st = None
     ∧ HostStatus.success st = false)
  ∧ (probe_rows (row_hostname hr) s ≠ [] →
     ∃ latest, latest ∈ probe_rows (row_hostname hr) s
       ∧ Forall (λ r, row_timestamp r ≤ row_timestamp latest)
           (probe_rows (row_hostname hr) s)
       ∧ HostStatus.last_ping st = Some (row_timestamp latest)
       ∧ HostStatus.latency st = row_latency latest
       ∧ HostStatus.success st = negb (row_success latest =? 0))
  ∧ (day_rows (row_hostname hr) t s = [] →
     HostStatus.last_24h_avg st = None ∧ HostStatus.uptime_24h st = None)
  ∧ (day_rows (row_hostname hr) t s ≠ [] →
     HostStatus.last_24h_avg st = SQL.avg (latencies (day_rows (row_hostname hr) t s))
     ∧ HostStatus.uptime_24h st
       = Some (PyFloat.round2
                 (PyFloat.truediv
                    (Z.of_nat (length (successes (day_rows (row_hostname hr) t s))))
                    (Z.of_nat (length (day_rows (row_hostname hr) t s))) * 100)%float)).

(** What a lookup makes of the rows its statement returned: nothing, the
    first row as a [Host], or the error of a first row [Host] refuses. *)
Definition first_host (rows : list hosts_row) : result (option Host) :=
  match rows with
  | [] => Ok None
  | row :: _ =>
      if decide (readable row) then Ok (Some (PingRepository.host_of_row row))
      else Raise (ValidationError (PingRepository.host_of_row row))
  end.

(** The fate of the next database connection: the fault it meets, if any. *)
Definition next_fault (w : world) : option string :=
  match w_faults w with
  | Some msg :: _ => Some msg
  | _ => None
  end.

(** A host that answers in 12.3125 ms. *)
Definition steady_net (_ : nat) : result ResponseList :=
  Ok (mkResponse true 12.3125).

(** ** Text settings and the seeding of hosts ([config/settings.py],
    [main.py]) *)

(** Python's [str] methods, on text whose code points are below 256. *)
Module PyStr.

(** The characters [","] and ["."]. *)
Definition comma : Ascii.ascii := Ascii.ascii_of_N 44.
Definition dot : Ascii.ascii := Ascii.ascii_of_N 46.

(** [c.isspace()]: the controls 9 to 13 and 28 to 31, the space, NEL
    (133) and the no-break space (160). *)
Definition is_space (c : Ascii.ascii) : bool :=
  let n := Ascii.N_of_ascii c in
  ((9 <=? n) && (n <=? 13) || (28 <=? n) && (n <=? 32) || (n =? 133) || (n =? 160))%N.

(** [s.lstrip()] *)
Fixpoint lstrip (s : string) : string :=
  match s with
  | String c rest => if is_space c then lstrip rest else s
  | EmptyString => EmptyString
  end.

(** [s.rstrip()] *)
Fixpoint rstrip (s : string) : string :=
  match s with
  | EmptyString => EmptyString
  | String c rest =>
      match rstrip rest with
      | EmptyString => if is_space c then EmptyString else String c EmptyString
      | kept => String c kept
      end
  end.

(** [s.strip()] *)
Definition strip (s : string) : string := lstrip (rstrip s).

(** [s.split(sep)] for a separator of one character: one piece more than
    there are separators, empty pieces included. *)
Fixpoint split (sep : Ascii.ascii) (s : string) : list string :=
  match s with
  | EmptyString => [EmptyString]
  | String c rest =>
      if Ascii.eqb c sep then EmptyString :: split sep rest
      else
        match split sep rest with
        | piece :: more => String c piece :: more
        | [] => [String c EmptyString]
        end
  end.

(** [c in s] *)
Fixpoint contains (c : Ascii.ascii) (s : string) : bool :=
  match s with
  | EmptyString => false
  | String c' rest => Ascii.eqb c' c || contains c rest
  end.

(** [sep.join(pieces)] *)
Fixpoint join (sep : string) (pieces : list string) : string :=
  match pieces with
  | [] => EmptyString
  | [piece] => piece
  | piece :: more => piece +:+ sep +:+ join sep more
  end.

End PyStr.

Module SettingsText.

(** [[x.strip() for x in text.split(",") if x.strip()]]: the body shared by
    [Settings.get_monitored_hosts_list] and [Settings.get_cors_origins_list]. *)
Definition comma_list (text : string) : list string :=
  omap (λ piece, if PyStr.strip piece is EmptyString then None
                 else Some (PyStr.strip piece))
    (PyStr.split PyStr.comma text).

(** [Settings.get_monitored_hosts_list], over the setting's text. *)
Definition get_monitored_hosts_list (monitored_hosts : string) : list string :=
  comma_list monitored_hosts.

(** [Settings.get_cors_origins_list], over the setting's text. *)
Definition get_cors_origins_list (cors_origins : string) : list string :=
  comma_list cors_origins.

(** The default of [monitored_hosts]. *)
Definition default_monitored_hosts : string := "router.local,8.8.8.8,1.1.1.1".

End SettingsText.

Module Startup.

Section Seeding.

(** [str.title], the one builtin of the seeding whose result leaves the
    code points below 256; the seeding is stated for any such function. *)
Variable title : string → string.

(** [hostname.split('.')[0].title() if '.' in hostname else hostname] *)
Definition display_name_for (name : string) : string :=
  if PyStr.contains PyStr.dot name then
    match PyStr.split PyStr.dot name with
    | first :: _ => title first
    | [] => title EmptyString
    end
  else name.

(** The loop of [lifespan] over the monitored hosts. *)
Fixpoint seed_hosts (monitored_hosts : list string) : M unit :=
  match monitored_hosts with
  | [] => mret tt
  | name :: rest =>
      existing ← PingRepository.get_host_by_hostname name;
      match existing with
      | Some _ => mret tt
      | None =>
          (* Add with hostname as display name (can be customized later) *)
          PingRepository.add_host name (display_name_for name) ;; mret tt
      end ;;
      seed_hosts rest
  end.

End Seeding.

(** [str.title] on ASCII text: a letter after a letter is lowered, any
    other letter is raised. *)
Definition ascii_upper (c : Ascii.ascii) : Ascii.ascii :=
  let n := Ascii.N_of_ascii c in
  if ((97 <=? n) && (n <=? 122))%N then Ascii.ascii_of_N (n - 32) else c.

Definition ascii_lower (c : Ascii.ascii) : Ascii.ascii :=
  let n := Ascii.N_of_ascii c in
  if ((65 <=? n) && (n <=? 90))%N then Ascii.ascii_of_N (n + 32) else c.

Definition ascii_letter (c : Ascii.ascii) : bool :=
  let n := Ascii.N_of_ascii c in
  ((65 <=? n) && (n <=? 90) || (97 <=? n) && (n <=? 122))%N.

Fixpoint ascii_title_from (after_letter : bool) (s : string) : string :=
  match s with
  | EmptyString => EmptyString
  | String c rest =>
      String (if after_letter then ascii_lower c else ascii_upper c)
        (ascii_title_from (ascii_letter c) rest)
  end.

Definition ascii_title (s : string) : string := ascii_title_from false s.

End Startup.

(** An entry of a comma-separated setting as the parser returns it: not
    empty, no white space at either end, no comma. *)
Definition clean_entry (e : string) : Prop :=
  e ≠ EmptyString
  ∧ PyStr.lstrip e = e
  ∧ PyStr.rstrip e = e
  ∧ PyStr.contains PyStr.comma e = false.

(** Text that is white space only. *)
Definition blank (s : string) : Prop := PyStr.lstrip s = EmptyString.

(** A monitored hostname the seeding gets past on a store: the row of
    that hostname, if there is one, is a row [Host] accepts; if there is
    none, [Host] accepts the hostname and the display name made from it. *)
Definition seedable (title : string → string) (s : store) (name : string) : Prop :=
  (∀ row, row ∈ hosts s → row_hostname row = name → readable row)
  ∧ (name ∉ row_hostname <$> hosts s →
     field_ok name ∧ field_ok (Startup.display_name_for title name)).

(** The store after the seeding has handled one hostname: unchanged when
    the hostname is present, one row longer when it is not. *)
Definition seeded_with (title : string → string) (t : float) (name : string)
    (s : store) : store :=
  if decide (name ∈ row_hostname <$> hosts s) then s
  else
    mkStore (ping_results s) (ping_results_seq s)
      (hosts s ++ [mkHostRow (SQL.next_host_id s) name
                     (Startup.display_name_for title name) 1
                     (PyFloat.to_int (t * 1000)%float)])
      (SQL.next_host_id s).
(** * Properties *)

(** ** Stable sorting *)

Section StableSortFacts.

Context {A : Type} (R : A → A → Prop) `{∀ x y, Decision (R x y)}.

Lemma insert_sorted_Permutation x l : insert_sorted R x l ≡ₚ x :: l.
Proof.
  induction l as [|y l IH]; [reflexivity|]. simpl.
  destruct (decide (R x y)); [reflexivity|].
  rewrite IH. apply Permutation_swap.
Qed.

Lemma stable_sort_Permutation l : stable_sort R l ≡ₚ l.
Proof.
  induction l as [|x l IH]; [reflexivity|]. simpl.
  rewrite insert_sorted_Permutation, IH. reflexivity.
Qed.

Lemma stable_sort_length l : length (stable_sort R l) = length l.
Proof. apply Permutation_length, stable_sort_Permutation. Qed.

Lemma elem_of_stable_sort x l : x ∈ stable_sort R l ↔ x ∈ l.
Proof. rewrite stable_sort_Permutation. reflexivity. Qed.

Lemma stable_sort_nil l : stable_sort R l = [] ↔ l = [].
Proof.
  split; [|intros ->; reflexivity]. intros Hnil.
  apply length_zero_iff_nil. rewrite <- stable_sort_length, Hnil. reflexivity.
Qed.

Lemma HdRel_insert_sorted x y l :
  R y x → HdRel R y l → HdRel R y (insert_sorted R x l).
Proof.
  intros Hyx Hhd. destruct l as [|z l]; simpl.
  - constructor. exact Hyx.
  - destruct (decide (R x z)); constructor; [exact Hyx|].
    inversion Hhd; assumption.
Qed.

Lemma Sorted_insert_sorted `{!Total R} x l :
  Sorted R l → Sorted R (insert_sorted R x l).
Proof.
  induction 1 as [|y l Hl IH Hhd]; simpl.
  - repeat constructor.
  - destruct (decide (R x y)) as [Hxy|Hxy].
    + repeat constructor; assumption.
    + constructor; [exact IH|]. apply HdRel_insert_sorted; [|exact Hhd].
      destruct (total R x y); [contradiction|assumption].
Qed.

Lemma Sorted_stable_sort `{!Total R} l : Sorted R (stable_sort R l).
Proof.
  induction l as [|x l IH]; simpl; [constructor|].
  apply Sorted_insert_sorted, IH.
Qed.

End StableSortFacts.

(** ** Python floats: the model on known values *)

(** [round(0.125, 2) == 0.12] and [round(0.375, 2) == 0.38] (ties go to
    the even digit), [round(2.675, 2) == 2.67] (the double nearest to 2.675
    lies below it), [round(-0.001, 2) == -0.0], and [int] truncates. *)
Example round2_known_values :
  PyFloat.round2 0.125 = (12 / 100)%float
  ∧ PyFloat.round2 0.375 = (38 / 100)%float
  ∧ PyFloat.round2 0x1.5666666666666p+1 = (267 / 100)%float
  ∧ PyFloat.round2 (-0x1.0624dd2f1a9fcp-10) = (-0)%float
  ∧ PyFloat.round2 0.00390625 = 0%float
  ∧ PyFloat.to_int (1702468800.5 * 1000) = 1702468800500
  ∧ PyFloat.truthy 0 = false
  ∧ PyFloat.truthy (-0) = false
  ∧ PyFloat.truthy nan = true.
Proof. repeat split; reflexivity. Qed.

(** ** The probe executor *)

Section Executor.

Variable self : PingService.
Variable target : string.

Lemma pings_made_snoc_ping tr h t :
  pings_made (tr ++ [EvPing h t]) = S (pings_made tr).
Proof.
  unfold pings_made. rewrite filter_app, length_app. simpl. lia.
Qed.

Lemma pings_made_snoc_sleep tr d :
  pings_made (tr ++ [EvSleep d]) = pings_made tr.
Proof.
  unfold pings_made. rewrite filter_app, length_app. simpl. lia.
Qed.

(** The loop body, case by case. *)
Lemma attempt_body_eq ts attempt w :
  attempt_body self target ts attempt w =
  let w1 := pinged target (timeout self) w in
  match w_net w (pings_made (w_trace w)) with
  | Ok resp =>
      if resp_success resp then
        (Ok (Some (mkPingResult target ts
                     (Some (PyFloat.round2 (rtt_avg_ms resp))) true None)), w1)
      else if attempt <? retries self then (Ok None, w1)
      else (Ok (Some (mkPingResult target ts None false
                        (Some "Host unreachable or timeout"%string))), w1)
  | Raise e =>
      if attempt <? retries self then (Ok None, slept w1)
      else (Ok (Some (mkPingResult target ts None false (Some (str e)))), w1)
  end.
Proof.
  unfold attempt_body, try_except, mbind, M_bind, ping, pinged, slept.
  destruct (w_net w (pings_made (w_trace w))) as [resp|e]; simpl.
  - destruct (resp_success resp); [reflexivity|].
    destruct (attempt <? retries self); reflexivity.
  - destruct (attempt <? retries self); reflexivity.
Qed.

(** One pass returns normally, calls [ping] once, keeps the transport and
    returns only results that satisfy the invariant. *)
Lemma attempt_body_step ts attempt w :
  ∃ o w', attempt_body self target ts attempt w = (Ok o, w')
    ∧ pings_made (w_trace w') = S (pings_made (w_trace w))
    ∧ w_net w' = w_net w
    ∧ match o with Some r => probe_invariant r | None => True end.
Proof.
  rewrite attempt_body_eq. cbv zeta.
  destruct (w_net w (pings_made (w_trace w))) as [resp|e].
  - destruct (resp_success resp); [|destruct (attempt <? retries self)];
      eexists _, _; (split; [reflexivity|]); simpl;
      rewrite pings_made_snoc_ping; unfold probe_invariant; simpl; eauto.
  - destruct (attempt <? retries self);
      eexists _, _; (split; [reflexivity|]); simpl;
      rewrite ?pings_made_snoc_sleep, pings_made_snoc_ping;
      unfold probe_invariant; simpl; eauto.
Qed.

(** The loop returns a result with the invariant after at most one call
    of [ping] per attempt index. *)
Lemma for_attempts_sound ts attempts w :
  ∃ r w', for_attempts self target ts attempts w = (Ok r, w')
    ∧ probe_invariant r
    ∧ (pings_made (w_trace w') ≤ pings_made (w_trace w) + length attempts)%nat.
Proof.
  revert w. induction attempts as [|attempt rest IH]; intros w.
  - eexists _, _. split; [reflexivity|]. split; [|simpl; lia].
    unfold probe_invariant. simpl. eauto.
  - destruct (attempt_body_step ts attempt w) as (o & w1 & E & Hp & _ & Ho).
    simpl. unfold mbind, M_bind. rewrite E.
    destruct o as [r|].
    + eexists _, _. split; [reflexivity|]. split; [exact Ho|]. lia.
    + destruct (IH w1) as (r & w' & E' & Hr & Hle).
      eexists _, _. split; [exact E'|]. split; [exact Hr|]. lia.
Qed.

(** Against a transport that never answers, the attempts [a, a+1, ...,
    retries] are all made and the last one decides the error. *)
Lemma for_attempts_failing ts n : ∀ (a : nat) w,
  (∀ k, (k ≤ n)%nat → failing (w_net w (pings_made (w_trace w) + k)%nat)) →
  Z.of_nat a + Z.of_nat (S n) = retries self + 1 →
  ∃ r w', for_attempts self target ts (Z.of_nat <$> seq a (S n)) w = (Ok r, w')
    ∧ success r = false
    ∧ latency r = None
    ∧ error r = Some (failure_text (w_net w (pings_made (w_trace w) + n)%nat))
    ∧ pings_made (w_trace w') = (pings_made (w_trace w) + S n)%nat.
Proof.
  induction n as [|n IH]; intros a w Hfail Hlen.
  - simpl. unfold mbind, M_bind. rewrite attempt_body_eq. cbv zeta.
    replace (pings_made (w_trace w) + 0)%nat with (pings_made (w_trace w)) by lia.
    assert (Hlast : (Z.of_nat a <? retries self) = false) by (apply Z.ltb_ge; lia).
    rewrite Hlast. specialize (Hfail 0%nat (le_n _)).
    replace (pings_made (w_trace w) + 0)%nat with (pings_made (w_trace w)) in Hfail by lia.
    destruct (w_net w (pings_made (w_trace w))) as [resp|e]; simpl in Hfail.
    + rewrite Hfail. eexists _, _. split; [reflexivity|]. simpl.
      rewrite pings_made_snoc_ping. repeat split; lia.
    + eexists _, _. split; [reflexivity|]. simpl.
      rewrite pings_made_snoc_ping. repeat split; lia.
  - change (seq a (S (S n))) with (a :: seq (S a) (S n)).
    rewrite fmap_cons.
    change (for_attempts self target ts (Z.of_nat a :: (Z.of_nat <$> seq (S a) (S n))) w)
      with (mbind (λ r : option PingResult,
              match r with
              | Some res => mret res
              | None => for_attempts self target ts (Z.of_nat <$> seq (S a) (S n))
              end) (attempt_body self target ts (Z.of_nat a)) w).
    unfold mbind at 1, M_bind. rewrite attempt_body_eq. cbv zeta.
    assert (Hmore : (Z.of_nat a <? retries self) = true) by (apply Z.ltb_lt; lia).
    rewrite Hmore. pose proof (Hfail 0%nat (Nat.le_0_l _)) as H0.
    replace (pings_made (w_trace w) + 0)%nat with (pings_made (w_trace w)) in H0 by lia.
    assert (Hrest : ∀ tr, pings_made tr = S (pings_made (w_trace w)) →
              ∀ k, (k ≤ n)%nat → failing (w_net w (pings_made tr + k)%nat)).
    { intros tr Htr k Hk. rewrite Htr.
      replace (S (pings_made (w_trace w)) + k)%nat
        with (pings_made (w_trace w) + S k)%nat by lia.
      apply Hfail. lia. }
    destruct (w_net w (pings_made (w_trace w))) as [resp|e]; simpl in H0.
    + rewrite H0.
      destruct (IH (S a) (pinged target (timeout self) w)) as (r & w' & E & Hs & Hl & He & Hp);
        [apply Hrest; simpl; apply pings_made_snoc_ping|lia|].
      eexists _, _. split; [exact E|]. simpl in He, Hp.
      rewrite pings_made_snoc_ping in He, Hp.
      repeat split; try assumption.
      * rewrite He. do 3 f_equal. lia.
      * lia.
    + destruct (IH (S a) (slept (pinged target (timeout self) w))) as (r & w' & E & Hs & Hl & He & Hp);
        [apply Hrest; simpl; rewrite pings_made_snoc_sleep; apply pings_made_snoc_ping|lia|].
      eexists _, _. split; [exact E|]. simpl in He, Hp.
      rewrite pings_made_snoc_sleep, pings_made_snoc_ping in He, Hp.
      repeat split; try assumption.
      * rewrite He. do 3 f_equal. lia.
      * lia.
Qed.

Lemma py_range_length n : length (py_range n) = Z.to_nat n.
Proof. unfold py_range. rewrite length_fmap, length_seq. reflexivity. Qed.

Lemma execute_ping_eq w :
  execute_ping self target w =
  for_attempts self target (PyFloat.to_int (w_time w * 1000)%float)
    (py_range (retries self + 1)) w.
Proof. reflexivity. Qed.

(** With [0 ≤ retries] the loop runs over [0 .. retries]. *)
Lemma execute_ping_failing w :
  0 ≤ retries self →
  every_attempt failing self w →
  ∃ r w', execute_ping self target w = (Ok r, w')
    ∧ success r = false
    ∧ latency r = None
    ∧ error r = Some (failure_text
                        (w_net w (pings_made (w_trace w) + Z.to_nat (retries self))%nat))
    ∧ attempts_made w w' = retries self + 1.
Proof.
  intros Hpos Hfail. rewrite execute_ping_eq. unfold py_range.
  replace (Z.to_nat (retries self + 1)) with (S (Z.to_nat (retries self))) by lia.
  destruct (for_attempts_failing (PyFloat.to_int (w_time w * 1000)%float)
              (Z.to_nat (retries self)) 0%nat w) as (r & w' & E & Hs & Hl & He & Hp).
  - exact Hfail.
  - lia.
  - exists r, w'. repeat split; try assumption.
    unfold attempts_made. lia.
Qed.

End Executor.

(** Two lost attempts, one of them an exception, then a reply of 12.3125
    ms: three calls of [ping], one sleep, and a success of latency
    [round(12.3125, 2)]. *)
Example execute_ping_flaky :
  execute_ping (mkPingService 5 2) "router.local" (quiet_world empty_store flaky_net)
  = (Ok (mkPingResult "router.local" 1702468800500
           (Some (PyFloat.round2 12.3125)) true None),
     mkWorld empty_store [] flaky_net 1702468800.5
       [EvPing "router.local" 5; EvPing "router.local" 5; EvSleep sleep_delay;
        EvPing "router.local" 5]).
Proof. reflexivity. Qed.

(** C8: every result of [execute_ping] satisfies the data-model invariant:
    a success carries a latency, a failure carries no latency and an error.
    The call itself always returns. *)
Theorem execute_ping_invariant (self : PingService) (target : string) (w : world) :
  ∃ r w', execute_ping self target w = (Ok r, w') ∧ probe_invariant r.
Proof.
  rewrite execute_ping_eq.
  destruct (for_attempts_sound self target
              (PyFloat.to_int (w_time w * 1000)%float)
              (py_range (retries self + 1)) w) as (r & w' & E & Hr & _).
  eauto.
Qed.

(** C4: with [0 <= retries], [execute_ping] calls [ping] at most
    [retries + 1] times; when every attempt fails it calls it exactly
    [retries + 1] times and returns [success = false] with an error. *)
Theorem execute_ping_attempts (self : PingService) (target : string) (w : world) :
  0 ≤ retries self →
  attempts_made w (snd (execute_ping self target w)) ≤ retries self + 1
  ∧ (every_attempt failing self w →
     ∃ r, fst (execute_ping self target w) = Ok r
       ∧ attempts_made w (snd (execute_ping self target w)) = retries self + 1
       ∧ success r = false
       ∧ is_Some (error r)).
Proof.
  intros Hpos. split.
  - rewrite execute_ping_eq.
    destruct (for_attempts_sound self target
                (PyFloat.to_int (w_time w * 1000)%float)
                (py_range (retries self + 1)) w) as (r & w' & E & _ & Hle).
    rewrite E. simpl. rewrite py_range_length in Hle.
    unfold attempts_made. lia.
  - intros Hfail.
    destruct (execute_ping_failing self target w Hpos Hfail)
      as (r & w' & E & Hs & _ & He & Hn).
    exists r. rewrite E. simpl. repeat split; try assumption.
    rewrite He. eauto.
Qed.

(** With the default [retries = 2] and a transport that raises on every
    call, three attempts are made. *)
Lemma execute_ping_attempts_witness :
  0 ≤ retries (mkPingService 5 2)
  ∧ ∃ r, fst (execute_ping (mkPingService 5 2) "router.local"
                (quiet_world empty_store broken_net)) = Ok r
      ∧ attempts_made (quiet_world empty_store broken_net)
          (snd (execute_ping (mkPingService 5 2) "router.local"
                  (quiet_world empty_store broken_net))) = 3
      ∧ success r = false
      ∧ is_Some (error r).
Proof.
  assert (Hpos : 0 ≤ retries (mkPingService 5 2)) by (simpl; lia).
  split; [exact Hpos|].
  apply (execute_ping_attempts (mkPingService 5 2) "router.local"
           (quiet_world empty_store broken_net) Hpos).
  intros k _. exact I.
Defined.

(** C3, as stated, fails: after three soft failures the error text is
    ["Host unreachable or timeout"], not ["unreachable or timeout"]. *)
Lemma soft_failure_text_counterexample :
  every_attempt soft_failure (mkPingService 5 2) (quiet_world empty_store silent_net)
  ∧ fst (execute_ping (mkPingService 5 2) "router.local"
           (quiet_world empty_store silent_net))
    = Ok (mkPingResult "router.local" 1702468800500 None false
            (Some "Host unreachable or timeout"%string))
  ∧ Some "Host unreachable or timeout"%string ≠ Some "unreachable or timeout"%string.
Proof.
  split; [intros k _; reflexivity|]. split; [reflexivity|]. discriminate.
Qed.

(** C3, amended: with [0 <= retries], when every attempt ends in a soft
    failure the result has [success = false] and its error is exactly
    ["Host unreachable or timeout"]. *)
Theorem execute_ping_soft_exhausted (self : PingService) (target : string) (w : world) :
  0 ≤ retries self →
  every_attempt soft_failure self w →
  ∃ r w', execute_ping self target w = (Ok r, w')
    ∧ success r = false
    ∧ error r = Some "Host unreachable or timeout"%string.
Proof.
  intros Hpos Hsoft.
  assert (Hfail : every_attempt failing self w).
  { intros k Hk. specialize (Hsoft k Hk).
    destruct (w_net w (pings_made (w_trace w) + k)%nat); [exact Hsoft|exact I]. }
  destruct (execute_ping_failing self target w Hpos Hfail)
    as (r & w' & E & Hs & _ & He & _).
  exists r, w'. repeat split; try assumption.
  rewrite He. specialize (Hsoft (Z.to_nat (retries self)) (le_n _)).
  destruct (w_net w (pings_made (w_trace w) + Z.to_nat (retries self))%nat);
    [reflexivity|contradiction].
Qed.

Lemma execute_ping_soft_exhausted_witness :
  0 ≤ retries (mkPingService 5 2)
  ∧ every_attempt soft_failure (mkPingService 5 2) (quiet_world empty_store silent_net)
  ∧ ∃ r w', execute_ping (mkPingService 5 2) "router.local"
              (quiet_world empty_store silent_net) = (Ok r, w')
      ∧ success r = false
      ∧ error r = Some "Host unreachable or timeout"%string.
Proof.
  assert (Hpos : 0 ≤ retries (mkPingService 5 2)) by (simpl; lia).
  assert (Hsoft : every_attempt soft_failure (mkPingService 5 2)
                    (quiet_world empty_store silent_net))
    by (intros k _; reflexivity).
  split; [exact Hpos|]. split; [exact Hsoft|].
  exact (execute_ping_soft_exhausted (mkPingService 5 2) "router.local"
           (quiet_world empty_store silent_net) Hpos Hsoft).
Defined.

(** The constructor reads an explicit [retries=0] as unset: [0 or
    settings.ping_retries] is the setting. *)
Remark PingService_init_zero_retries :
  retries (PingService_init default_settings None (Some 0)) = 2
  ∧ retries (PingService_init default_settings None (Some 1)) = 1
  ∧ retries (PingService_init default_settings None None) = 2.
Proof. repeat split; reflexivity. Qed.

(** ** Lists *)

Section Filter.

Context {A : Type} (P : A → Prop) `{∀ x, Decision (P x)}.

Lemma filter_of_complement (l : list A) :
  filter P (filter (λ x, ¬ P x) l) = [].
Proof.
  induction l as [|x l IH]; [reflexivity|].
  rewrite filter_cons. destruct (decide (¬ P x)) as [Hn|Hn]; [|exact IH].
  rewrite filter_cons_False by exact Hn. exact IH.
Qed.

Lemma filter_twice (l : list A) : filter P (filter P l) = filter P l.
Proof.
  induction l as [|x l IH]; [reflexivity|].
  rewrite filter_cons. destruct (decide (P x)) as [Hp|Hp]; [|exact IH].
  rewrite filter_cons_True by exact Hp. f_equal. exact IH.
Qed.

Lemma filter_complement_length (l : list A) :
  (length (filter P l) + length (filter (λ x, ¬ P x) l) = length l)%nat.
Proof.
  rewrite <- length_app. apply Permutation_length, filter_app_complement.
Qed.

End Filter.

(** ** Retention: [delete_old_pings] *)

(** Without a storage fault a connection runs its statement and commits. *)
Lemma with_connection_quiet {A} (stmt : store → result A * store) s net t tr :
  with_connection stmt (mkWorld s [] net t tr) =
  match stmt s with
  | (Ok a, s') => (Ok a, mkWorld s' [] net t tr)
  | (Raise e, _) => (Raise e, mkWorld s [] net t tr)
  end.
Proof. unfold with_connection. simpl. destruct (stmt s) as [[a|e] s']; reflexivity. Qed.

Lemma delete_older_than_quiet cutoff s net t tr :
  PingRepository.delete_older_than cutoff (mkWorld s [] net t tr) =
  (Ok (Z.of_nat (length (filter (λ r, row_timestamp r < cutoff) (ping_results s)))),
   mkWorld (mkStore (filter (λ r, ¬ row_timestamp r < cutoff) (ping_results s))
              (ping_results_seq s) (hosts s) (hosts_seq s)) [] net t tr).
Proof. reflexivity. Qed.

(** C2: [delete_older_than cutoff] (the body of [delete_old_pings]) keeps
    exactly the rows with [timestamp >= cutoff], returns the number of rows
    it removed, and returns 0 when run again with the same cutoff. *)
Theorem delete_older_than_exact (cutoff : Z) (s : store)
    (net : nat → result ResponseList) (t : float) (tr : list event) :
  ∃ n w',
    PingRepository.delete_older_than cutoff (mkWorld s [] net t tr) = (Ok n, w')
    ∧ ping_results (w_db w') = filter (λ r, ¬ row_timestamp r < cutoff) (ping_results s)
    ∧ (∀ r, r ∈ ping_results (w_db w') ↔ r ∈ ping_results s ∧ cutoff ≤ row_timestamp r)
    ∧ hosts (w_db w') = hosts s
    ∧ n = Z.of_nat (length (ping_results s)) - Z.of_nat (length (ping_results (w_db w')))
    ∧ n = Z.of_nat (length (filter (λ r, row_timestamp r < cutoff) (ping_results s)))
    ∧ (∃ w'', PingRepository.delete_older_than cutoff w' = (Ok 0, w'')
              ∧ w_db w'' = w_db w')
    ∧ (∀ days, PingRepository.delete_old_pings days (mkWorld s [] net t tr)
               = PingRepository.delete_older_than
                   (PingRepository.cutoff_time t days) (mkWorld s [] net t tr)).
Proof.
  eexists _, _. split; [apply delete_older_than_quiet|]. simpl.
  split; [reflexivity|]. split.
  { intros r. rewrite list_elem_of_filter. split; intros [H1 H2]; split; auto; lia. }
  split; [reflexivity|]. split.
  { pose proof (filter_complement_length (λ r, row_timestamp r < cutoff) (ping_results s)).
    lia. }
  split; [reflexivity|]. split; [|intros days; reflexivity].
  eexists. rewrite delete_older_than_quiet. simpl.
  rewrite filter_of_complement, filter_twice. split; reflexivity.
Qed.
(** ** Deleting a host: [delete_host] *)

Ltac run_db :=
  unfold PingRepository.delete_host, PingRepository.get_host_by_id,
    PingRepository.get_host_by_hostname, PingRepository.add_host,
    execute_query, execute_update, execute_query_with, execute_update_with,
    with_connection, time_time,
    try_except, raise, mbind, M_bind, mret, M_ret, set_db;
  simpl.

(** Decides the checks of a run that are still open: the binding of the
    caller's ints and the validation of a [Host]. *)
Ltac run_checks :=
  repeat match goal with
         | |- context [bind ?ps ?stmt ?s] =>
             unfold bind; destruct (decide (Forall sqlite_int ps)); simpl
         | |- context [Host_init ?h ?w] =>
             unfold Host_init; destruct (decide (valid_Host h));
             unfold raise, mret, M_ret; simpl
         end.

Lemma bind_fits {A} (params : list Z) (stmt : store → result A * store) s :
  Forall sqlite_int params → bind params stmt s = stmt s.
Proof. intros Hfit. unfold bind. rewrite decide_True by exact Hfit. reflexivity. Qed.

Lemma bind_overflow {A} (params : list Z) (stmt : store → result A * store) s :
  ¬ Forall sqlite_int params → bind params stmt s = (Raise OverflowError, s).
Proof. intros Hno. unfold bind. rewrite decide_False by exact Hno. reflexivity. Qed.

Lemma Host_init_valid h w : valid_Host h → Host_init h w = (Ok h, w).
Proof. intros Hv. unfold Host_init. rewrite decide_True by exact Hv. reflexivity. Qed.

Lemma Host_init_invalid h w :
  ¬ valid_Host h → Host_init h w = (Raise (ValidationError h), w).
Proof. intros Hv. unfold Host_init. rewrite decide_False by exact Hv. reflexivity. Qed.

Lemma host_rows_without_host host_id s :
  host_rows host_id (without_host host_id s) = [].
Proof.
  unfold host_rows, without_host. simpl.
  apply (filter_of_complement (λ r, row_id r = host_id)).
Qed.

Lemma probe_rows_without_probes name s :
  probe_rows name (without_probes name s) = [].
Proof.
  unfold probe_rows, without_probes. simpl.
  apply (filter_of_complement (λ r, row_host r = name)).
Qed.

(** C1, as stated, fails: when the second DELETE hits a storage fault the
    call raises with the probe rows of the host already deleted and the
    host row still there. *)
Lemma delete_host_not_atomic_counterexample :
  host_rows 1 example_store ≠ []
  ∧ fst (PingRepository.delete_host 1 failing_disk_world)
    = Raise (Exception "disk I/O error")
  ∧ w_db (snd (PingRepository.delete_host 1 failing_disk_world)) ≠ example_store
  ∧ host_rows 1 (w_db (snd (PingRepository.delete_host 1 failing_disk_world)))
    = host_rows 1 example_store
  ∧ probe_rows "router.local" example_store ≠ []
  ∧ probe_rows "router.local"
      (w_db (snd (PingRepository.delete_host 1 failing_disk_world))) = [].
Proof.
  repeat split; try reflexivity; try discriminate.
Qed.

(** C1, amended: for an id that SQLite can hold, [delete_host] returns
    false exactly when no host has the id, and then changes nothing.  When
    a host has the id and its row passes the validation of [Host], the
    probe rows of its hostname are deleted in one transaction and the host
    row in a second one: the call returns true with both gone, or raises
    with the store unchanged or with only the probe rows deleted.  The host
    row is never deleted while its probe rows remain.  An id outside 64
    bits and a row that [Host] refuses make the call raise with the store
    unchanged. *)
Theorem delete_host_outcomes (host_id : Z) (w : world) :
  let s := w_db w in
  let r := fst (PingRepository.delete_host host_id w) in
  let s' := w_db (snd (PingRepository.delete_host host_id w)) in
  match host_rows host_id s with
  | [] =>
      s' = s
      ∧ (r = Ok false ∨ ∃ e, r = Raise e)
      ∧ (w_faults w = [] → sqlite_int host_id → r = Ok false)
      ∧ (w_faults w = [] → ¬ sqlite_int host_id → r = Raise OverflowError)
  | row :: _ =>
      let s1 := without_probes (row_hostname row) s in
      let s2 := without_host host_id s1 in
      ((r = Ok true ∧ s' = s2) ∨ (∃ e, r = Raise e ∧ (s' = s ∨ s' = s1)))
      ∧ (w_faults w = [] → sqlite_int host_id → readable row → r = Ok true)
      ∧ (w_faults w = [] → ¬ sqlite_int host_id → r = Raise OverflowError ∧ s' = s)
      ∧ (w_faults w = [] → sqlite_int host_id → ¬ readable row →
         r = Raise (ValidationError (PingRepository.host_of_row row)) ∧ s' = s)
      ∧ host_rows host_id s2 = []
      ∧ probe_rows (row_hostname row) s2 = []
  end.
Proof.
  cbv zeta. unfold host_rows at 1.
  destruct w as [s fs net t tr]. simpl w_db at 1 2 3. simpl w_faults.
  assert (Hone : Forall sqlite_int [host_id] ↔ sqlite_int host_id).
  { apply Forall_singleton. }
  destruct (filter (λ r, row_id r = host_id) (hosts s)) as [|row rest] eqn:Hrows.
  - split; [|split; [|split]].
    + destruct fs as [|[m0|] fs]; run_db; run_checks;
        unfold SQL.select_host_by_id; rewrite ?Hrows; reflexivity.
    + destruct fs as [|[m0|] fs]; run_db; run_checks;
        unfold SQL.select_host_by_id; rewrite ?Hrows; simpl; eauto.
    + intros -> Hfit. run_db. rewrite bind_fits by (apply Hone, Hfit).
      unfold SQL.select_host_by_id. rewrite Hrows. reflexivity.
    + intros -> Hno. run_db. rewrite bind_overflow by (rewrite Hone; exact Hno).
      reflexivity.
  - split; [|split; [|split; [|split; [|split]]]].
    + destruct fs as [|[m0|] [|[m1|] [|[m2|] fs]]]; run_db; run_checks;
        unfold SQL.select_host_by_id; rewrite ?Hrows; simpl; run_checks; eauto.
    + intros -> Hfit Hread. run_db. rewrite bind_fits by (apply Hone, Hfit).
      unfold SQL.select_host_by_id. rewrite Hrows. simpl.
      rewrite Host_init_valid by exact Hread. simpl.
      rewrite bind_fits by (apply Hone, Hfit). reflexivity.
    + intros -> Hno. run_db. rewrite bind_overflow by (rewrite Hone; exact Hno).
      split; reflexivity.
    + intros -> Hfit Hread. run_db. rewrite bind_fits by (apply Hone, Hfit).
      unfold SQL.select_host_by_id. rewrite Hrows. simpl.
      rewrite Host_init_invalid by exact Hread. split; reflexivity.
    + apply host_rows_without_host.
    + unfold host_rows, probe_rows, without_host. simpl.
      apply (probe_rows_without_probes (row_hostname row) s).
Qed.
(** ** Range queries: [insert_ping_result] and [get_ping_data] *)

Global Instance timestamp_ge_total : Total SQL.timestamp_ge.
Proof. intros a b. unfold SQL.timestamp_ge. lia. Qed.

Global Instance timestamp_ge_trans : Transitive SQL.timestamp_ge.
Proof. intros a b c. unfold SQL.timestamp_ge. lia. Qed.

Lemma of_row_to_row r : PingRepository.of_row (PingRepository.to_row r) = r.
Proof. destruct r as [h ts l [] e]; reflexivity. Qed.

(** The SQL predicate on rows is the window on the results read back. *)
Lemma filter_in_range_of_row h a b (rows : list ping_results_row) :
  PingRepository.of_row <$> filter (SQL.in_range h a b) rows
  = filter (in_window h a b) (PingRepository.of_row <$> rows).
Proof.
  induction rows as [|row rows IH]; [reflexivity|].
  rewrite fmap_cons, !filter_cons.
  destruct (decide (SQL.in_range h a b row)) as [Hin|Hout];
    destruct (decide (in_window h a b (PingRepository.of_row row))) as [Hin'|Hout'].
  - rewrite fmap_cons. f_equal. exact IH.
  - exfalso. apply Hout'. exact Hin.
  - exfalso. apply Hout. exact Hin'.
  - exact IH.
Qed.

(** What the range query does without a storage fault. *)
Lemma get_ping_data_quiet h a b lim s net t tr :
  PingRepository.get_ping_data h a b lim (mkWorld s [] net t tr)
  = (if decide (Forall sqlite_int [a; b; lim])
     then Ok (PingRepository.of_row <$> SQL.select_ping_data h a b lim s)
     else Raise OverflowError,
     mkWorld s [] net t tr).
Proof.
  unfold PingRepository.get_ping_data, execute_query_with, with_connection, bind,
    mbind, M_bind, mret, M_ret, set_db. simpl.
  destruct (decide (Forall sqlite_int [a; b; lim])); reflexivity.
Qed.

Lemma three_fit a b c :
  Forall sqlite_int [a; b; c] ↔ sqlite_int a ∧ sqlite_int b ∧ sqlite_int c.
Proof. rewrite !Forall_cons, Forall_nil. tauto. Qed.

Lemma two_fit a b : Forall sqlite_int [a; b] ↔ sqlite_int a ∧ sqlite_int b.
Proof. rewrite !Forall_cons, Forall_nil. tauto. Qed.

(** The answer of the range query before [LIMIT]: the window, ascending. *)
Lemma ordered_window h a b s :
  let full := PingRepository.of_row
                <$> SQL.order_by_timestamp (filter (SQL.in_range h a b) (ping_results s)) in
  full ≡ₚ filter (in_window h a b) (stored_results s) ∧ Sorted by_timestamp full.
Proof.
  cbv zeta. split.
  - unfold stored_results. rewrite <- filter_in_range_of_row.
    apply fmap_Permutation. unfold SQL.order_by_timestamp, SQL.newest_first.
    rewrite reverse_Permutation. apply stable_sort_Permutation.
  - apply (Sorted_fmap PingRepository.of_row (flip SQL.timestamp_ge) by_timestamp).
    + intros x y Hxy. exact Hxy.
    + apply Sorted_reverse. apply (Sorted_stable_sort SQL.timestamp_ge).
Qed.

(** C5: a result inserted into a store with no other row of its host in
    the window [timestamp - 1, timestamp + 1] is what the range query over
    that window returns; and every range query with [0 <= limit] returns
    the first [limit] of the stored rows of the host with
    [start <= timestamp <= end], in ascending order of timestamp.  The
    bounds and the limit are integers SQLite can hold; with one that is
    not, the query raises. *)
Theorem get_ping_data_spec (s : store) (net : nat → result ResponseList)
    (t : float) (tr : list event) :
  (∀ r : PingResult,
     sqlite_int (timestamp r - 1) → sqlite_int (timestamp r + 1) →
     (∀ p, p ∈ stored_results s →
           ¬ in_window (host r) (timestamp r - 1) (timestamp r + 1) p) →
     ∃ w1 w2,
       PingRepository.insert_ping_result r (mkWorld s [] net t tr) = (Ok tt, w1)
       ∧ PingRepository.get_ping_data (host r) (timestamp r - 1) (timestamp r + 1)
           PingRepository.default_limit w1 = (Ok [r], w2))
  ∧ (∀ (h : string) (start_time end_time limit : Z),
     sqlite_int start_time → sqlite_int end_time → sqlite_int limit →
     0 ≤ limit →
     ∃ full w',
       PingRepository.get_ping_data h start_time end_time limit (mkWorld s [] net t tr)
       = (Ok (take (Z.to_nat limit) full), w')
       ∧ full ≡ₚ filter (in_window h start_time end_time) (stored_results s)
       ∧ Sorted by_timestamp full
       ∧ w_db w' = s)
  ∧ (∀ (h : string) (start_time end_time limit : Z),
     ¬ (sqlite_int start_time ∧ sqlite_int end_time ∧ sqlite_int limit) →
     PingRepository.get_ping_data h start_time end_time limit (mkWorld s [] net t tr)
     = (Raise OverflowError, mkWorld s [] net t tr)).
Proof.
  split; [|split].
  - intros r Hlo Hhi Hnone.
    exists (mkWorld (mkStore (ping_results s ++ [PingRepository.to_row r])
                       (1 + ping_results_seq s) (hosts s) (hosts_seq s)) [] net t tr).
    eexists. split; [reflexivity|].
    rewrite get_ping_data_quiet. rewrite decide_True.
    2:{ apply three_fit. split; [exact Hlo|]. split; [exact Hhi|].
        unfold sqlite_int, PingRepository.default_limit. lia. }
    f_equal. f_equal.
    unfold SQL.select_ping_data. simpl ping_results.
    rewrite filter_app.
    assert (Hempty : filter (SQL.in_range (host r) (timestamp r - 1) (timestamp r + 1))
                       (ping_results s) = []).
    { destruct (filter _ (ping_results s)) as [|row rows] eqn:E; [reflexivity|].
      exfalso. assert (Hrow : row ∈ row :: rows) by apply list_elem_of_here.
      rewrite <- E in Hrow. apply list_elem_of_filter in Hrow as [Hin Hel].
      apply (Hnone (PingRepository.of_row row)).
      - unfold stored_results. apply list_elem_of_fmap. eauto.
      - exact Hin. }
    rewrite Hempty. simpl app. rewrite filter_cons_True.
    + simpl. rewrite of_row_to_row. reflexivity.
    + destruct r as [h ts l [] e]; unfold SQL.in_range; simpl; repeat split; lia.
  - intros h a b lim Ha Hb Hl Hlim.
    exists (PingRepository.of_row
              <$> SQL.order_by_timestamp (filter (SQL.in_range h a b) (ping_results s))).
    eexists. split; [|split; [|split]].
    + rewrite get_ping_data_quiet. rewrite decide_True by (apply three_fit; auto).
      f_equal. f_equal.
      unfold SQL.select_ping_data, SQL.limit.
      destruct (lim <? 0) eqn:E; [apply Z.ltb_lt in E; lia|].
      apply fmap_take.
    + apply ordered_window.
    + apply ordered_window.
    + reflexivity.
  - intros h a b lim Hno. rewrite get_ping_data_quiet.
    rewrite decide_False by (rewrite three_fit; exact Hno). reflexivity.
Qed.

Lemma get_ping_data_spec_witness :
  sqlite_int (timestamp new_probe - 1)
  ∧ sqlite_int (timestamp new_probe + 1)
  ∧ (∀ p, p ∈ stored_results example_store →
          ¬ in_window (host new_probe) (timestamp new_probe - 1)
              (timestamp new_probe + 1) p)
  ∧ sqlite_int 0 ∧ sqlite_int 1702468800000 ∧ sqlite_int 2
  ∧ 0 ≤ 2
  ∧ ¬ (sqlite_int 0 ∧ sqlite_int (2 ^ 63) ∧ sqlite_int 2)
  ∧ (∃ w1 w2,
       PingRepository.insert_ping_result new_probe
         (quiet_world example_store silent_net) = (Ok tt, w1)
       ∧ PingRepository.get_ping_data (host new_probe) (timestamp new_probe - 1)
           (timestamp new_probe + 1) PingRepository.default_limit w1
         = (Ok [new_probe], w2))
  ∧ (∃ full w',
       PingRepository.get_ping_data "router.local" 0 1702468800000 2
         (quiet_world example_store silent_net)
       = (Ok (take (Z.to_nat 2) full), w')
       ∧ full ≡ₚ filter (in_window "router.local" 0 1702468800000)
                   (stored_results example_store)
       ∧ Sorted by_timestamp full
       ∧ w_db w' = example_store)
  ∧ PingRepository.get_ping_data "router.local" 0 (2 ^ 63) 2
      (quiet_world example_store silent_net)
    = (Raise OverflowError, quiet_world example_store silent_net).
Proof.
  assert (Hlo : sqlite_int (timestamp new_probe - 1)) by (unfold sqlite_int; simpl; lia).
  assert (Hhi : sqlite_int (timestamp new_probe + 1)) by (unfold sqlite_int; simpl; lia).
  assert (Hnone : ∀ p, p ∈ stored_results example_store →
            ¬ in_window (host new_probe) (timestamp new_probe - 1)
                (timestamp new_probe + 1) p).
  { apply Forall_forall. repeat constructor; intros (_ & H1 & H2); simpl in *; lia. }
  assert (H0 : sqlite_int 0) by (unfold sqlite_int; lia).
  assert (H1 : sqlite_int 1702468800000) by (unfold sqlite_int; lia).
  assert (H2 : sqlite_int 2) by (unfold sqlite_int; lia).
  assert (Hlim : 0 ≤ 2) by lia.
  assert (Hbig : ¬ (sqlite_int 0 ∧ sqlite_int (2 ^ 63) ∧ sqlite_int 2))
    by (unfold sqlite_int; lia).
  destruct (get_ping_data_spec example_store silent_net 1702468800.5 [])
    as (Hinsert & Hquery & Hraise).
  repeat match goal with |- _ ∧ _ => split end; try assumption.
  - exact (Hinsert new_probe Hlo Hhi Hnone).
  - exact (Hquery "router.local" 0 1702468800000 2 H0 H1 H2 Hlim).
  - exact (Hraise "router.local" 0 (2 ^ 63) 2 Hbig).
Defined.
(** ** Adding a host: the route [add_host] *)

Section Hostnames.

Context {A} (f : A → string).

Lemma filter_absent name (l : list A) :
  name ∉ f <$> l → filter (λ y, f y = name) l = [].
Proof.
  induction l as [|x l IH]; intros Hnot; [reflexivity|].
  rewrite fmap_cons, not_elem_of_cons in Hnot. destruct Hnot as [Hne Hnot].
  rewrite filter_cons_False by congruence. apply IH, Hnot.
Qed.

Lemma filter_present name (l : list A) :
  name ∈ f <$> l → filter (λ y, f y = name) l ≠ [].
Proof.
  intros Hin Hnil. apply list_elem_of_fmap in Hin as (x & -> & Hx).
  apply (filter_nil_not_elem_of _ _ x Hnil); [reflexivity|exact Hx].
Qed.

Lemma filter_unique name (l : list A) :
  NoDup (f <$> l) → name ∈ f <$> l →
  length (filter (λ y, f y = name) l) = 1%nat.
Proof.
  induction l as [|x l IH]; intros Hnd Hin.
  - apply elem_of_nil in Hin as [].
  - rewrite fmap_cons in Hnd, Hin. apply NoDup_cons in Hnd as [Hx Hnd].
    rewrite filter_cons. destruct (decide (f x = name)) as [<-|Hne].
    + rewrite filter_absent by exact Hx. reflexivity.
    + apply elem_of_cons in Hin as [Heq|Hin]; [congruence|]. apply IH; assumption.
Qed.

End Hostnames.

(** The first row a lookup by hostname finds is a row of the table. *)
Lemma first_of_filter {A} (P : A → Prop) `{∀ x, Decision (P x)} (l : list A) x rest :
  filter P l = x :: rest → x ∈ l ∧ P x.
Proof.
  intros E. assert (Hx : x ∈ filter P l) by (rewrite E; apply list_elem_of_here).
  apply list_elem_of_filter in Hx as [HP Hx]. split; assumption.
Qed.

Lemma add_host_present hc w :
  w_faults w = [] →
  readable_hosts (w_db w) →
  api.new_hostname hc ∈ row_hostname <$> hosts (w_db w) →
  api.add_host hc w
  = (Raise (HTTPException 409 ("Host '" +:+ api.new_hostname hc +:+ "' already exists")), w).
Proof.
  destruct w as [s fs net t tr]. simpl. intros -> Hread Hin.
  apply (filter_present row_hostname) in Hin.
  unfold api.add_host. run_db. unfold SQL.select_host_by_hostname.
  destruct (filter (λ r, row_hostname r = api.new_hostname hc) (hosts s))
    as [|row rest] eqn:E; [contradiction|].
  apply first_of_filter in E as [Hrow _].
  rewrite Host_init_valid; [reflexivity|].
  unfold readable_hosts in Hread. rewrite Forall_forall in Hread.
  apply Hread, Hrow.
Qed.

Lemma add_host_absent hc s net t tr :
  api.valid_HostCreate hc →
  api.new_hostname hc ∉ row_hostname <$> hosts s →
  api.add_host hc (mkWorld s [] net t tr)
  = (Ok (mkHost (Some (SQL.next_host_id s)) (api.new_hostname hc) (api.new_display_name hc)
           true (Some (PyFloat.to_int (t * 1000)%float))),
     mkWorld (mkStore (ping_results s) (ping_results_seq s)
                (hosts s ++ [mkHostRow (SQL.next_host_id s) (api.new_hostname hc)
                               (api.new_display_name hc) 1
                               (PyFloat.to_int (t * 1000)%float)])
                (SQL.next_host_id s)) [] net t tr).
Proof.
  intros Hvalid Hnot. pose proof (filter_absent row_hostname _ _ Hnot) as Hnil.
  unfold api.add_host. run_db. unfold SQL.select_host_by_hostname, SQL.insert_host.
  rewrite Hnil. simpl. rewrite bool_decide_eq_false_2 by exact Hnot. simpl.
  rewrite Host_init_valid by exact Hvalid. reflexivity.
Qed.




(** ** Window statistics: [calculate_stats] *)

Lemma sum_success_count (rows : list ping_results_row) :
  rows ≠ [] →
  SQL.sum_success rows = Some (Z.of_nat (length (successes rows))).
Proof.
  intros Hne. unfold SQL.sum_success. destruct rows as [|r0 rest]; [contradiction|].
  f_equal. clear Hne. generalize (r0 :: rest). clear r0 rest.
  intros rows. induction rows as [|r rows IH]; [reflexivity|].
  unfold successes in *. rewrite filter_cons. simpl foldr. rewrite IH.
  destruct (decide (row_success r = 1)) as [->|Hne].
  - simpl length. simpl. lia.
  - destruct (row_success r =? 1) eqn:E; [apply Z.eqb_eq in E; contradiction|].
    lia.
Qed.

(** On rows written from executor results, the rows that carry a latency
    are the successful ones. *)
Lemma latencies_of_successes (rows : list ping_results_row) :
  Forall executor_row rows → latencies rows = latencies (successes rows).
Proof.
  unfold latencies, successes.
  induction 1 as [|row rows (r & Hinv & ->) _ IH]; [reflexivity|].
  rewrite filter_cons. unfold probe_invariant in Hinv.
  destruct r as [h ts l [] e]; simpl in *.
  - destruct Hinv as [x ->]. simpl. f_equal. exact IH.
  - destruct Hinv as [-> _]. simpl. exact IH.
Qed.

(** What [calculate_stats] does without a storage fault. *)
Lemma calculate_stats_quiet h a b s net t tr :
  PingRepository.calculate_stats h a b (mkWorld s [] net t tr)
  = (if decide (Forall sqlite_int [a; b]) then
       Ok (let rows := window_rows h a b s in
           if Z.of_nat (length rows) =? 0 then PingRepository.no_stats
           else
             {[ "avg_latency" := PingRepository.rounded_or_none (SQL.avg (latencies rows));
                "min_latency" := PingRepository.rounded_or_none (SQL.min (latencies rows));
                "max_latency" := PingRepository.rounded_or_none (SQL.max (latencies rows));
                "success_rate" :=
                  VFloat (PyFloat.round2
                            (PyFloat.truediv (Z.of_nat (length (successes rows)))
                               (Z.of_nat (length rows)) * 100)%float) ]})
     else Raise OverflowError,
     mkWorld s [] net t tr).
Proof.
  unfold PingRepository.calculate_stats, execute_query_with, with_connection, bind,
    mbind, M_bind, mret, M_ret, SQL.select_stats, set_db. simpl.
  destruct (decide (Forall sqlite_int [a; b])); [|reflexivity]. simpl.
  fold (window_rows h a b s). fold (latencies (window_rows h a b s)).
  destruct (Z.of_nat (length (window_rows h a b s)) =? 0) eqn:E0; [reflexivity|].
  assert (Hpos : (0 <? Z.of_nat (length (window_rows h a b s))) = true).
  { apply Z.ltb_lt. apply Z.eqb_neq in E0. lia. }
  rewrite Hpos. rewrite sum_success_count; [reflexivity|].
  intros Hnil. rewrite Hnil in E0. discriminate.
Qed.

(** C7, as stated, fails.  On the store left by one probe of a host on the
    same machine the window holds one row, a success with latency 0.0, and
    every latency field is null; and over the two successes of
    [router.local], of latencies 0.25 and 0.5, the average field is
    [round(0.375, 2)], which is not 0.375. *)
Lemma calculate_stats_counterexample :
  (length (window_rows "127.0.0.1" 0 1702468800500 loopback_store) = 1%nat
   ∧ length (successes (window_rows "127.0.0.1" 0 1702468800500 loopback_store)) = 1%nat
   ∧ SQL.avg (latencies (successes (window_rows "127.0.0.1" 0 1702468800500 loopback_store)))
     = Some 0%float
   ∧ entry "avg_latency"
       (PingRepository.calculate_stats "127.0.0.1" 0 1702468800500
          (quiet_world loopback_store silent_net)) = Some VNone
   ∧ entry "min_latency"
       (PingRepository.calculate_stats "127.0.0.1" 0 1702468800500
          (quiet_world loopback_store silent_net)) = Some VNone
   ∧ entry "max_latency"
       (PingRepository.calculate_stats "127.0.0.1" 0 1702468800500
          (quiet_world loopback_store silent_net)) = Some VNone)
  ∧ (SQL.avg (latencies (successes (window_rows "router.local" 0 1702468800000 example_store)))
     = Some 0.375%float
     ∧ entry "avg_latency"
         (PingRepository.calculate_stats "router.local" 0 1702468800000
            (quiet_world example_store silent_net))
       = Some (VFloat (PyFloat.round2 0.375))
     ∧ VFloat (PyFloat.round2 0.375) ≠ VFloat 0.375).
Proof.
  split; [repeat split; reflexivity|].
  split; [reflexivity|]. split; [reflexivity|].
  intros H.
  apply (f_equal (λ v, match v with
                       | VFloat x => PrimFloat.eqb x 0.375
                       | _ => false
                       end)) in H.
  vm_compute in H. discriminate.
Qed.

(** C7, amended: over rows written from executor results and a window
    whose bounds SQLite can hold, with N rows in the window and S
    successes among them: if N > 0 then
    [success_rate = round(S / N * 100, 2)], the latency fields are null
    when S = 0, and each of avg, min and max is its aggregate over the
    successful rows rounded to two decimals whenever that aggregate is not
    zero; if N = 0 the three latency fields are null and
    [success_rate = 0.0].  The average is the sum of the latencies, added
    newest first, over their number. *)
Theorem calculate_stats_spec (h : string) (start_time end_time : Z) (s : store)
    (net : nat → result ResponseList) (t : float) (tr : list event) :
  Forall executor_row (ping_results s) →
  sqlite_int start_time → sqlite_int end_time →
  let run := PingRepository.calculate_stats h start_time end_time
               (mkWorld s [] net t tr) in
  let rows := window_rows h start_time end_time s in
  let N := Z.of_nat (length rows) in
  let S := Z.of_nat (length (successes rows)) in
  let lats := latencies (successes rows) in
  (N = 0 →
     entry "avg_latency" run = Some VNone
     ∧ entry "min_latency" run = Some VNone
     ∧ entry "max_latency" run = Some VNone
     ∧ entry "success_rate" run = Some (VFloat 0))
  ∧ (0 < N →
     entry "success_rate" run
     = Some (VFloat (PyFloat.round2 (PyFloat.truediv S N * 100)%float))
     ∧ (S = 0 →
        entry "avg_latency" run = Some VNone
        ∧ entry "min_latency" run = Some VNone
        ∧ entry "max_latency" run = Some VNone)
     ∧ (∀ x, SQL.avg lats = Some x → PyFloat.truthy x = true →
             entry "avg_latency" run = Some (VFloat (PyFloat.round2 x)))
     ∧ (∀ x, SQL.min lats = Some x → PyFloat.truthy x = true →
             entry "min_latency" run = Some (VFloat (PyFloat.round2 x)))
     ∧ (∀ x, SQL.max lats = Some x → PyFloat.truthy x = true →
             entry "max_latency" run = Some (VFloat (PyFloat.round2 x)))).
Proof.
  intros Hrows Hlo Hhi. cbv zeta. unfold entry. rewrite calculate_stats_quiet.
  rewrite decide_True by (apply two_fit; auto). simpl fst.
  cbv zeta.
  assert (Hlat : latencies (window_rows h start_time end_time s)
                 = latencies (successes (window_rows h start_time end_time s))).
  { apply latencies_of_successes. unfold window_rows, SQL.newest_first.
    apply Forall_forall. intros row Hrow. apply elem_of_stable_sort in Hrow.
    apply list_elem_of_filter in Hrow as [_ Hrow].
    revert row Hrow. apply Forall_forall. exact Hrows. }
  rewrite Hlat. split.
  - intros HN. rewrite HN. simpl. repeat split; reflexivity.
  - intros HN.
    destruct (Z.of_nat (length (window_rows h start_time end_time s)) =? 0) eqn:E0;
      [apply Z.eqb_eq in E0; lia|].
    split; [reflexivity|]. split; [|split; [|split]].
    + intros HS.
      assert (Hnil : successes (window_rows h start_time end_time s) = []).
      { destruct (successes _); [reflexivity|simpl in HS; lia]. }
      rewrite Hnil. simpl. repeat split; reflexivity.
    + intros x Hx Htrue.
      change (Some (PingRepository.rounded_or_none
                     (SQL.avg (latencies (successes (window_rows h start_time end_time s)))))
              = Some (VFloat (PyFloat.round2 x))).
      rewrite Hx. simpl. rewrite Htrue. reflexivity.
    + intros x Hx Htrue.
      change (Some (PingRepository.rounded_or_none
                     (SQL.min (latencies (successes (window_rows h start_time end_time s)))))
              = Some (VFloat (PyFloat.round2 x))).
      rewrite Hx. simpl. rewrite Htrue. reflexivity.
    + intros x Hx Htrue.
      change (Some (PingRepository.rounded_or_none
                     (SQL.max (latencies (successes (window_rows h start_time end_time s)))))
              = Some (VFloat (PyFloat.round2 x))).
      rewrite Hx. simpl. rewrite Htrue. reflexivity.
Qed.

Lemma example_rows_from_executor : Forall executor_row (ping_results example_store).
Proof.
  repeat constructor.
  - exists (mkPingResult "router.local" 1702468700000 (Some 0.25%float) true None).
    split; [unfold probe_invariant; simpl; eauto|reflexivity].
  - exists (mkPingResult "8.8.8.8" 1702468700005 None false
              (Some "Host unreachable or timeout"%string)).
    split; [unfold probe_invariant; simpl; eauto|reflexivity].
  - exists (mkPingResult "router.local" 1702468760000 (Some 0.5%float) true None).
    split; [unfold probe_invariant; simpl; eauto|reflexivity].
Defined.

Lemma four_probes_from_executor : Forall executor_row (ping_results four_probes_store).
Proof.
  repeat constructor;
    (eexists (mkPingResult "nas.local" _ (Some _) true None);
     split; [unfold probe_invariant; simpl; eauto|reflexivity]).
Defined.

(** Two probes of [router.local], both successes, latencies 0.25 and 0.5:
    [success_rate] is 100.0, min 0.25, max 0.5.  And four probes of
    [nas.local], of latencies 20.41, 21.02, 29.81 and 47.82: added newest
    first they give 119.05999999999999, the average is 29.764999999999997
    and the field is 29.76. *)
Lemma calculate_stats_spec_witness :
  Forall executor_row (ping_results example_store)
  ∧ Forall executor_row (ping_results four_probes_store)
  ∧ sqlite_int 0 ∧ sqlite_int 1702468800000
  ∧ entry "success_rate"
      (PingRepository.calculate_stats "router.local" 0 1702468800000
         (quiet_world example_store silent_net))
    = Some (VFloat (PyFloat.round2 (PyFloat.truediv 2 2 * 100)%float))
  ∧ entry "min_latency"
      (PingRepository.calculate_stats "router.local" 0 1702468800000
         (quiet_world example_store silent_net))
    = Some (VFloat (PyFloat.round2 0.25))
  ∧ entry "max_latency"
      (PingRepository.calculate_stats "router.local" 0 1702468800000
         (quiet_world example_store silent_net))
    = Some (VFloat (PyFloat.round2 0.5))
  ∧ SQL.avg (latencies (successes (window_rows "nas.local" 0 1702468800000
                                     four_probes_store)))
    = Some 0x1.dc3d70a3d70a3p+4%float
  ∧ PyFloat.round2 0x1.dc3d70a3d70a3p+4 = 0x1.dc28f5c28f5c3p+4%float
  ∧ entry "avg_latency"
      (PingRepository.calculate_stats "nas.local" 0 1702468800000
         (quiet_world four_probes_store silent_net))
    = Some (VFloat (PyFloat.round2 0x1.dc3d70a3d70a3p+4)).
Proof.
  assert (H0 : sqlite_int 0) by (unfold sqlite_int; lia).
  assert (H1 : sqlite_int 1702468800000) by (unfold sqlite_int; lia).
  destruct (calculate_stats_spec "router.local" 0 1702468800000 example_store
              silent_net 1702468800.5 [] example_rows_from_executor H0 H1)
    as [_ Hsome].
  destruct Hsome as (Hrate & _ & _ & Hmin & Hmax); [vm_compute; reflexivity|].
  destruct (calculate_stats_spec "nas.local" 0 1702468800000 four_probes_store
              silent_net 1702468800.5 [] four_probes_from_executor H0 H1)
    as [_ Hfour].
  destruct Hfour as (_ & _ & Havg & _ & _); [vm_compute; reflexivity|].
  split; [exact example_rows_from_executor|].
  split; [exact four_probes_from_executor|].
  split; [exact H0|]. split; [exact H1|].
  split; [exact Hrate|]. split.
  { apply (Hmin 0.25%float); reflexivity. }
  split.
  { apply (Hmax 0.5%float); reflexivity. }
  split; [reflexivity|]. split; [reflexivity|].
  apply (Havg 0x1.dc3d70a3d70a3p+4%float); reflexivity.
Defined.

(** C10: in a window that holds rows, a latency aggregate that is 0.0 is
    reported as null: [avg_latency], [min_latency] and [max_latency] are
    each [None] when the aggregate of that name is zero.  The bounds of
    the window are integers SQLite can hold, as the statement binds them. *)
Theorem calculate_stats_zero_is_null (h : string) (start_time end_time : Z)
    (s : store) (net : nat → result ResponseList) (t : float) (tr : list event) :
  sqlite_int start_time → sqlite_int end_time →
  window_rows h start_time end_time s ≠ [] →
  let run := PingRepository.calculate_stats h start_time end_time
               (mkWorld s [] net t tr) in
  let lats := latencies (window_rows h start_time end_time s) in
  (∀ x, SQL.avg lats = Some x → PyFloat.truthy x = false →
        entry "avg_latency" run = Some VNone)
  ∧ (∀ x, SQL.min lats = Some x → PyFloat.truthy x = false →
          entry "min_latency" run = Some VNone)
  ∧ (∀ x, SQL.max lats = Some x → PyFloat.truthy x = false →
          entry "max_latency" run = Some VNone).
Proof.
  intros Hlo Hhi Hrows. cbv zeta. unfold entry. rewrite calculate_stats_quiet.
  rewrite decide_True by (apply two_fit; auto). simpl fst.
  cbv zeta.
  destruct (Z.of_nat (length (window_rows h start_time end_time s)) =? 0) eqn:E0.
  { apply Z.eqb_eq in E0. destruct (window_rows h start_time end_time s);
      [contradiction|simpl in E0; lia]. }
  split; [|split]; intros x Hx Hzero.
  - change (Some (PingRepository.rounded_or_none
                   (SQL.avg (latencies (window_rows h start_time end_time s))))
            = Some VNone).
    rewrite Hx. simpl. rewrite Hzero. reflexivity.
  - change (Some (PingRepository.rounded_or_none
                   (SQL.min (latencies (window_rows h start_time end_time s))))
            = Some VNone).
    rewrite Hx. simpl. rewrite Hzero. reflexivity.
  - change (Some (PingRepository.rounded_or_none
                   (SQL.max (latencies (window_rows h start_time end_time s))))
            = Some VNone).
    rewrite Hx. simpl. rewrite Hzero. reflexivity.
Qed.

(** Such a window exists: one probe of a host that answers within 4
    microseconds stores a success of latency 0.0, and the statistics over
    it report no average. *)
Lemma calculate_stats_zero_is_null_witness :
  sqlite_int 0
  ∧ sqlite_int 1702468800500
  ∧ w_db (snd (SchedulerService.ping_now (mkPingService 5 2) "127.0.0.1"
               (quiet_world loopback_registered loopback_net)))
  = loopback_store
  ∧ window_rows "127.0.0.1" 0 1702468800500 loopback_store ≠ []
  ∧ successes (window_rows "127.0.0.1" 0 1702468800500 loopback_store) ≠ []
  ∧ SQL.avg (latencies (window_rows "127.0.0.1" 0 1702468800500 loopback_store))
    = Some 0%float
  ∧ entry "avg_latency"
      (PingRepository.calculate_stats "127.0.0.1" 0 1702468800500
         (quiet_world loopback_store silent_net)) = Some VNone.
Proof.
  assert (H0 : sqlite_int 0) by (unfold sqlite_int; lia).
  assert (H1 : sqlite_int 1702468800500) by (unfold sqlite_int; lia).
  assert (Hrows : window_rows "127.0.0.1" 0 1702468800500 loopback_store ≠ [])
    by discriminate.
  destruct (calculate_stats_zero_is_null "127.0.0.1" 0 1702468800500 loopback_store
              silent_net 1702468800.5 [] H0 H1 Hrows) as (Havg & _ & _).
  split; [exact H0|]. split; [exact H1|].
  split; [reflexivity|]. split; [exact Hrows|]. split; [discriminate|].
  split; [reflexivity|].
  apply (Havg 0%float); reflexivity.
Defined.

(** ** Manual triggers: [cleanup_now] and [vacuum_now] *)

(** C9, as stated, fails: when the storage refuses the connection both
    triggers return a dict without a [timestamp]. *)
Lemma manual_trigger_counterexample :
  entry "success"
    (handed_back (CleanupService.cleanup_now default_settings
                    CleanupService.init locked_world)) = Some (VBool false)
  ∧ entry "timestamp"
      (handed_back (CleanupService.cleanup_now default_settings
                      CleanupService.init locked_world)) = None
  ∧ entry "success"
      (handed_back (CleanupService.vacuum_now CleanupService.init locked_world))
    = Some (VBool false)
  ∧ entry "timestamp"
      (handed_back (CleanupService.vacuum_now CleanupService.init locked_world))
    = None.
Proof. repeat split; reflexivity. Qed.

Ltac reply_shape :=
  first
    [ left; unfold success_reply; repeat split; solve [eauto]
    | right; unfold failure_reply; repeat split; solve [eauto] ].

(** C9, amended: [cleanup_now] and [vacuum_now] always return a dict and
    never raise.  On success the dict holds [success = True] and a
    [timestamp] (and [deleted_count] for the cleanup); on failure it holds
    [success = False] and the [error] (and [deleted_count = 0] for the
    cleanup) and no [timestamp].  Without a storage fault both succeed. *)
Theorem manual_triggers_structured (settings : Settings) (self : CleanupService.t)
    (w : world) :
  (∃ d self' w',
     CleanupService.cleanup_now settings self w = (Ok (d, self'), w')
     ∧ (success_reply true d ∨ failure_reply true d)
     ∧ (w_faults w = [] → success_reply true d))
  ∧ (∃ d self' w',
       CleanupService.vacuum_now self w = (Ok (d, self'), w')
       ∧ (success_reply false d ∨ failure_reply false d)
       ∧ (w_faults w = [] → success_reply false d)).
Proof.
  destruct w as [s fs net t tr]. split.
  - destruct fs as [|[m0|] [|[m1|] fs]];
      (eexists _, _, _; split; [reflexivity|]; split;
       [reply_shape
       |simpl; first [discriminate | intros _; unfold success_reply; repeat split; solve [eauto]]]).
  - destruct fs as [|[m0|] fs];
      (eexists _, _, _; split; [reflexivity|]; split;
       [reply_shape
       |simpl; first [discriminate | intros _; unfold success_reply; repeat split; solve [eauto]]]).
Qed.

(** ** The probe executor: retries, backoff and edge cases *)

Section ExecutorRuns.

Variable self : PingService.
Variable target : string.

Lemma sleeps_made_snoc_ping tr h t :
  sleeps_made (tr ++ [EvPing h t]) = sleeps_made tr.
Proof. unfold sleeps_made. rewrite filter_app, length_app. simpl. lia. Qed.

Lemma sleeps_made_snoc_sleep tr d :
  sleeps_made (tr ++ [EvSleep d]) = S (sleeps_made tr).
Proof. unfold sleeps_made. rewrite filter_app, length_app. simpl. lia. Qed.

Lemma only_trace_grows_refl w : only_trace_grows w w.
Proof. repeat split. exists []. rewrite app_nil_r. reflexivity. Qed.

Lemma only_trace_grows_trans w1 w2 w3 :
  only_trace_grows w1 w2 → only_trace_grows w2 w3 → only_trace_grows w1 w3.
Proof.
  intros (Hd & Hf & Hn & Ht & evs & Hev) (Hd' & Hf' & Hn' & Ht' & evs' & Hev').
  repeat split; try congruence.
  exists (evs ++ evs'). rewrite Hev', Hev, app_assoc. reflexivity.
Qed.

Lemma only_trace_grows_pinged t w : only_trace_grows w (pinged target t w).
Proof. repeat split. eexists. reflexivity. Qed.

Lemma only_trace_grows_slept w : only_trace_grows w (slept w).
Proof. repeat split. eexists. reflexivity. Qed.

(** While the attempts fail and retries remain, the loop moves on: after
    [k] such attempts it has called [ping] [k] times and slept once per
    attempt that raised. *)
Lemma for_attempts_skip ts (k : nat) : ∀ (a n : nat) (w : world),
  (∀ j, (j < k)%nat → failing (w_net w (pings_made (w_trace w) + j)%nat)) →
  Z.of_nat a + Z.of_nat k ≤ retries self →
  ∃ w',
    for_attempts self target ts (Z.of_nat <$> seq a (k + n)) w
    = for_attempts self target ts (Z.of_nat <$> seq (a + k) n) w'
    ∧ only_trace_grows w w'
    ∧ pings_made (w_trace w') = (pings_made (w_trace w) + k)%nat
    ∧ sleeps_made (w_trace w') = (sleeps_made (w_trace w) + hard_failures w k)%nat.
Proof.
  induction k as [|k IH]; intros a n w Hfail Hle.
  - exists w. replace (a + 0)%nat with a by lia. simpl.
    split; [reflexivity|]. split; [apply only_trace_grows_refl|].
    unfold hard_failures. simpl. lia.
  - change (seq a (S k + n)) with (a :: seq (S a) (k + n)). rewrite fmap_cons.
    change (for_attempts self target ts (Z.of_nat a :: (Z.of_nat <$> seq (S a) (k + n))) w)
      with (mbind (λ r : option PingResult,
              match r with
              | Some res => mret res
              | None => for_attempts self target ts (Z.of_nat <$> seq (S a) (k + n))
              end) (attempt_body self target ts (Z.of_nat a)) w).
    unfold mbind at 1, M_bind. rewrite attempt_body_eq. cbv zeta.
    assert (Hmore : (Z.of_nat a <? retries self) = true) by (apply Z.ltb_lt; lia).
    rewrite Hmore.
    pose proof (Hfail 0%nat ltac:(lia)) as H0.
    replace (pings_made (w_trace w) + 0)%nat with (pings_made (w_trace w)) in H0 by lia.
    assert (Hrest : ∀ tr, pings_made tr = S (pings_made (w_trace w)) →
              ∀ j, (j < k)%nat → failing (w_net w (pings_made tr + j)%nat)).
    { intros tr Htr j Hj. rewrite Htr.
      replace (S (pings_made (w_trace w)) + j)%nat
        with (pings_made (w_trace w) + S j)%nat by lia.
      apply Hfail. lia. }
    unfold hard_failures. simpl hard_failures_from.
    destruct (w_net w (pings_made (w_trace w))) as [resp|e] eqn:Enet; simpl in H0.
    + rewrite H0.
      destruct (IH (S a) n (pinged target (timeout self) w)) as (w' & E & Hgrow & Hp & Hs);
        [apply Hrest; simpl; apply pings_made_snoc_ping|lia|].
      exists w'. replace (a + S k)%nat with (S a + k)%nat by lia.
      split; [exact E|]. split.
      { eapply only_trace_grows_trans; [apply only_trace_grows_pinged|exact Hgrow]. }
      unfold hard_failures in Hs. simpl in Hp, Hs.
      rewrite pings_made_snoc_ping in Hp, Hs. rewrite sleeps_made_snoc_ping in Hs.
      simpl. lia.
    + destruct (IH (S a) n (slept (pinged target (timeout self) w)))
        as (w' & E & Hgrow & Hp & Hs);
        [apply Hrest; simpl; rewrite pings_made_snoc_sleep; apply pings_made_snoc_ping|lia|].
      exists w'. replace (a + S k)%nat with (S a + k)%nat by lia.
      split; [exact E|]. split.
      { eapply only_trace_grows_trans; [apply only_trace_grows_pinged|].
        eapply only_trace_grows_trans; [apply only_trace_grows_slept|exact Hgrow]. }
      unfold hard_failures in Hs. simpl in Hp, Hs.
      rewrite pings_made_snoc_sleep, pings_made_snoc_ping in Hp, Hs.
      rewrite sleeps_made_snoc_sleep, sleeps_made_snoc_ping in Hs.
      simpl. lia.
Qed.

(** The loop touches nothing but the trace, and stamps every result with
    the host and the time it was given. *)
Lemma for_attempts_frame ts attempts : ∀ w,
  ∃ r w', for_attempts self target ts attempts w = (Ok r, w')
    ∧ only_trace_grows w w'
    ∧ host r = target
    ∧ timestamp r = ts.
Proof.
  induction attempts as [|attempt rest IH]; intros w.
  - eexists _, _. split; [reflexivity|]. split; [apply only_trace_grows_refl|].
    split; reflexivity.
  - simpl. unfold mbind, M_bind. rewrite attempt_body_eq. cbv zeta.
    destruct (w_net w (pings_made (w_trace w))) as [resp|e].
    + destruct (resp_success resp); [|destruct (attempt <? retries self)].
      * eexists _, _. split; [reflexivity|].
        split; [apply only_trace_grows_pinged|]. split; reflexivity.
      * destruct (IH (pinged target (timeout self) w)) as (r & w' & E & Hg & Hh & Ht).
        exists r, w'. split; [exact E|]. split; [|split; assumption].
        eapply only_trace_grows_trans; [apply only_trace_grows_pinged|exact Hg].
      * eexists _, _. split; [reflexivity|].
        split; [apply only_trace_grows_pinged|]. split; reflexivity.
    + destruct (attempt <? retries self).
      * destruct (IH (slept (pinged target (timeout self) w)))
          as (r & w' & E & Hg & Hh & Ht).
        exists r, w'. split; [exact E|]. split; [|split; assumption].
        eapply only_trace_grows_trans; [apply only_trace_grows_pinged|].
        eapply only_trace_grows_trans; [apply only_trace_grows_slept|exact Hg].
      * eexists _, _. split; [reflexivity|].
        split; [apply only_trace_grows_pinged|]. split; reflexivity.
Qed.

(** The loop returns only results that satisfy the invariant. *)
Lemma execute_ping_sound w :
  ∃ r w',
    execute_ping self target w = (Ok r, w')
    ∧ probe_invariant r
    ∧ only_trace_grows w w'.
Proof.
  rewrite execute_ping_eq.
  destruct (for_attempts_frame (PyFloat.to_int (w_time w * 1000)%float)
              (py_range (retries self + 1)) w) as (r & w' & E & Hg & _).
  destruct (for_attempts_sound self target (PyFloat.to_int (w_time w * 1000)%float)
              (py_range (retries self + 1)) w) as (r2 & w2 & E2 & Hinv & _).
  rewrite E in E2. injection E2 as <- <-.
  exists r, w'. split; [exact E|]. split; [exact Hinv|exact Hg].
Qed.

End ExecutorRuns.

(** X1: the first attempt that gets a reply ends the probe: with the
    attempts before it failing, the result is a success whose latency is
    that reply's round-trip time rounded to two decimals, [ping] has been
    called once per attempt so far, and the executor has slept once per
    attempt that raised, never after one that merely got no reply. *)
Theorem execute_ping_first_reply (self : PingService) (target : string) (w : world)
    (k : nat) (resp : ResponseList) :
  Z.of_nat k ≤ retries self →
  (∀ j, (j < k)%nat → failing (w_net w (pings_made (w_trace w) + j)%nat)) →
  w_net w (pings_made (w_trace w) + k)%nat = Ok resp →
  resp_success resp = true →
  ∃ w',
    execute_ping self target w
    = (Ok (mkPingResult target (PyFloat.to_int (w_time w * 1000)%float)
             (Some (PyFloat.round2 (rtt_avg_ms resp))) true None), w')
    ∧ attempts_made w w' = Z.of_nat k + 1
    ∧ sleeps_made (w_trace w') = (sleeps_made (w_trace w) + hard_failures w k)%nat.
Proof.
  intros Hk Hfail Hnet Hok. rewrite execute_ping_eq. unfold py_range.
  replace (Z.to_nat (retries self + 1))
    with (k + S (Z.to_nat (retries self) - k))%nat by lia.
  destruct (for_attempts_skip self target (PyFloat.to_int (w_time w * 1000)%float)
              k 0%nat (S (Z.to_nat (retries self) - k)) w Hfail)
    as (w1 & E & (Hd & Hf & Hn & Ht & evs & Hev) & Hp & Hs); [lia|].
  rewrite E. simpl. unfold mbind, M_bind. rewrite attempt_body_eq. cbv zeta.
  rewrite Hn, Hp, Hnet, Hok.
  eexists. split; [reflexivity|]. unfold attempts_made. simpl.
  rewrite pings_made_snoc_ping, sleeps_made_snoc_ping. split; lia.
Qed.

Lemma execute_ping_first_reply_witness :
  Z.of_nat 2 ≤ retries (mkPingService 5 2)
  ∧ ∃ w',
      execute_ping (mkPingService 5 2) "router.local"
        (quiet_world empty_store recovering_net)
      = (Ok (mkPingResult "router.local" 1702468800500
               (Some (PyFloat.round2 12.3125)) true None), w')
      ∧ attempts_made (quiet_world empty_store recovering_net) w' = 3
      ∧ sleeps_made (w_trace w') = 2%nat.
Proof.
  assert (Hk : Z.of_nat 2 ≤ retries (mkPingService 5 2)) by (simpl; lia).
  split; [exact Hk|].
  apply (execute_ping_first_reply (mkPingService 5 2) "router.local"
           (quiet_world empty_store recovering_net) 2
           (mkResponse true 12.3125) Hk).
  - intros [|[|j]] Hj; [exact I|exact I|lia].
  - reflexivity.
  - reflexivity.
Defined.

(** X2: when every attempt fails ([0 <= retries]), the last attempt decides
    the error: the message of its exception if it raised, otherwise
    ["Host unreachable or timeout"].  The executor sleeps once per raising
    attempt that is followed by a retry, so never after the last one. *)
Theorem execute_ping_exhausted (self : PingService) (target : string) (w : world) :
  0 ≤ retries self →
  every_attempt failing self w →
  ∃ w',
    execute_ping self target w
    = (Ok (mkPingResult target (PyFloat.to_int (w_time w * 1000)%float) None false
             (Some (failure_text
                      (w_net w (pings_made (w_trace w) + Z.to_nat (retries self))%nat)))),
       w')
    ∧ sleeps_made (w_trace w')
      = (sleeps_made (w_trace w) + hard_failures w (Z.to_nat (retries self)))%nat.
Proof.
  intros Hpos Hfail. rewrite execute_ping_eq. unfold py_range.
  replace (Z.to_nat (retries self + 1)) with (Z.to_nat (retries self) + 1)%nat by lia.
  destruct (for_attempts_skip self target (PyFloat.to_int (w_time w * 1000)%float)
              (Z.to_nat (retries self)) 0%nat 1%nat w)
    as (w1 & E & (Hd & Hf & Hn & Ht & evs & Hev) & Hp & Hs).
  { intros j Hj. apply Hfail. lia. }
  { lia. }
  rewrite E. simpl. unfold mbind, M_bind. rewrite attempt_body_eq. cbv zeta.
  assert (Hlast : (Z.of_nat (Z.to_nat (retries self)) <? retries self) = false)
    by (apply Z.ltb_ge; lia).
  rewrite Hlast, Hn, Hp.
  specialize (Hfail (Z.to_nat (retries self)) (le_n _)).
  destruct (w_net w (pings_made (w_trace w) + Z.to_nat (retries self))%nat)
    as [resp|e]; simpl in Hfail.
  - rewrite Hfail. eexists. split; [reflexivity|]. simpl.
    rewrite sleeps_made_snoc_ping. exact Hs.
  - eexists. split; [reflexivity|]. simpl.
    rewrite sleeps_made_snoc_ping. exact Hs.
Qed.

Lemma execute_ping_exhausted_witness :
  0 ≤ retries (mkPingService 5 2)
  ∧ every_attempt failing (mkPingService 5 2) (quiet_world empty_store broken_net)
  ∧ ∃ w',
      execute_ping (mkPingService 5 2) "router.local"
        (quiet_world empty_store broken_net)
      = (Ok (mkPingResult "router.local" 1702468800500 None false
               (Some "Temporary failure in name resolution"%string)), w')
      ∧ sleeps_made (w_trace w') = 2%nat.
Proof.
  assert (Hpos : 0 ≤ retries (mkPingService 5 2)) by (simpl; lia).
  assert (Hfail : every_attempt failing (mkPingService 5 2)
                    (quiet_world empty_store broken_net))
    by (intros k _; exact I).
  split; [exact Hpos|]. split; [exact Hfail|].
  exact (execute_ping_exhausted (mkPingService 5 2) "router.local"
           (quiet_world empty_store broken_net) Hpos Hfail).
Defined.

(** X3: with a negative [retries] the loop body never runs: [ping] is not
    called, the world is left as it was, and the result is the failure
    ["Maximum retries exceeded"]. *)
Theorem execute_ping_no_attempt (self : PingService) (target : string) (w : world) :
  retries self < 0 →
  execute_ping self target w
  = (Ok (mkPingResult target (PyFloat.to_int (w_time w * 1000)%float) None false
           (Some "Maximum retries exceeded"%string)), w).
Proof.
  intros Hneg. rewrite execute_ping_eq. unfold py_range.
  replace (Z.to_nat (retries self + 1)) with 0%nat by lia.
  reflexivity.
Qed.

Lemma execute_ping_no_attempt_witness :
  retries (mkPingService 5 (-1)) < 0
  ∧ execute_ping (mkPingService 5 (-1)) "router.local"
      (quiet_world empty_store recovering_net)
    = (Ok (mkPingResult "router.local" 1702468800500 None false
             (Some "Maximum retries exceeded"%string)),
       quiet_world empty_store recovering_net).
Proof.
  assert (Hneg : retries (mkPingService 5 (-1)) < 0) by (simpl; lia).
  split; [exact Hneg|].
  exact (execute_ping_no_attempt (mkPingService 5 (-1)) "router.local"
           (quiet_world empty_store recovering_net) Hneg).
Defined.

(** X4: a probe always returns, touches neither the database nor the
    clock, only adds to the trace of calls, and stamps its result with the
    host it was given and the one clock reading taken before the first
    attempt. *)
Theorem execute_ping_frame (self : PingService) (target : string) (w : world) :
  ∃ r w',
    execute_ping self target w = (Ok r, w')
    ∧ only_trace_grows w w'
    ∧ host r = target
    ∧ timestamp r = PyFloat.to_int (w_time w * 1000)%float.
Proof. rewrite execute_ping_eq. apply for_attempts_frame. Qed.

(** X5: an explicit [retries=0] given to the constructor is read as unset:
    the service retries as the settings say, so against a transport that
    always fails it makes [ping_retries + 1] attempts, not one. *)
Theorem explicit_zero_retries_ignored (settings : Settings)
    (timeout_arg : option Z) (target : string) (w : world) :
  0 ≤ ping_retries settings →
  every_attempt failing (PingService_init settings timeout_arg (Some 0)) w →
  ∃ r w',
    execute_ping (PingService_init settings timeout_arg (Some 0)) target w = (Ok r, w')
    ∧ success r = false
    ∧ attempts_made w w' = ping_retries settings + 1.
Proof.
  intros Hpos Hfail.
  destruct (execute_ping_failing (PingService_init settings timeout_arg (Some 0))
              target w Hpos Hfail) as (r & w' & E & Hs & _ & _ & Hn).
  exists r, w'. repeat split; assumption.
Qed.

Lemma explicit_zero_retries_ignored_witness :
  0 ≤ ping_retries default_settings
  ∧ ∃ r w',
      execute_ping (PingService_init default_settings None (Some 0)) "router.local"
        (quiet_world empty_store broken_net) = (Ok r, w')
      ∧ success r = false
      ∧ attempts_made (quiet_world empty_store broken_net) w' = 3.
Proof.
  assert (Hpos : 0 ≤ ping_retries default_settings) by (simpl; lia).
  split; [exact Hpos|].
  apply (explicit_zero_retries_ignored default_settings None "router.local"
           (quiet_world empty_store broken_net) Hpos).
  intros k _. exact I.
Defined.

(** ** What the operations leave alone *)

Section Preserves.

Context (P : store → Prop).

Lemma preserves_ret {A} (a : A) : preserves P (mret a).
Proof. intros w H. exact H. Qed.

Lemma preserves_raise {A} (e : exn) : preserves P (raise (A:=A) e).
Proof. intros w H. exact H. Qed.

Lemma preserves_bind {A B} (m : M A) (f : A → M B) :
  preserves P m → (∀ a, preserves P (f a)) → preserves P (m ≫= f).
Proof.
  intros Hm Hf w H. unfold mbind, M_bind. specialize (Hm w H).
  destruct (m w) as [[a|e] w1]; simpl in *; [apply Hf; exact Hm|exact Hm].
Qed.

Lemma preserves_try_except {A} (body : M A) (handler : exn → M A) :
  preserves P body → (∀ e, preserves P (handler e)) → preserves P (try_except body handler).
Proof.
  intros Hm Hh w H. unfold try_except. specialize (Hm w H).
  destruct (body w) as [[a|e] w1]; simpl in *; [exact Hm|apply Hh; exact Hm].
Qed.

(** A connection keeps what its statement keeps when it commits. *)
Lemma preserves_with_connection {A} (stmt : store → result A * store) :
  (∀ s a s', stmt s = (Ok a, s') → P s → P s') →
  preserves P (with_connection stmt).
Proof.
  intros Hstmt [s fs net t tr] H. simpl in H. unfold with_connection. simpl.
  destruct fs as [|[msg|] fs]; simpl; try exact H;
    destruct (stmt s) as [[a|e] s'] eqn:E; simpl; eauto.
Qed.

Lemma preserves_execute_query {A} (query : store → list A) :
  preserves P (execute_query query).
Proof.
  apply preserves_with_connection. intros s a s' E H. injection E as _ <-. exact H.
Qed.

Lemma preserves_execute_query_with {A} params (query : store → list A) :
  preserves P (execute_query_with params query).
Proof.
  apply preserves_with_connection. intros s a s' E H. unfold bind in E.
  destruct (decide (Forall sqlite_int params)); [|discriminate].
  injection E as _ <-. exact H.
Qed.

Lemma preserves_Host_init h : preserves P (Host_init h).
Proof.
  unfold Host_init. destruct (decide (valid_Host h)); intros w H; exact H.
Qed.

Lemma preserves_vacuum : preserves P vacuum.
Proof.
  apply preserves_with_connection. intros s a s' E H. injection E as _ <-. exact H.
Qed.

Lemma preserves_time_time : preserves P time_time.
Proof. intros w H. exact H. Qed.

Lemma preserves_datetime_now : preserves P datetime_now.
Proof. intros w H. exact H. Qed.

Lemma preserves_execute_ping self target : preserves P (execute_ping self target).
Proof.
  intros w H. rewrite execute_ping_eq.
  destruct (for_attempts_frame self target (PyFloat.to_int (w_time w * 1000)%float)
              (py_range (retries self + 1)) w) as (r & w' & E & (Hd & _) & _).
  rewrite E. simpl. rewrite Hd. exact H.
Qed.

End Preserves.

Ltac preserve :=
  repeat first
    [ apply preserves_ret
    | apply preserves_raise
    | apply preserves_execute_query
    | apply preserves_execute_query_with
    | apply preserves_Host_init
    | apply preserves_vacuum
    | apply preserves_time_time
    | apply preserves_datetime_now
    | apply preserves_execute_ping
    | apply preserves_bind
    | apply preserves_try_except
    | match goal with
      | |- ∀ _, _ => intro
      | |- preserves _ (if ?b then _ else _) => destruct b
      | |- preserves _ (match ?x with _ => _ end) => destruct x
      end ].

Section Reads.

Context (P : store → Prop).

Lemma preserves_get_ping_data h a b lim :
  preserves P (PingRepository.get_ping_data h a b lim).
Proof. unfold PingRepository.get_ping_data. preserve. Qed.

Lemma preserves_calculate_stats h a b :
  preserves P (PingRepository.calculate_stats h a b).
Proof. unfold PingRepository.calculate_stats. preserve. Qed.

Lemma preserves_get_host_by_id i : preserves P (PingRepository.get_host_by_id i).
Proof. unfold PingRepository.get_host_by_id. preserve. Qed.

Lemma preserves_get_host_by_hostname name :
  preserves P (PingRepository.get_host_by_hostname name).
Proof. unfold PingRepository.get_host_by_hostname. preserve. Qed.

Lemma preserves_hosts_of_rows rows : preserves P (StatusRepository.hosts_of_rows rows).
Proof. induction rows as [|row rows IH]; simpl; preserve. exact IH. Qed.

Lemma preserves_get_hosts : preserves P StatusRepository.get_hosts.
Proof.
  unfold StatusRepository.get_hosts.
  apply preserves_bind; [apply preserves_execute_query|]. intros rows.
  apply preserves_hosts_of_rows.
Qed.

Lemma preserves_status_of_host h : preserves P (StatusRepository.status_of_host h).
Proof. unfold StatusRepository.status_of_host. preserve. Qed.

Lemma preserves_status_loop hs : ∀ acc, preserves P (StatusRepository.status_loop hs acc).
Proof.
  induction hs as [|h hs IH]; intros acc; simpl.
  - apply preserves_ret.
  - apply preserves_bind; [apply preserves_status_of_host|]. intros st. apply IH.
Qed.

Lemma preserves_get_current_status : preserves P StatusRepository.get_current_status.
Proof.
  unfold StatusRepository.get_current_status.
  apply preserves_bind; [apply preserves_get_hosts|]. intros hs. apply preserves_status_loop.
Qed.

Lemma preserves_route_get_ping_data h a b lim :
  preserves P (router.get_ping_data h a b lim).
Proof.
  unfold router.get_ping_data, router.reraise_or_500.
  apply preserves_try_except.
  - destruct (b <=? a); [apply preserves_raise|].
    apply preserves_bind; [apply preserves_get_ping_data|]. intros d.
    apply preserves_bind; [apply preserves_calculate_stats|]. intros st.
    apply preserves_ret.
  - intros [msg|code detail]; apply preserves_raise.
Qed.

End Reads.

(** X6: reading never writes.  Range queries, window statistics, host
    lookups, the host listing, the current status and the ping-data route
    leave the database exactly as it was, in every world and however they
    end. *)
Theorem reads_leave_database (w : world) :
  (∀ h a b lim, w_db (snd (PingRepository.get_ping_data h a b lim w)) = w_db w)
  ∧ (∀ h a b, w_db (snd (PingRepository.calculate_stats h a b w)) = w_db w)
  ∧ (∀ i, w_db (snd (PingRepository.get_host_by_id i w)) = w_db w)
  ∧ (∀ name, w_db (snd (PingRepository.get_host_by_hostname name w)) = w_db w)
  ∧ w_db (snd (StatusRepository.get_hosts w)) = w_db w
  ∧ w_db (snd (StatusRepository.get_current_status w)) = w_db w
  ∧ (∀ h a b lim, w_db (snd (router.get_ping_data h a b lim w)) = w_db w).
Proof.
  repeat split; intros.
  - apply (preserves_get_ping_data (λ s, s = w_db w)). reflexivity.
  - apply (preserves_calculate_stats (λ s, s = w_db w)). reflexivity.
  - apply (preserves_get_host_by_id (λ s, s = w_db w)). reflexivity.
  - apply (preserves_get_host_by_hostname (λ s, s = w_db w)). reflexivity.
  - apply (preserves_get_hosts (λ s, s = w_db w)). reflexivity.
  - apply (preserves_get_current_status (λ s, s = w_db w)). reflexivity.
  - apply (preserves_route_get_ping_data (λ s, s = w_db w)). reflexivity.
Qed.

(** ** What the writers keep *)

Lemma foldr_max_lower (l : list Z) (k : Z) : k ≤ foldr Z.max k l.
Proof. induction l as [|x l IH]; simpl; lia. Qed.

Lemma foldr_max_upper (l : list Z) (k x : Z) : x ∈ l → x ≤ foldr Z.max k l.
Proof.
  induction l as [|y l IH]; intros Hx.
  - apply elem_of_nil in Hx as [].
  - apply elem_of_cons in Hx as [->|Hx]; simpl; [lia|]. specialize (IH Hx). lia.
Qed.

(** The id AUTOINCREMENT picks is above the counter and above every id
    in the table. *)
Lemma next_host_id_fresh (s : store) :
  hosts_seq s < SQL.next_host_id s
  ∧ Forall (λ r, row_id r < SQL.next_host_id s) (hosts s).
Proof.
  unfold SQL.next_host_id. split.
  - pose proof (foldr_max_lower (row_id <$> hosts s) (hosts_seq s)). lia.
  - apply Forall_forall. intros r Hr.
    pose proof (foldr_max_upper (row_id <$> hosts s) (hosts_seq s) (row_id r)) as H.
    assert (row_id r ∈ row_id <$> hosts s) by (apply list_elem_of_fmap; eauto).
    specialize (H ltac:(assumption)). lia.
Qed.

Lemma insert_host_store_ok name display created s i s' :
  SQL.insert_host name display created s = (Ok i, s') → store_ok s → store_ok s'.
Proof.
  unfold SQL.insert_host. intros E (Hnames & Hids & Hseq).
  destruct (bool_decide (name ∈ row_hostname <$> hosts s)) eqn:Ein; [discriminate|].
  apply bool_decide_eq_false in Ein. injection E as _ <-.
  destruct (next_host_id_fresh s) as [Hlt Hall].
  unfold store_ok. simpl. rewrite !fmap_app. simpl. repeat split.
  - apply NoDup_app. split; [exact Hnames|]. split; [|apply NoDup_singleton].
    intros x Hx Hx'. apply list_elem_of_singleton in Hx'. subst x. contradiction.
  - apply NoDup_app. split; [exact Hids|]. split; [|apply NoDup_singleton].
    intros x Hx Hx'. apply list_elem_of_singleton in Hx'. subst x.
    apply list_elem_of_fmap in Hx as (r & Hr & Hin).
    rewrite Forall_forall in Hall. specialize (Hall r Hin). lia.
  - apply Forall_app. split.
    + eapply Forall_impl; [exact Hall|]. intros r Hr. simpl in Hr. lia.
    + repeat constructor. simpl. lia.
Qed.

Lemma delete_host_row_store_ok host_id s :
  store_ok s → store_ok (SQL.delete_host_row host_id s).2.
Proof.
  intros (Hnames & Hids & Hseq). unfold store_ok. simpl. repeat split.
  - eapply sublist_NoDup; [exact Hnames|]. apply fmap_sublist, sublist_filter.
  - eapply sublist_NoDup; [exact Hids|]. apply fmap_sublist, sublist_filter.
  - apply Forall_forall. intros r Hr. apply list_elem_of_filter in Hr as [_ Hr].
    rewrite Forall_forall in Hseq. apply Hseq, Hr.
Qed.

(** Writers of probe rows keep whatever depends on the [hosts] table only. *)
Section ProbeWriters.

Context (P : store → Prop).
Hypothesis P_of_hosts : ∀ s s', hosts_table s' = hosts_table s → P s → P s'.

Lemma preserves_insert_ping_result r : preserves P (PingRepository.insert_ping_result r).
Proof.
  unfold PingRepository.insert_ping_result, execute_update.
  apply preserves_bind; [|intros; apply preserves_ret].
  apply preserves_with_connection. intros s a s' E H. injection E as _ <-.
  revert H. apply P_of_hosts. reflexivity.
Qed.

Lemma preserves_delete_older_than cutoff :
  preserves P (PingRepository.delete_older_than cutoff).
Proof.
  unfold PingRepository.delete_older_than, execute_update.
  apply preserves_bind; [apply preserves_execute_query|]. intros rows.
  apply preserves_bind; [|intros; apply preserves_ret].
  apply preserves_with_connection. intros s a s' E H. injection E as _ <-.
  revert H. apply P_of_hosts. reflexivity.
Qed.

Lemma preserves_delete_old_pings days : preserves P (PingRepository.delete_old_pings days).
Proof.
  unfold PingRepository.delete_old_pings.
  apply preserves_bind; [apply preserves_time_time|]. intros t.
  apply preserves_delete_older_than.
Qed.

Lemma preserves_cleanup_now settings self :
  preserves P (CleanupService.cleanup_now settings self).
Proof.
  unfold CleanupService.cleanup_now. apply preserves_try_except.
  - apply preserves_bind; [apply preserves_delete_old_pings|]. preserve.
  - preserve.
Qed.

Lemma preserves_run_cleanup settings self :
  preserves P (CleanupJobs._run_cleanup settings self).
Proof.
  unfold CleanupJobs._run_cleanup. apply preserves_try_except.
  - apply preserves_bind; [apply preserves_delete_old_pings|]. preserve.
  - preserve.
Qed.

Lemma preserves_ping_now svc target : preserves P (SchedulerService.ping_now svc target).
Proof.
  unfold SchedulerService.ping_now. apply preserves_try_except.
  - apply preserves_bind; [apply preserves_execute_ping|]. intros r.
    apply preserves_bind; [apply preserves_insert_ping_result|]. preserve.
  - preserve.
Qed.

Lemma preserves_ping_and_store svc target :
  preserves P (SchedulerRound._ping_and_store svc target).
Proof.
  unfold SchedulerRound._ping_and_store. apply preserves_try_except.
  - apply preserves_bind; [apply preserves_execute_ping|]. intros r.
    apply preserves_bind; [apply preserves_insert_ping_result|]. preserve.
  - preserve.
Qed.

End ProbeWriters.

Lemma preserves_vacuum_now (P : store → Prop) self :
  preserves P (CleanupService.vacuum_now self).
Proof. unfold CleanupService.vacuum_now. preserve. Qed.

Lemma preserves_run_vacuum (P : store → Prop) self :
  preserves P (CleanupJobs._run_vacuum self).
Proof. unfold CleanupJobs._run_vacuum. preserve. Qed.

(** [add_host] keeps whatever depends on the [ping_results] table only. *)
Section HostWriters.

Context (P : store → Prop).
Hypothesis P_insert_host : ∀ name display created s i s',
  SQL.insert_host name display created s = (Ok i, s') → P s → P s'.

Lemma preserves_add_host name display : preserves P (PingRepository.add_host name display).
Proof.
  unfold PingRepository.add_host, execute_update.
  apply preserves_bind; [apply preserves_time_time|]. intros t.
  apply preserves_bind; [|intros; apply preserves_Host_init].
  apply preserves_with_connection. intros s a s'. apply P_insert_host.
Qed.

Lemma preserves_route_add_host hc : preserves P (api.add_host hc).
Proof.
  unfold api.add_host. apply preserves_try_except.
  - apply preserves_bind; [apply preserves_get_host_by_hostname|].
    intros [h|]; [apply preserves_raise|apply preserves_add_host].
  - intros [msg|code detail]; apply preserves_raise.
Qed.

End HostWriters.

Lemma insert_host_probes name display created s i s' :
  SQL.insert_host name display created s = (Ok i, s') →
  probes_table s' = probes_table s.
Proof.
  unfold SQL.insert_host.
  destruct (bool_decide (name ∈ row_hostname <$> hosts s)); [discriminate|].
  intros E. injection E as _ <-. reflexivity.
Qed.

Lemma preserves_delete_host_store_ok host_id :
  preserves store_ok (PingRepository.delete_host host_id).
Proof.
  unfold PingRepository.delete_host, execute_update.
  apply preserves_bind; [apply preserves_get_host_by_id|].
  intros [h|]; [|apply preserves_ret].
  apply preserves_bind.
  { apply preserves_with_connection. intros s a s' E H. injection E as _ <-. exact H. }
  intros _. apply preserves_bind; [|intros; apply preserves_ret].
  apply preserves_with_connection. intros s a s' E H. unfold bind in E.
  destruct (decide (Forall sqlite_int [host_id])); [|discriminate].
  replace s' with (SQL.delete_host_row host_id s).2 by (rewrite E; reflexivity).
  apply delete_host_row_store_ok, H.
Qed.

Lemma preserves_route_delete_host_store_ok host_id :
  preserves store_ok (router.delete_host host_id).
Proof.
  unfold router.delete_host. apply preserves_try_except.
  - apply preserves_bind; [apply preserves_delete_host_store_ok|].
    intros [|]; [apply preserves_ret|apply preserves_raise].
  - intros [msg|code detail]; apply preserves_raise.
Qed.

Lemma store_ok_of_hosts s s' : hosts_table s' = hosts_table s → store_ok s → store_ok s'.
Proof.
  unfold hosts_table, store_ok. intros E. injection E as -> ->. tauto.
Qed.

(** X7: each writer keeps to its own table.  Storing a probe result, a
    scheduled or manual probe, the retention sweep, the manual triggers and
    the vacuum never change the [hosts] table; adding a host never changes
    the [ping_results] table.  This holds in every world, also when the
    call fails. *)
Theorem writers_keep_to_their_table (w : world) :
  (∀ r, hosts_table (w_db (snd (PingRepository.insert_ping_result r w)))
        = hosts_table (w_db w))
  ∧ (∀ svc target,
       hosts_table (w_db (snd (SchedulerRound._ping_and_store svc target w)))
       = hosts_table (w_db w))
  ∧ (∀ svc target,
       hosts_table (w_db (snd (SchedulerService.ping_now svc target w)))
       = hosts_table (w_db w))
  ∧ (∀ days, hosts_table (w_db (snd (PingRepository.delete_old_pings days w)))
             = hosts_table (w_db w))
  ∧ (∀ settings self,
       hosts_table (w_db (snd (CleanupService.cleanup_now settings self w)))
       = hosts_table (w_db w))
  ∧ (∀ settings self,
       hosts_table (w_db (snd (CleanupJobs._run_cleanup settings self w)))
       = hosts_table (w_db w))
  ∧ (∀ self, w_db (snd (CleanupService.vacuum_now self w)) = w_db w)
  ∧ (∀ self, w_db (snd (CleanupJobs._run_vacuum self w)) = w_db w)
  ∧ (∀ name display,
       probes_table (w_db (snd (PingRepository.add_host name display w)))
       = probes_table (w_db w))
  ∧ (∀ hc, probes_table (w_db (snd (api.add_host hc w))) = probes_table (w_db w)).
Proof.
  assert (Hh : ∀ s s', hosts_table s' = hosts_table s →
            hosts_table s = hosts_table (w_db w) → hosts_table s' = hosts_table (w_db w))
    by (intros; congruence).
  assert (Hp : ∀ name display created s i s',
            SQL.insert_host name display created s = (Ok i, s') →
            probes_table s = probes_table (w_db w) →
            probes_table s' = probes_table (w_db w)).
  { intros name display created s i s' E H. rewrite <- H.
    eapply insert_host_probes, E. }
  repeat split; intros.
  - apply (preserves_insert_ping_result (λ s, hosts_table s = hosts_table (w_db w)) Hh).
    reflexivity.
  - apply (preserves_ping_and_store (λ s, hosts_table s = hosts_table (w_db w)) Hh).
    reflexivity.
  - apply (preserves_ping_now (λ s, hosts_table s = hosts_table (w_db w)) Hh).
    reflexivity.
  - apply (preserves_delete_old_pings (λ s, hosts_table s = hosts_table (w_db w)) Hh).
    reflexivity.
  - apply (preserves_cleanup_now (λ s, hosts_table s = hosts_table (w_db w)) Hh).
    reflexivity.
  - apply (preserves_run_cleanup (λ s, hosts_table s = hosts_table (w_db w)) Hh).
    reflexivity.
  - apply (preserves_vacuum_now (λ s, s = w_db w)). reflexivity.
  - apply (preserves_run_vacuum (λ s, s = w_db w)). reflexivity.
  - apply (preserves_add_host (λ s, probes_table s = probes_table (w_db w)) Hp).
    reflexivity.
  - apply (preserves_route_add_host (λ s, probes_table s = probes_table (w_db w)) Hp).
    reflexivity.
Qed.

(** X8: the constraints of the [hosts] table survive every operation: on a
    store where hostnames and ids are unique and no id exceeds the
    AUTOINCREMENT counter, the same holds after adding a host (through the
    repository or the route), deleting one, storing a probe, a probe
    round, the retention sweep and the manual triggers, in every world
    and however the call ends. *)
Theorem store_ok_invariant (w : world) :
  store_ok (w_db w) →
  (∀ name display, store_ok (w_db (snd (PingRepository.add_host name display w))))
  ∧ (∀ hc, store_ok (w_db (snd (api.add_host hc w))))
  ∧ (∀ i, store_ok (w_db (snd (PingRepository.delete_host i w))))
  ∧ (∀ i, store_ok (w_db (snd (router.delete_host i w))))
  ∧ (∀ r, store_ok (w_db (snd (PingRepository.insert_ping_result r w))))
  ∧ (∀ svc target, store_ok (w_db (snd (SchedulerRound._ping_and_store svc target w))))
  ∧ (∀ svc target, store_ok (w_db (snd (SchedulerService.ping_now svc target w))))
  ∧ (∀ days, store_ok (w_db (snd (PingRepository.delete_old_pings days w))))
  ∧ (∀ settings self,
       store_ok (w_db (snd (CleanupService.cleanup_now settings self w)))).
Proof.
  intros Hok. repeat match goal with |- _ ∧ _ => split end; intros.
  - apply (preserves_add_host store_ok insert_host_store_ok), Hok.
  - apply (preserves_route_add_host store_ok insert_host_store_ok), Hok.
  - apply preserves_delete_host_store_ok, Hok.
  - apply preserves_route_delete_host_store_ok, Hok.
  - apply (preserves_insert_ping_result store_ok store_ok_of_hosts), Hok.
  - apply (preserves_ping_and_store store_ok store_ok_of_hosts), Hok.
  - apply (preserves_ping_now store_ok store_ok_of_hosts), Hok.
  - apply (preserves_delete_old_pings store_ok store_ok_of_hosts), Hok.
  - apply (preserves_cleanup_now store_ok store_ok_of_hosts), Hok.
Qed.

Lemma example_store_ok : store_ok example_store.
Proof.
  unfold store_ok.
  split; [apply (bool_decide_unpack _); vm_compute; exact I|].
  split; [apply (bool_decide_unpack _); vm_compute; exact I|].
  simpl. repeat constructor; simpl; lia.
Defined.

Lemma store_ok_invariant_witness :
  store_ok (w_db failing_disk_world)
  ∧ store_ok (w_db (snd (PingRepository.delete_host 1 failing_disk_world)))
  ∧ store_ok (w_db (snd (api.add_host (api.mkHostCreate "1.1.1.1" "Cloudflare")
                           failing_disk_world))).
Proof.
  destruct (store_ok_invariant failing_disk_world example_store_ok)
    as (_ & Hadd & Hdel & _).
  split; [exact example_store_ok|]. split; [apply Hdel|apply Hadd].
Defined.

(** ** Storing and querying probes *)

Lemma calculate_stats_depends_on_window h a b s1 s2 net t tr net' t' tr' :
  window_rows h a b s1 = window_rows h a b s2 →
  fst (PingRepository.calculate_stats h a b (mkWorld s1 [] net t tr))
  = fst (PingRepository.calculate_stats h a b (mkWorld s2 [] net' t' tr')).
Proof. intros E. rewrite !calculate_stats_quiet. simpl. rewrite E. reflexivity. Qed.

Lemma get_ping_data_depends_on_window h a b lim s1 s2 net t tr net' t' tr' :
  window_rows h a b s1 = window_rows h a b s2 →
  fst (PingRepository.get_ping_data h a b lim (mkWorld s1 [] net t tr))
  = fst (PingRepository.get_ping_data h a b lim (mkWorld s2 [] net' t' tr')).
Proof.
  intros E. rewrite !get_ping_data_quiet. simpl.
  unfold SQL.select_ping_data, SQL.order_by_timestamp.
  unfold window_rows in E. rewrite E. reflexivity.
Qed.

(** X9: storing a result appends it to what the repository reads back and
    changes no answer about another host: range queries and window
    statistics of every other hostname are as before.  When the storage
    refuses the connection the call raises and nothing is stored. *)
Theorem insert_ping_result_effect (r : PingResult) (s : store)
    (net : nat → result ResponseList) (t : float) (tr : list event) :
  (∃ w',
     PingRepository.insert_ping_result r (mkWorld s [] net t tr) = (Ok tt, w')
     ∧ stored_results (w_db w') = stored_results s ++ [r]
     ∧ (∀ h a b lim, h ≠ host r →
          fst (PingRepository.get_ping_data h a b lim w')
          = fst (PingRepository.get_ping_data h a b lim (mkWorld s [] net t tr)))
     ∧ (∀ h a b, h ≠ host r →
          fst (PingRepository.calculate_stats h a b w')
          = fst (PingRepository.calculate_stats h a b (mkWorld s [] net t tr))))
  ∧ (∀ msg fs,
       PingRepository.insert_ping_result r (mkWorld s (Some msg :: fs) net t tr)
       = (Raise (Exception msg), mkWorld s fs net t tr)).
Proof.
  split; [|reflexivity].
  exists (mkWorld (mkStore (ping_results s ++ [PingRepository.to_row r])
                     (1 + ping_results_seq s) (hosts s) (hosts_seq s)) [] net t tr).
  assert (Hother : ∀ h a b, h ≠ host r →
            window_rows h a b
              (mkStore (ping_results s ++ [PingRepository.to_row r])
                 (1 + ping_results_seq s) (hosts s) (hosts_seq s))
            = window_rows h a b s).
  { intros h a b Hne. unfold window_rows. simpl. rewrite filter_app.
    rewrite filter_cons_False, filter_nil, app_nil_r; [reflexivity|].
    intros (Hh & _). destruct r; simpl in *. congruence. }
  split; [reflexivity|]. split; [|split].
  - unfold stored_results. simpl. rewrite fmap_app. simpl.
    rewrite of_row_to_row. reflexivity.
  - intros h a b lim Hne. apply get_ping_data_depends_on_window, Hother, Hne.
  - intros h a b Hne. apply calculate_stats_depends_on_window, Hother, Hne.
Qed.

(** X10: a range query whose bounds and limit SQLite can hold answers
    with rows of the window only, all of them stored rows of the host; it
    returns [min(limit, N)] of the N rows of the window when [limit >= 0]
    and all N when [limit] is negative; and a window with [end < start] is
    empty. *)
Theorem get_ping_data_bounds (h : string) (start_time end_time limit : Z)
    (s : store) (net : nat → result ResponseList) (t : float) (tr : list event) :
  sqlite_int start_time → sqlite_int end_time → sqlite_int limit →
  ∃ d,
    fst (PingRepository.get_ping_data h start_time end_time limit
           (mkWorld s [] net t tr)) = Ok d
    ∧ Forall (in_window h start_time end_time) d
    ∧ (∀ r, r ∈ d → r ∈ stored_results s)
    ∧ length d
      = (if limit <? 0 then length (window_rows h start_time end_time s)
         else Nat.min (Z.to_nat limit) (length (window_rows h start_time end_time s)))
    ∧ (end_time < start_time → d = []).
Proof.
  intros Hlo Hhi Hlim.
  rewrite get_ping_data_quiet. rewrite decide_True by (apply three_fit; auto).
  simpl. eexists. split; [reflexivity|].
  unfold SQL.select_ping_data, SQL.order_by_timestamp.
  fold (window_rows h start_time end_time s).
  assert (Hsub : ∀ row, row ∈ SQL.limit limit
                          (reverse (window_rows h start_time end_time s)) →
                        row ∈ window_rows h start_time end_time s).
  { intros row Hrow. unfold SQL.limit in Hrow. apply elem_of_reverse.
    destruct (limit <? 0); [exact Hrow|].
    eapply elem_of_sublist; [exact Hrow|apply sublist_take]. }
  assert (Hwin : ∀ row, row ∈ window_rows h start_time end_time s →
                        SQL.in_range h start_time end_time row ∧ row ∈ ping_results s).
  { intros row Hrow. unfold window_rows, SQL.newest_first in Hrow.
    apply elem_of_stable_sort in Hrow. apply list_elem_of_filter in Hrow. exact Hrow. }
  split; [|split; [|split]].
  - apply Forall_forall. intros r Hr.
    apply list_elem_of_fmap in Hr as (row & -> & Hrow).
    apply Hsub, Hwin in Hrow as [Hin _]. exact Hin.
  - intros r Hr. apply list_elem_of_fmap in Hr as (row & -> & Hrow).
    apply Hsub, Hwin in Hrow as [_ Hin].
    unfold stored_results. apply list_elem_of_fmap. eauto.
  - rewrite length_fmap. unfold SQL.limit.
    destruct (limit <? 0).
    + apply length_reverse.
    + rewrite length_take, length_reverse. reflexivity.
  - intros Hempty.
    assert (Hnil : window_rows h start_time end_time s = []).
    { destruct (window_rows h start_time end_time s) as [|row rows];
        [reflexivity|].
      destruct (Hwin row (list_elem_of_here _ _)) as [(_ & H1 & H2) _]. lia. }
    rewrite Hnil. unfold SQL.limit. destruct (limit <? 0); [reflexivity|].
    simpl. destruct (Z.to_nat limit); reflexivity.
Qed.

(** Of the two probes of [router.local] the query with limit 1 returns
    one. *)
Lemma get_ping_data_bounds_witness :
  sqlite_int 0 ∧ sqlite_int 1702468800000 ∧ sqlite_int 1
  ∧ length (window_rows "router.local" 0 1702468800000 example_store) = 2%nat
  ∧ ∃ d,
      fst (PingRepository.get_ping_data "router.local" 0 1702468800000 1
             (quiet_world example_store silent_net)) = Ok d
      ∧ Forall (in_window "router.local" 0 1702468800000) d
      ∧ (∀ r, r ∈ d → r ∈ stored_results example_store)
      ∧ length d
        = (if 1 <? 0
           then length (window_rows "router.local" 0 1702468800000 example_store)
           else Nat.min (Z.to_nat 1)
                  (length (window_rows "router.local" 0 1702468800000 example_store)))
      ∧ (1702468800000 < 0 → d = []).
Proof.
  assert (H0 : sqlite_int 0) by (unfold sqlite_int; lia).
  assert (H1 : sqlite_int 1702468800000) by (unfold sqlite_int; lia).
  assert (H2 : sqlite_int 1) by (unfold sqlite_int; lia).
  split; [exact H0|]. split; [exact H1|]. split; [exact H2|].
  split; [reflexivity|].
  exact (get_ping_data_bounds "router.local" 0 1702468800000 1 example_store
           silent_net 1702468800.5 [] H0 H1 H2).
Defined.

(** X11: the retention sweep is all or nothing in every world: when it
    raises, the database is unchanged; when it returns [n], exactly the
    rows older than the cutoff are gone and [n] is their number.  Either
    way no row with [timestamp >= cutoff] is lost. *)
Theorem delete_older_than_any_world (cutoff : Z) (w : world) :
  (∀ e, fst (PingRepository.delete_older_than cutoff w) = Raise e →
        w_db (snd (PingRepository.delete_older_than cutoff w)) = w_db w)
  ∧ (∀ n, fst (PingRepository.delete_older_than cutoff w) = Ok n →
          ping_results (w_db (snd (PingRepository.delete_older_than cutoff w)))
          = filter (λ r, ¬ row_timestamp r < cutoff) (ping_results (w_db w))
          ∧ n = Z.of_nat (length (filter (λ r, row_timestamp r < cutoff)
                                    (ping_results (w_db w)))))
  ∧ (∀ row, row ∈ ping_results (w_db w) → cutoff ≤ row_timestamp row →
            row ∈ ping_results (w_db (snd (PingRepository.delete_older_than cutoff w)))).
Proof.
  destruct w as [s fs net t tr].
  destruct fs as [|[m0|] [|[m1|] fs]]; simpl;
    (split; [intros e He; first [discriminate He | reflexivity]|]);
    (split; [intros n Hn; first [discriminate Hn | injection Hn as <-; split; reflexivity]|]);
    intros row Hrow Hts; try exact Hrow;
    apply list_elem_of_filter; (split; [lia|exact Hrow]).
Qed.
(** ** Hosts: adding, looking up, deleting *)

Lemma get_host_by_id_quiet i s net t tr :
  PingRepository.get_host_by_id i (mkWorld s [] net t tr)
  = (if decide (Forall sqlite_int [i]) then first_host (host_rows i s)
     else Raise OverflowError,
     mkWorld s [] net t tr).
Proof.
  unfold PingRepository.get_host_by_id. run_db. unfold bind.
  destruct (decide (Forall sqlite_int [i])); [|reflexivity]. simpl.
  unfold SQL.select_host_by_id. fold (host_rows i s).
  destruct (host_rows i s) as [|row rest]; [reflexivity|]. simpl.
  unfold Host_init, readable.
  destruct (decide (valid_Host (PingRepository.host_of_row row))); reflexivity.
Qed.

Lemma get_host_by_hostname_quiet name s net t tr :
  PingRepository.get_host_by_hostname name (mkWorld s [] net t tr)
  = (first_host (filter (λ r, row_hostname r = name) (hosts s)),
     mkWorld s [] net t tr).
Proof.
  unfold PingRepository.get_host_by_hostname. run_db. unfold SQL.select_host_by_hostname.
  destruct (filter _ (hosts s)) as [|row rest]; [reflexivity|]. simpl.
  unfold Host_init, readable.
  destruct (decide (valid_Host (PingRepository.host_of_row row))); reflexivity.
Qed.

Lemma delete_host_quiet host_id row rest s net t tr :
  host_rows host_id s = row :: rest →
  sqlite_int host_id →
  readable row →
  PingRepository.delete_host host_id (mkWorld s [] net t tr)
  = (Ok true,
     mkWorld (without_host host_id (without_probes (row_hostname row) s)) [] net t tr).
Proof.
  intros Hrows Hfit Hread. run_db.
  rewrite bind_fits by (apply Forall_singleton, Hfit).
  unfold SQL.select_host_by_id. fold (host_rows host_id s).
  rewrite Hrows. simpl. rewrite Host_init_valid by exact Hread. simpl.
  rewrite bind_fits by (apply Forall_singleton, Hfit). reflexivity.
Qed.

(** X12: once [delete_host] has returned true, every range query for the
    host's name is empty, its window statistics are those of an empty
    window, its id is no longer found and a second [delete_host] returns
    false; range queries of other hostnames and lookups of other ids
    answer as before.  The call returns true for an id SQLite can hold
    whose row passes the validation of [Host]; the bounds of the queries
    are integers SQLite can hold. *)
Theorem delete_host_then_queries (host_id : Z) (row : hosts_row) (rest : list hosts_row)
    (s : store) (net : nat → result ResponseList) (t : float) (tr : list event) :
  host_rows host_id s = row :: rest →
  sqlite_int host_id →
  readable row →
  ∃ w',
    PingRepository.delete_host host_id (mkWorld s [] net t tr) = (Ok true, w')
    ∧ (∀ a b lim, sqlite_int a → sqlite_int b → sqlite_int lim →
         fst (PingRepository.get_ping_data (row_hostname row) a b lim w') = Ok [])
    ∧ (∀ a b, sqlite_int a → sqlite_int b →
         fst (PingRepository.calculate_stats (row_hostname row) a b w')
         = Ok PingRepository.no_stats)
    ∧ fst (PingRepository.get_host_by_id host_id w') = Ok None
    ∧ fst (PingRepository.delete_host host_id w') = Ok false
    ∧ (∀ h a b lim, h ≠ row_hostname row →
         fst (PingRepository.get_ping_data h a b lim w')
         = fst (PingRepository.get_ping_data h a b lim (mkWorld s [] net t tr)))
    ∧ (∀ i, i ≠ host_id →
         fst (PingRepository.get_host_by_id i w')
         = fst (PingRepository.get_host_by_id i (mkWorld s [] net t tr))).
Proof.
  intros Hrows Hfit Hread. eexists.
  split; [apply (delete_host_quiet _ _ _ _ _ _ _ Hrows Hfit Hread)|].
  set (name := row_hostname row).
  assert (Hgone : ∀ a b, window_rows name a b (without_host host_id (without_probes name s)) = []).
  { intros a b. unfold window_rows, without_host, without_probes. simpl.
    rewrite list_filter_filter.
    destruct (filter _ (ping_results s)) as [|r rs] eqn:E; [reflexivity|].
    assert (Hr : r ∈ r :: rs) by apply list_elem_of_here.
    rewrite <- E in Hr. apply list_elem_of_filter in Hr as [[(Hh & _) Hne] _].
    contradiction. }
  assert (Hother : ∀ h a b, h ≠ name →
            window_rows h a b (without_host host_id (without_probes name s))
            = window_rows h a b s).
  { intros h a b Hne. unfold window_rows, without_host, without_probes. simpl.
    f_equal. apply list_filter_filter_l. intros r (Hh & _). congruence. }
  assert (Hnone : host_rows host_id (without_host host_id (without_probes name s)) = [])
    by apply host_rows_without_host.
  split; [|split; [|split; [|split; [|split]]]].
  - intros a b lim Ha Hb Hl. rewrite get_ping_data_quiet.
    rewrite decide_True by (apply three_fit; auto).
    simpl. unfold SQL.select_ping_data, SQL.order_by_timestamp.
    fold (window_rows name a b (without_host host_id (without_probes name s))).
    rewrite Hgone. unfold SQL.limit.
    destruct (lim <? 0); [reflexivity|]. simpl. destruct (Z.to_nat lim); reflexivity.
  - intros a b Ha Hb. rewrite calculate_stats_quiet.
    rewrite decide_True by (apply two_fit; auto). simpl. rewrite Hgone. reflexivity.
  - rewrite get_host_by_id_quiet. rewrite decide_True by (apply Forall_singleton, Hfit).
    simpl. rewrite Hnone. reflexivity.
  - run_db. rewrite bind_fits by (apply Forall_singleton, Hfit).
    unfold SQL.select_host_by_id.
    fold (host_rows host_id (without_host host_id (without_probes name s))).
    rewrite Hnone. reflexivity.
  - intros h a b lim Hne. apply get_ping_data_depends_on_window, Hother, Hne.
  - intros i Hne. rewrite !get_host_by_id_quiet. simpl.
    destruct (decide (Forall sqlite_int [i])); [|reflexivity]. f_equal.
    unfold host_rows, without_host, without_probes. simpl.
    apply list_filter_filter_l. intros r Hr. congruence.
Qed.

Lemma delete_host_then_queries_witness :
  host_rows 1 example_store
  = [mkHostRow 1 "router.local" "Home Router" 1 1702468000000]
  ∧ sqlite_int 1
  ∧ readable (mkHostRow 1 "router.local" "Home Router" 1 1702468000000)
  ∧ ∃ w',
      PingRepository.delete_host 1 (quiet_world example_store silent_net) = (Ok true, w')
      ∧ fst (PingRepository.get_ping_data "router.local" 0 1702468800000 1000 w') = Ok []
      ∧ fst (PingRepository.delete_host 1 w') = Ok false.
Proof.
  assert (Hrows : host_rows 1 example_store
                  = [mkHostRow 1 "router.local" "Home Router" 1 1702468000000])
    by reflexivity.
  assert (Hfit : ∀ n, - 2 ^ 63 ≤ n < 2 ^ 63 → sqlite_int n) by (intros n Hn; exact Hn).
  assert (Hread : readable (mkHostRow 1 "router.local" "Home Router" 1 1702468000000)).
  { unfold readable, valid_Host, field_ok. simpl. lia. }
  split; [exact Hrows|]. split; [apply Hfit; lia|]. split; [exact Hread|].
  destruct (delete_host_then_queries 1 _ _ example_store silent_net 1702468800.5 []
              Hrows (Hfit 1 ltac:(lia)) Hread)
    as (w' & E & Hq & _ & _ & Hagain & _).
  exists w'. split; [exact E|]. split; [|exact Hagain].
  apply (Hq 0 1702468800000 1000); apply Hfit; lia.
Defined.

(** X13: a host added through the repository, with a hostname and a
    display name that [Host] accepts, is found again: looking up its
    hostname or the id it was given returns the very host [add_host]
    returned, with [enabled = True]; lookups of other hostnames answer as
    before.  The id it was given is one SQLite can hold. *)
Theorem add_host_then_lookup (name display : string) (s : store)
    (net : nat → result ResponseList) (t : float) (tr : list event) :
  name ∉ row_hostname <$> hosts s →
  field_ok name → field_ok display →
  sqlite_int (SQL.next_host_id s) →
  ∃ h w',
    PingRepository.add_host name display (mkWorld s [] net t tr) = (Ok h, w')
    ∧ h = mkHost (Some (SQL.next_host_id s)) name display true
            (Some (PyFloat.to_int (t * 1000)%float))
    ∧ fst (PingRepository.get_host_by_hostname name w') = Ok (Some h)
    ∧ fst (PingRepository.get_host_by_id (SQL.next_host_id s) w') = Ok (Some h)
    ∧ (∀ other, other ≠ name →
         fst (PingRepository.get_host_by_hostname other w')
         = fst (PingRepository.get_host_by_hostname other (mkWorld s [] net t tr))).
Proof.
  intros Hnew Hname Hdisplay Hfit.
  assert (Hvalid : valid_Host (mkHost (Some (SQL.next_host_id s)) name display true
                                 (Some (PyFloat.to_int (t * 1000)%float))))
    by (split; assumption).
  assert (Hread : readable (mkHostRow (SQL.next_host_id s) name display 1
                              (PyFloat.to_int (t * 1000)%float)))
    by (split; assumption).
  eexists _, _. split.
  { run_db. unfold SQL.insert_host. rewrite bool_decide_eq_false_2 by exact Hnew.
    simpl. rewrite Host_init_valid by exact Hvalid. reflexivity. }
  split; [reflexivity|]. split; [|split].
  - rewrite get_host_by_hostname_quiet. simpl. rewrite filter_app.
    rewrite (filter_absent row_hostname name (hosts s) Hnew).
    rewrite filter_cons_True by reflexivity. simpl.
    rewrite decide_True by exact Hread. reflexivity.
  - rewrite get_host_by_id_quiet. rewrite decide_True by (apply Forall_singleton, Hfit).
    unfold host_rows. simpl. rewrite filter_app.
    assert (Hnone : filter (λ r, row_id r = SQL.next_host_id s) (hosts s) = []).
    { destruct (filter _ (hosts s)) as [|r rs] eqn:E; [reflexivity|].
      assert (Hr : r ∈ r :: rs) by apply list_elem_of_here.
      rewrite <- E in Hr. apply list_elem_of_filter in Hr as [Hid Hin].
      destruct (next_host_id_fresh s) as [_ Hall]. rewrite Forall_forall in Hall.
      specialize (Hall r Hin). simpl in Hall. lia. }
    rewrite Hnone. rewrite filter_cons_True by reflexivity. simpl.
    rewrite decide_True by exact Hread. reflexivity.
  - intros other Hne. rewrite !get_host_by_hostname_quiet. simpl. rewrite filter_app.
    rewrite filter_cons_False by (simpl; congruence).
    rewrite filter_nil, app_nil_r. reflexivity.
Qed.

Lemma add_host_then_lookup_witness :
  ("1.1.1.1"%string ∉ row_hostname <$> hosts example_store)
  ∧ field_ok "1.1.1.1" ∧ field_ok "Cloudflare"
  ∧ sqlite_int (SQL.next_host_id example_store)
  ∧ ∃ h w',
      PingRepository.add_host "1.1.1.1" "Cloudflare"
        (quiet_world example_store silent_net) = (Ok h, w')
      ∧ h = mkHost (Some 3) "1.1.1.1" "Cloudflare" true (Some 1702468800500)
      ∧ fst (PingRepository.get_host_by_hostname "1.1.1.1" w') = Ok (Some h)
      ∧ fst (PingRepository.get_host_by_id 3 w') = Ok (Some h).
Proof.
  assert (Hnew : "1.1.1.1"%string ∉ row_hostname <$> hosts example_store)
    by (apply (bool_decide_unpack _); vm_compute; exact I).
  assert (Hname : field_ok "1.1.1.1") by (unfold field_ok; simpl; lia).
  assert (Hdisplay : field_ok "Cloudflare") by (unfold field_ok; simpl; lia).
  assert (Hfit : sqlite_int (SQL.next_host_id example_store))
    by (apply (bool_decide_unpack _); vm_compute; exact I).
  split; [exact Hnew|]. split; [exact Hname|]. split; [exact Hdisplay|].
  split; [exact Hfit|].
  destruct (add_host_then_lookup "1.1.1.1" "Cloudflare" example_store silent_net
              1702468800.5 [] Hnew Hname Hdisplay Hfit)
    as (h & w' & E & Hh & Hbyname & Hid & _).
  exists h, w'. split; [exact E|]. split; [exact Hh|]. split; [exact Hbyname|exact Hid].
Defined.
Lemma filter_all {A} (P : A → Prop) `{∀ x, Decision (P x)} (l : list A) :
  Forall P l → filter P l = l.
Proof.
  induction 1 as [|x l Hx _ IH]; [reflexivity|].
  rewrite filter_cons_True by exact Hx. f_equal. exact IH.
Qed.

(** X14: for a valid request the add-host route ends in one of three
    ways, in every world.  It returns the new host, and then the hostname
    was not in the table and its row has been appended; or it raises the
    conflict (409), and then the hostname was in the table; or it raises
    500, which takes a storage fault or a stored row of that hostname that
    [Host] refuses.  Whenever it raises, the database is unchanged.
    Without a storage fault and with a table [Host] accepts, it raises the
    conflict when the hostname is in the table and returns when it is
    not. *)
Theorem route_add_host_ends (hc : api.HostCreate) (w : world) :
  api.valid_HostCreate hc →
  (∀ e, fst (api.add_host hc w) = Raise e →
     w_db (snd (api.add_host hc w)) = w_db w
     ∧ ((e = HTTPException 409
               ("Host '" +:+ api.new_hostname hc +:+ "' already exists")
         ∧ api.new_hostname hc ∈ row_hostname <$> hosts (w_db w))
        ∨ (e = HTTPException 500 "Failed to add host"
           ∧ (w_faults w ≠ []
              ∨ ∃ row, row ∈ hosts (w_db w)
                       ∧ row_hostname row = api.new_hostname hc
                       ∧ ¬ readable row))))
  ∧ (∀ h, fst (api.add_host hc w) = Ok h →
       (api.new_hostname hc ∉ row_hostname <$> hosts (w_db w))
       ∧ h = mkHost (Some (SQL.next_host_id (w_db w))) (api.new_hostname hc)
               (api.new_display_name hc) true
               (Some (PyFloat.to_int (w_time w * 1000)%float))
       ∧ hosts (w_db (snd (api.add_host hc w)))
         = hosts (w_db w)
           ++ [mkHostRow (SQL.next_host_id (w_db w)) (api.new_hostname hc)
                 (api.new_display_name hc) 1
                 (PyFloat.to_int (w_time w * 1000)%float)])
  ∧ (w_faults w = [] → readable_hosts (w_db w) →
     if decide (api.new_hostname hc ∈ row_hostname <$> hosts (w_db w))
     then fst (api.add_host hc w)
          = Raise (HTTPException 409
                     ("Host '" +:+ api.new_hostname hc +:+ "' already exists"))
     else ∃ h, fst (api.add_host hc w) = Ok h).
Proof.
  intros Hvalid.
  assert (Hnew : ∀ i c, valid_Host (mkHost i (api.new_hostname hc)
                                      (api.new_display_name hc) true c))
    by (intros i c; exact Hvalid).
  split; [|split].
  - destruct w as [s fs net t tr]. simpl w_db. simpl w_faults.
    destruct (decide (api.new_hostname hc ∈ row_hostname <$> hosts s)) as [Hin|Hnot].
    + pose proof (filter_present row_hostname _ _ Hin) as Hne.
      destruct (filter (λ r, row_hostname r = api.new_hostname hc) (hosts s))
        as [|row rest] eqn:Hrows; [contradiction|].
      apply first_of_filter in Hrows as Hrow. destruct Hrow as [Hrow Hname].
      destruct fs as [|[m0|] fs]; unfold api.add_host; run_db;
        unfold SQL.select_host_by_hostname; rewrite ?Hrows; simpl;
        run_checks; intros e He; injection He as <-; (split; [reflexivity|]);
        first [ left; split; [reflexivity|exact Hin]
              | right; split; [reflexivity|]; left; discriminate
              | right; split; [reflexivity|]; right; exists row; auto ].
    + pose proof (filter_absent row_hostname _ _ Hnot) as Hnil.
      destruct fs as [|[m0|] [|[m1|] fs]]; unfold api.add_host; run_db;
        unfold SQL.select_host_by_hostname, SQL.insert_host;
        rewrite ?Hnil; simpl; rewrite ?bool_decide_eq_false_2 by exact Hnot; simpl;
        rewrite ?Host_init_valid by apply Hnew; simpl;
        intros e He; try discriminate He;
        injection He as <-; (split; [reflexivity|]);
        right; (split; [reflexivity|]); left; discriminate.
  - destruct w as [s fs net t tr]. simpl w_db. simpl w_time.
    destruct (decide (api.new_hostname hc ∈ row_hostname <$> hosts s)) as [Hin|Hnot].
    + pose proof (filter_present row_hostname _ _ Hin) as Hne.
      destruct (filter (λ r, row_hostname r = api.new_hostname hc) (hosts s))
        as [|row rest] eqn:Hrows; [contradiction|].
      destruct fs as [|[m0|] fs]; unfold api.add_host; run_db;
        unfold SQL.select_host_by_hostname; rewrite ?Hrows; simpl;
        run_checks; intros h Hh; discriminate Hh.
    + pose proof (filter_absent row_hostname _ _ Hnot) as Hnil.
      destruct fs as [|[m0|] [|[m1|] fs]]; unfold api.add_host; run_db;
        unfold SQL.select_host_by_hostname, SQL.insert_host;
        rewrite ?Hnil; simpl; rewrite ?bool_decide_eq_false_2 by exact Hnot; simpl;
        rewrite ?Host_init_valid by apply Hnew; simpl;
        intros h Hh; try discriminate Hh;
        injection Hh as <-; repeat split; auto.
  - intros Hquiet Hread.
    destruct (decide (api.new_hostname hc ∈ row_hostname <$> hosts (w_db w)))
      as [Hin|Hnot].
    + rewrite add_host_present by assumption. reflexivity.
    + destruct w as [s fs net t tr]. simpl in Hquiet. subst fs.
      rewrite add_host_absent by assumption. eexists. reflexivity.
Qed.

Lemma route_add_host_ends_witness :
  api.valid_HostCreate (api.mkHostCreate "router.local" "Router")
  ∧ readable_hosts example_store
  ∧ fst (api.add_host (api.mkHostCreate "router.local" "Router")
           (quiet_world example_store silent_net))
    = Raise (HTTPException 409 "Host 'router.local' already exists")
  ∧ w_db (snd (api.add_host (api.mkHostCreate "router.local" "Router")
                 (quiet_world example_store silent_net)))
    = example_store.
Proof.
  assert (Hvalid : api.valid_HostCreate (api.mkHostCreate "router.local" "Router")).
  { unfold api.valid_HostCreate, field_ok. simpl. lia. }
  assert (Hread : readable_hosts example_store).
  { apply (bool_decide_unpack _). vm_compute. exact I. }
  destruct (route_add_host_ends (api.mkHostCreate "router.local" "Router")
              (quiet_world example_store silent_net) Hvalid)
    as (Hraise & _ & Hquiet).
  specialize (Hquiet eq_refl Hread).
  rewrite decide_True in Hquiet
    by (apply (bool_decide_unpack _); vm_compute; exact I).
  split; [exact Hvalid|]. split; [exact Hread|]. split; [exact Hquiet|].
  destruct (Hraise _ Hquiet) as [Hsame _]. exact Hsame.
Defined.

(** X15: ids are not handed out twice.  A host that is added and deleted
    again leaves the table as it was, and the next host added, be it the
    same hostname, gets a strictly larger id.  The hostnames and display
    names are ones [Host] accepts, and the first id is one SQLite can
    hold. *)
Theorem host_ids_never_reused (name1 d1 name2 d2 : string) (s : store)
    (net : nat → result ResponseList) (t : float) (tr : list event) :
  name1 ∉ row_hostname <$> hosts s →
  name2 ∉ row_hostname <$> hosts s →
  field_ok name1 → field_ok d1 → field_ok name2 → field_ok d2 →
  sqlite_int (SQL.next_host_id s) →
  ∃ h1 w1 w2 h2 w3 i1 i2,
    PingRepository.add_host name1 d1 (mkWorld s [] net t tr) = (Ok h1, w1)
    ∧ id h1 = Some i1
    ∧ PingRepository.delete_host i1 w1 = (Ok true, w2)
    ∧ hosts (w_db w2) = hosts s
    ∧ PingRepository.add_host name2 d2 w2 = (Ok h2, w3)
    ∧ id h2 = Some i2
    ∧ i1 < i2.
Proof.
  intros Hnew1 Hnew2 Hn1 Hd1 Hn2 Hd2 Hfit.
  destruct (next_host_id_fresh s) as [Hseq Hall].
  set (i1 := SQL.next_host_id s) in *.
  set (row1 := mkHostRow i1 name1 d1 1 (PyFloat.to_int (t * 1000)%float)).
  set (s1 := mkStore (ping_results s) (ping_results_seq s) (hosts s ++ [row1]) i1).
  assert (Hold : filter (λ r, row_id r = i1) (hosts s) = []).
  { destruct (filter _ (hosts s)) as [|r rs] eqn:E; [reflexivity|].
    assert (Hr : r ∈ r :: rs) by apply list_elem_of_here.
    rewrite <- E in Hr. apply list_elem_of_filter in Hr as [Hid Hin].
    rewrite Forall_forall in Hall. specialize (Hall r Hin). simpl in Hall.
    lia. }
  assert (Hrows : host_rows i1 s1 = [row1]).
  { unfold host_rows, s1. simpl. rewrite filter_app, Hold.
    rewrite filter_cons_True by reflexivity. reflexivity. }
  assert (Hback : filter (λ r, row_id r ≠ i1) (hosts s ++ [row1]) = hosts s).
  { rewrite filter_app. rewrite filter_cons_False by (simpl; tauto).
    rewrite filter_nil, app_nil_r. apply filter_all.
    eapply Forall_impl; [exact Hall|]. intros r Hr. simpl in Hr. lia. }
  set (s2 := without_host i1 (without_probes name1 s1)).
  assert (Hhosts2 : hosts s2 = hosts s) by (unfold s2; simpl; exact Hback).
  exists (mkHost (Some i1) name1 d1 true (Some (PyFloat.to_int (t * 1000)%float))).
  exists (mkWorld s1 [] net t tr), (mkWorld s2 [] net t tr).
  exists (mkHost (Some (SQL.next_host_id s2)) name2 d2 true
            (Some (PyFloat.to_int (t * 1000)%float))).
  eexists. exists i1, (SQL.next_host_id s2).
  split.
  { run_db. unfold SQL.insert_host. rewrite bool_decide_eq_false_2 by exact Hnew1.
    simpl. rewrite Host_init_valid by (split; assumption). reflexivity. }
  split; [reflexivity|]. split.
  { apply (delete_host_quiet i1 row1 [] s1); [exact Hrows|exact Hfit|].
    split; assumption. }
  split; [exact Hhosts2|]. split.
  { run_db. unfold SQL.insert_host.
    rewrite bool_decide_eq_false_2 by (rewrite Hhosts2; exact Hnew2). simpl.
    rewrite Host_init_valid by (split; assumption). reflexivity. }
  split; [reflexivity|].
  destruct (next_host_id_fresh s2) as [Hseq2 _]. unfold s2 in Hseq2 at 1.
  simpl in Hseq2. exact Hseq2.
Qed.

Lemma host_ids_never_reused_witness :
  ("1.1.1.1"%string ∉ row_hostname <$> hosts example_store)
  ∧ field_ok "1.1.1.1" ∧ field_ok "Cloudflare" ∧ field_ok "Cloudflare DNS"
  ∧ sqlite_int (SQL.next_host_id example_store)
  ∧ ∃ h1 w1 w2 h2 w3 i1 i2,
      PingRepository.add_host "1.1.1.1" "Cloudflare"
        (quiet_world example_store silent_net) = (Ok h1, w1)
      ∧ id h1 = Some i1
      ∧ PingRepository.delete_host i1 w1 = (Ok true, w2)
      ∧ hosts (w_db w2) = hosts example_store
      ∧ PingRepository.add_host "1.1.1.1" "Cloudflare DNS" w2 = (Ok h2, w3)
      ∧ id h2 = Some i2
      ∧ i1 < i2.
Proof.
  assert (Hnew : "1.1.1.1"%string ∉ row_hostname <$> hosts example_store)
    by (apply (bool_decide_unpack _); vm_compute; exact I).
  assert (Hn : field_ok "1.1.1.1") by (unfold field_ok; simpl; lia).
  assert (Hd1 : field_ok "Cloudflare") by (unfold field_ok; simpl; lia).
  assert (Hd2 : field_ok "Cloudflare DNS") by (unfold field_ok; simpl; lia).
  assert (Hfit : sqlite_int (SQL.next_host_id example_store))
    by (apply (bool_decide_unpack _); vm_compute; exact I).
  split; [exact Hnew|]. split; [exact Hn|]. split; [exact Hd1|].
  split; [exact Hd2|]. split; [exact Hfit|].
  exact (host_ids_never_reused "1.1.1.1" "Cloudflare" "1.1.1.1" "Cloudflare DNS"
           example_store silent_net 1702468800.5 [] Hnew Hnew Hn Hd1 Hn Hd2 Hfit).
Defined.

(** X16: the delete-host route ends in one of three ways, in every world:
    it returns, and then a host had the id and none has it any more; or it
    raises 404, and then no host had the id and nothing changed; or it
    raises 500.  The 500 takes a storage fault, or an id outside 64 bits,
    or a row of that id that [Host] refuses; the last two leave the
    database unchanged.  So without a storage fault, for an id SQLite can
    hold and a row [Host] accepts, the route returns when the host exists
    and raises 404 when it does not. *)
Theorem route_delete_host_ends (host_id : Z) (w : world) :
  (fst (router.delete_host host_id w) = Ok tt
   ∧ host_rows host_id (w_db w) ≠ []
   ∧ host_rows host_id (w_db (snd (router.delete_host host_id w))) = [])
  ∨ (fst (router.delete_host host_id w) = Raise (HTTPException 404 "Host not found")
     ∧ host_rows host_id (w_db w) = []
     ∧ w_db (snd (router.delete_host host_id w)) = w_db w)
  ∨ (fst (router.delete_host host_id w)
     = Raise (HTTPException 500 "Failed to delete host")
     ∧ (w_faults w ≠ []
        ∨ (w_db (snd (router.delete_host host_id w)) = w_db w
           ∧ (¬ sqlite_int host_id
              ∨ ∃ row rest, host_rows host_id (w_db w) = row :: rest
                            ∧ ¬ readable row)))).
Proof.
  destruct w as [s fs net t tr]. simpl w_db at 1 3 4 6 7. simpl w_faults.
  unfold router.delete_host.
  assert (Hone : Forall sqlite_int [host_id] ↔ sqlite_int host_id)
    by apply Forall_singleton.
  destruct (host_rows host_id s) as [|row rest] eqn:Hrows.
  - destruct fs as [|[m0|] fs]; run_db; run_checks; unfold SQL.select_host_by_id;
      fold (host_rows host_id s); rewrite ?Hrows; simpl;
      first
        [ right; left; split; [reflexivity|]; split; reflexivity
        | right; right; split; [reflexivity|]; left; discriminate
        | right; right; split; [reflexivity|]; right; split; [reflexivity|];
          left; rewrite <- Hone; assumption ].
  - destruct fs as [|[m0|] [|[m1|] [|[m2|] fs]]]; run_db; run_checks;
      unfold SQL.select_host_by_id;
      fold (host_rows host_id s); rewrite ?Hrows; simpl; run_checks;
      first
        [ right; right; split; [reflexivity|]; left; discriminate
        | left; split; [reflexivity|]; split; [discriminate|];
          apply (host_rows_without_host host_id
                   (without_probes (row_hostname row) s))
        | right; right; split; [reflexivity|]; right; split; [reflexivity|];
          left; rewrite <- Hone; assumption
        | right; right; split; [reflexivity|]; right; split; [reflexivity|];
          right; exists row, rest; split; [reflexivity|assumption] ].
Qed.

(** ** Host listing and current status *)

Global Instance display_name_le_total : Total StatusSQL.display_name_le.
Proof. intros a b. unfold StatusSQL.display_name_le. apply String.le_total. Qed.

(** The loop that builds the listing: all rows, or the error of the first
    row [Host] refuses. *)
Lemma hosts_of_rows_readable rows w :
  Forall readable rows →
  StatusRepository.hosts_of_rows rows w = (Ok (PingRepository.host_of_row <$> rows), w).
Proof.
  induction 1 as [|row rows Hrow _ IH]; [reflexivity|]. simpl.
  unfold mbind, M_bind. rewrite Host_init_valid by exact Hrow. rewrite IH. reflexivity.
Qed.

Lemma hosts_of_rows_refused rows w :
  ¬ Forall readable rows →
  ∃ row, row ∈ rows ∧ ¬ readable row
         ∧ StatusRepository.hosts_of_rows rows w
           = (Raise (ValidationError (PingRepository.host_of_row row)), w).
Proof.
  induction rows as [|row rows IH]; intros Hno.
  - exfalso. apply Hno. constructor.
  - destruct (decide (readable row)) as [Hrow|Hrow].
    + destruct IH as (bad & Hin & Hbad & E).
      { intros Hall. apply Hno. constructor; assumption. }
      exists bad. split; [apply list_elem_of_further, Hin|]. split; [exact Hbad|].
      simpl. unfold mbind, M_bind. rewrite Host_init_valid by exact Hrow.
      rewrite E. reflexivity.
    + exists row. split; [apply list_elem_of_here|]. split; [exact Hrow|].
      simpl. unfold mbind, M_bind. rewrite Host_init_invalid by exact Hrow.
      reflexivity.
Qed.

Lemma select_hosts_readable s :
  Forall readable (StatusSQL.select_hosts s) ↔ readable_hosts s.
Proof.
  unfold readable_hosts, StatusSQL.select_hosts.
  rewrite (stable_sort_Permutation StatusSQL.display_name_le (hosts s)). reflexivity.
Qed.

(** X17: when every row of [hosts] passes the validation of [Host], the
    host listing returns every row exactly once, as a [Host] with
    [enabled] read as a truth value, in ascending order of display name.
    When a row does not pass, the listing raises the validation error of
    such a row.  A storage fault makes it raise that fault. *)
Theorem get_hosts_sorted (s : store) (net : nat → result ResponseList)
    (t : float) (tr : list event) :
  (readable_hosts s →
   ∃ hs,
     fst (StatusRepository.get_hosts (mkWorld s [] net t tr)) = Ok hs
     ∧ hs ≡ₚ PingRepository.host_of_row <$> hosts s
     ∧ Sorted by_display_name hs)
  ∧ (¬ readable_hosts s →
     ∃ row, row ∈ hosts s ∧ ¬ readable row
            ∧ fst (StatusRepository.get_hosts (mkWorld s [] net t tr))
              = Raise (ValidationError (PingRepository.host_of_row row)))
  ∧ (∀ msg fs,
       fst (StatusRepository.get_hosts (mkWorld s (Some msg :: fs) net t tr))
       = Raise (Exception msg)).
Proof.
  split; [|split; [|reflexivity]].
  - intros Hread.
    exists (PingRepository.host_of_row <$> StatusSQL.select_hosts s).
    split; [|split].
    + unfold StatusRepository.get_hosts, execute_query, with_connection,
        mbind, M_bind, set_db. simpl.
      rewrite hosts_of_rows_readable by (apply select_hosts_readable, Hread).
      reflexivity.
    + apply fmap_Permutation. unfold StatusSQL.select_hosts.
      apply stable_sort_Permutation.
    + apply (Sorted_fmap PingRepository.host_of_row StatusSQL.display_name_le
               by_display_name).
      * intros x y Hxy. exact Hxy.
      * apply (Sorted_stable_sort StatusSQL.display_name_le).
  - intros Hno.
    destruct (hosts_of_rows_refused (StatusSQL.select_hosts s) (mkWorld s [] net t tr))
      as (row & Hin & Hbad & E).
    { rewrite select_hosts_readable. exact Hno. }
    exists row. split; [|split; [exact Hbad|]].
    + unfold StatusSQL.select_hosts in Hin. apply elem_of_stable_sort in Hin. exact Hin.
    + unfold StatusRepository.get_hosts, execute_query, with_connection,
        mbind, M_bind, set_db. simpl. rewrite E. reflexivity.
Qed.

(** The newest row of a hostname: what [ORDER BY timestamp DESC LIMIT 1]
    returns. *)
Lemma select_recent_latest name s :
  match StatusSQL.select_recent name s with
  | [] => probe_rows name s = []
  | latest :: _ =>
      latest ∈ probe_rows name s
      ∧ Forall (λ r, row_timestamp r ≤ row_timestamp latest) (probe_rows name s)
  end.
Proof.
  unfold StatusSQL.select_recent, SQL.limit. simpl. fold (probe_rows name s).
  unfold SQL.newest_first.
  pose proof (stable_sort_Permutation SQL.timestamp_ge (probe_rows name s)) as Hperm.
  pose proof (Sorted_stable_sort SQL.timestamp_ge (probe_rows name s)) as Hsort.
  apply Sorted_StronglySorted in Hsort; [|apply _].
  destruct (stable_sort SQL.timestamp_ge (probe_rows name s)) as [|latest rest].
  - simpl. symmetry. apply Permutation_nil_l. exact Hperm.
  - simpl. split.
    + rewrite <- Hperm. apply list_elem_of_here.
    + rewrite <- Hperm. apply StronglySorted_inv in Hsort as [_ Hall].
      constructor; [lia|]. exact Hall.
Qed.

Lemma day_rows_successes name t s :
  day_rows name t s ≠ [] →
  SQL.sum_success (day_rows name t s)
  = Some (Z.of_nat (length (successes (day_rows name t s)))).
Proof. apply sum_success_count. Qed.

(** One pass of the status loop over a stored host. *)
Lemma status_of_host_describes (hr : hosts_row) s net t tr :
  ∃ st,
    StatusRepository.status_of_host (PingRepository.host_of_row hr) (mkWorld s [] net t tr)
    = (Ok st, mkWorld s [] net t tr)
    ∧ describes s t hr st.
Proof.
  unfold StatusRepository.status_of_host, execute_query, with_connection, time_time,
    mbind, M_bind, mret, M_ret, set_db. simpl.
  unfold StatusSQL.select_day_stats. simpl. fold (day_rows (row_hostname hr) t s).
  fold (latencies (day_rows (row_hostname hr) t s)).
  pose proof (select_recent_latest (row_hostname hr) s) as Hrecent.
  destruct (StatusSQL.select_recent (row_hostname hr) s) as [|latest more];
    destruct (day_rows (row_hostname hr) t s) as [|d ds] eqn:Hday.
  - simpl. eexists. split; [reflexivity|].
    unfold describes. simpl. rewrite Hrecent, Hday.
    repeat split; try reflexivity; intros; contradiction.
  - assert (Hne : day_rows (row_hostname hr) t s ≠ []) by (rewrite Hday; discriminate).
    rewrite <- Hday. rewrite day_rows_successes by exact Hne.
    assert (Hpos : (0 <? Z.of_nat (length (day_rows (row_hostname hr) t s))) = true).
    { apply Z.ltb_lt. rewrite Hday. simpl. lia. }
    rewrite Hpos. eexists. split; [reflexivity|].
    unfold describes. simpl. rewrite Hrecent.
    repeat split; try reflexivity; intros; try contradiction.
  - simpl. destruct Hrecent as [Hin Hall]. eexists. split; [reflexivity|].
    unfold describes. simpl.
    assert (Hne : probe_rows (row_hostname hr) s ≠ []).
    { intros Hnil. rewrite Hnil in Hin. apply elem_of_nil in Hin as []. }
    repeat split; try reflexivity; intros; try contradiction.
    exists latest. repeat split; assumption.
  - assert (Hne : day_rows (row_hostname hr) t s ≠ []) by (rewrite Hday; discriminate).
    rewrite <- Hday. rewrite day_rows_successes by exact Hne.
    assert (Hpos : (0 <? Z.of_nat (length (day_rows (row_hostname hr) t s))) = true).
    { apply Z.ltb_lt. rewrite Hday. simpl. lia. }
    rewrite Hpos. destruct Hrecent as [Hin Hall]. eexists. split; [reflexivity|].
    unfold describes. simpl.
    assert (Hne' : probe_rows (row_hostname hr) s ≠ []).
    { intros Hnil. rewrite Hnil in Hin. apply elem_of_nil in Hin as []. }
    repeat split; try reflexivity; intros; try contradiction.
    exists latest. repeat split; assumption.
Qed.

Lemma status_loop_describes s net t tr (hrs : list hosts_row) : ∀ acc,
  ∃ sts,
    StatusRepository.status_loop (PingRepository.host_of_row <$> hrs) acc
      (mkWorld s [] net t tr)
    = (Ok (acc ++ sts), mkWorld s [] net t tr)
    ∧ Forall2 (describes s t) hrs sts.
Proof.
  induction hrs as [|hr hrs IH]; intros acc.
  - exists []. rewrite app_nil_r. split; [reflexivity|constructor].
  - destruct (status_of_host_describes hr s net t tr) as (st & E & Hst).
    destruct (IH (acc ++ [st])) as (sts & E' & Hsts).
    exists (st :: sts). split.
    + rewrite fmap_cons. simpl. unfold mbind, M_bind. rewrite E, E'.
      rewrite <- app_assoc. reflexivity.
    + constructor; assumption.
Qed.

(** X18: when every row of [hosts] passes the validation of [Host], the
    current status lists one status per row, in the order of the host
    listing.  A status carries the host's columns; the latest probe of the
    host (the greatest timestamp among its rows), or no probe and
    [success = False] when the host has no row; and, when the host was
    probed in the last 24 hours, the average latency of those probes as
    the database computes it, their latencies added newest first, and
    [uptime_24h = round(S / N * 100, 2)], both absent otherwise. *)
Theorem get_current_status_describes (s : store) (net : nat → result ResponseList)
    (t : float) (tr : list event) :
  readable_hosts s →
  ∃ sts,
    fst (StatusRepository.get_current_status (mkWorld s [] net t tr)) = Ok sts
    ∧ Forall2 (describes s t) (StatusSQL.select_hosts s) sts
    ∧ StatusSQL.select_hosts s ≡ₚ hosts s.
Proof.
  intros Hread.
  destruct (status_loop_describes s net t tr (StatusSQL.select_hosts s) [])
    as (sts & E & Hsts).
  exists sts. split; [|split; [exact Hsts|apply stable_sort_Permutation]].
  unfold StatusRepository.get_current_status, StatusRepository.get_hosts,
    execute_query, with_connection, mbind, M_bind, set_db. simpl.
  rewrite hosts_of_rows_readable by (apply select_hosts_readable, Hread).
  rewrite E. reflexivity.
Qed.

(** The status of the example store at its clock: [router.local] was last
    probed at 1702468760000 in 0.5 ms, and its two probes of the day
    average 0.375 ms with an uptime of 100.0. *)
Lemma get_current_status_describes_witness :
  readable_hosts example_store
  ∧ (∃ sts,
       fst (StatusRepository.get_current_status (quiet_world example_store silent_net))
       = Ok sts
       ∧ Forall2 (describes example_store 1702468800.5)
           (StatusSQL.select_hosts example_store) sts
       ∧ StatusSQL.select_hosts example_store ≡ₚ hosts example_store)
  ∧ fst (StatusRepository.get_current_status (quiet_world example_store silent_net))
    = Ok [HostStatus.mk 2 "8.8.8.8" "Google DNS" true (Some 1702468700005) None false
            None (Some 0%float);
          HostStatus.mk 1 "router.local" "Home Router" true (Some 1702468760000)
            (Some 0.5%float) true (Some 0.375%float) (Some 100%float)].
Proof.
  assert (Hread : readable_hosts example_store).
  { apply (bool_decide_unpack _). vm_compute. exact I. }
  split; [exact Hread|]. split; [|reflexivity].
  exact (get_current_status_describes example_store silent_net 1702468800.5 [] Hread).
Defined.

(** ** A scheduled probe and a manual probe *)

(** The probe runs first and leaves the pending storage faults alone. *)
Lemma execute_ping_then svc target w :
  ∃ r tr',
    execute_ping svc target w
    = (Ok r, mkWorld (w_db w) (w_faults w) (w_net w) (w_time w) tr')
    ∧ probe_invariant r.
Proof.
  destruct (execute_ping_sound svc target w) as (r & w' & E & Hinv & Hgrow).
  destruct w' as [s' fs' net' t' tr'].
  destruct Hgrow as (Hd & Hf & Hn & Ht & _). simpl in *. subst.
  exists r, tr'. split; [exact E|exact Hinv].
Qed.

(** X19: a scheduled probe of one host never raises.  If the storage takes
    the insert, the probe's result is appended to [ping_results] and the
    call returns whether the probe succeeded; if the storage refuses it,
    the result is dropped, the database is unchanged and the call returns
    false, even when the host answered. *)
Theorem ping_and_store_outcomes (svc : PingService) (target : string) (w : world) :
  ∃ r w1,
    execute_ping svc target w = (Ok r, w1)
    ∧ match next_fault w with
      | None =>
          ∃ w', SchedulerRound._ping_and_store svc target w = (Ok (success r), w')
            ∧ ping_results (w_db w')
              = ping_results (w_db w) ++ [PingRepository.to_row r]
      | Some msg =>
          ∃ w', SchedulerRound._ping_and_store svc target w = (Ok false, w')
            ∧ w_db w' = w_db w
      end.
Proof.
  destruct (execute_ping_then svc target w) as (r & tr' & E & _).
  eexists _, _. split; [exact E|].
  unfold SchedulerRound._ping_and_store, try_except, mbind, M_bind. rewrite E.
  unfold next_fault. destruct w as [s fs net t tr]. simpl.
  destruct fs as [|[msg|] fs]; eexists; split; reflexivity.
Qed.

(** X20: a manual probe never raises and always returns the four entries
    [success], [latency], [timestamp] and [error].  If the storage takes
    the insert they are those of the probe's result, which is appended to
    [ping_results]; if the storage refuses it, the dict reports a failure
    with the storage's error and no timestamp, and nothing is stored, even
    when the host answered. *)
Theorem ping_now_outcomes (svc : PingService) (target : string) (w : world) :
  ∃ r w1,
    execute_ping svc target w = (Ok r, w1)
    ∧ match next_fault w with
      | None =>
          ∃ w', SchedulerService.ping_now svc target w
                = (Ok {[ "success" := VBool (success r);
                         "latency" := SchedulerService.opt_float (latency r);
                         "timestamp" := VInt (timestamp r);
                         "error" := SchedulerService.opt_str (error r) ]}, w')
            ∧ ping_results (w_db w')
              = ping_results (w_db w) ++ [PingRepository.to_row r]
      | Some msg =>
          ∃ w', SchedulerService.ping_now svc target w
                = (Ok {[ "success" := VBool false;
                         "latency" := VNone;
                         "timestamp" := VNone;
                         "error" := VStr msg ]}, w')
            ∧ w_db w' = w_db w
      end.
Proof.
  destruct (execute_ping_then svc target w) as (r & tr' & E & _).
  eexists _, _. split; [exact E|].
  unfold SchedulerService.ping_now, try_except, mbind, M_bind. rewrite E.
  unfold next_fault. destruct w as [s fs net t tr]. simpl.
  destruct fs as [|[msg|] fs]; eexists; split; reflexivity.
Qed.

(** Deleting rows and adding hosts keep a property that every probe row
    has. *)
Section EveryRow.

Context (Q : ping_results_row → Prop).

Let every (s : store) : Prop := Forall Q (ping_results s).

Lemma every_filter (P : ping_results_row → Prop) `{∀ x, Decision (P x)} rows :
  Forall Q rows → Forall Q (filter P rows).
Proof.
  intros H0. apply Forall_forall. intros r Hr. apply list_elem_of_filter in Hr as [_ Hr].
  rewrite Forall_forall in H0. apply H0, Hr.
Qed.

Lemma every_delete_older_than cutoff :
  preserves every (PingRepository.delete_older_than cutoff).
Proof.
  unfold PingRepository.delete_older_than, execute_update.
  apply preserves_bind; [apply preserves_execute_query|]. intros rows.
  apply preserves_bind; [|intros; apply preserves_ret].
  apply preserves_with_connection. intros s a s' E H0. injection E as _ <-.
  unfold every. simpl. apply every_filter, H0.
Qed.

Lemma every_delete_old_pings days : preserves every (PingRepository.delete_old_pings days).
Proof.
  unfold PingRepository.delete_old_pings.
  apply preserves_bind; [apply preserves_time_time|]. intros t.
  apply every_delete_older_than.
Qed.

Lemma every_cleanup_now settings self :
  preserves every (CleanupService.cleanup_now settings self).
Proof.
  unfold CleanupService.cleanup_now. apply preserves_try_except.
  - apply preserves_bind; [apply every_delete_old_pings|]. preserve.
  - preserve.
Qed.

Lemma every_delete_host host_id : preserves every (PingRepository.delete_host host_id).
Proof.
  unfold PingRepository.delete_host, execute_update.
  apply preserves_bind; [apply preserves_get_host_by_id|].
  intros [h|]; [|apply preserves_ret].
  apply preserves_bind.
  { apply preserves_with_connection. intros s a s' E H0. injection E as _ <-.
    unfold every. simpl. apply every_filter, H0. }
  intros _. apply preserves_bind; [|intros; apply preserves_ret].
  apply preserves_with_connection. intros s a s' E H0. unfold bind in E.
  destruct (decide (Forall sqlite_int [host_id])); [|discriminate].
  injection E as _ <-. exact H0.
Qed.

Lemma every_insert_host name display created s i s' :
  SQL.insert_host name display created s = (Ok i, s') → every s → every s'.
Proof.
  intros E. unfold every. apply insert_host_probes in E. unfold probes_table in E.
  injection E as -> _. tauto.
Qed.

End EveryRow.

(** X21: the rows of [ping_results] stay executor results.  If every row
    was written from a result that satisfies the invariant of the data
    model, the same holds after a scheduled probe, a manual probe, the
    retention sweep, the manual cleanup, deleting a host and adding one,
    in every world. *)
Theorem stored_rows_from_executor (w : world) :
  Forall executor_row (ping_results (w_db w)) →
  (∀ svc target,
     Forall executor_row
       (ping_results (w_db (snd (SchedulerRound._ping_and_store svc target w)))))
  ∧ (∀ svc target,
       Forall executor_row
         (ping_results (w_db (snd (SchedulerService.ping_now svc target w)))))
  ∧ (∀ days,
       Forall executor_row
         (ping_results (w_db (snd (PingRepository.delete_old_pings days w)))))
  ∧ (∀ settings self,
       Forall executor_row
         (ping_results (w_db (snd (CleanupService.cleanup_now settings self w)))))
  ∧ (∀ i, Forall executor_row
            (ping_results (w_db (snd (PingRepository.delete_host i w)))))
  ∧ (∀ hc, Forall executor_row (ping_results (w_db (snd (api.add_host hc w))))).
Proof.
  intros Hrows. repeat match goal with |- _ ∧ _ => split end; intros.
  - destruct (execute_ping_then svc target w) as (r & tr' & E & Hinv).
    unfold SchedulerRound._ping_and_store, try_except, mbind, M_bind. rewrite E.
    destruct w as [s fs net t tr]. simpl in *.
    destruct fs as [|[msg|] fs]; simpl; try exact Hrows;
      (apply Forall_app; split; [exact Hrows|]; repeat constructor; exists r; auto).
  - destruct (execute_ping_then svc target w) as (r & tr' & E & Hinv).
    unfold SchedulerService.ping_now, try_except, mbind, M_bind. rewrite E.
    destruct w as [s fs net t tr]. simpl in *.
    destruct fs as [|[msg|] fs]; simpl; try exact Hrows;
      (apply Forall_app; split; [exact Hrows|]; repeat constructor; exists r; auto).
  - apply (every_delete_old_pings executor_row), Hrows.
  - apply (every_cleanup_now executor_row), Hrows.
  - apply (every_delete_host executor_row), Hrows.
  - apply (preserves_route_add_host (λ s, Forall executor_row (ping_results s))
             (every_insert_host executor_row)), Hrows.
Qed.

Lemma stored_rows_from_executor_witness :
  Forall executor_row (ping_results (w_db (quiet_world example_store steady_net)))
  ∧ Forall executor_row
      (ping_results
         (w_db (snd (SchedulerRound._ping_and_store (mkPingService 5 2) "router.local"
                       (quiet_world example_store steady_net)))))
  ∧ length (ping_results
              (w_db (snd (SchedulerRound._ping_and_store (mkPingService 5 2)
                            "router.local" (quiet_world example_store steady_net)))))
    = 4%nat.
Proof.
  destruct (stored_rows_from_executor (quiet_world example_store steady_net)
              example_rows_from_executor) as (Hround & _).
  split; [exact example_rows_from_executor|].
  split; [apply Hround|reflexivity].
Defined.

(** ** Retention: manual trigger, scheduled job and status *)

(** X22: a manual cleanup either succeeds or changes nothing, in every
    world.  On success the rows older than the cutoff are gone,
    [deleted_count] is the number of rows that left the table, and the
    status then reports as [last_cleanup] the very [timestamp] of the
    reply; on failure the database and the service are as before. *)
Theorem cleanup_now_effect (settings : Settings) (self : CleanupService.t) (w : world) :
  ∃ d self' w',
    CleanupService.cleanup_now settings self w = (Ok (d, self'), w')
    ∧ ((success_reply true d
        ∧ ping_results (w_db w')
          = filter (λ r, ¬ row_timestamp r
                           < PingRepository.cutoff_time (w_time w) (retention_days settings))
              (ping_results (w_db w))
        ∧ d !! "deleted_count"
          = Some (VInt (Z.of_nat (length (ping_results (w_db w)))
                        - Z.of_nat (length (ping_results (w_db w')))))
        ∧ CleanupService.last_cleanup self' = Some (mkDatetime (w_time w))
        ∧ CleanupJobs.get_status settings self' !! "last_cleanup" = d !! "timestamp")
       ∨ (failure_reply true d ∧ self' = self ∧ w_db w' = w_db w)).
Proof.
  destruct w as [s fs net t tr].
  pose proof (filter_complement_length
                (λ r, row_timestamp r
                      < PingRepository.cutoff_time t (retention_days settings))
                (ping_results s)) as Hlen.
  destruct fs as [|[m0|] [|[m1|] fs]];
    (eexists _, _, _; split; [reflexivity|]);
    first
      [ right; split; [unfold failure_reply; repeat split; solve [eauto]|];
        split; reflexivity
      | left; split; [unfold success_reply; repeat split; solve [eauto]|];
        split; [reflexivity|]; split; [|split; reflexivity];
        transitivity
          (Some (VInt (Z.of_nat (length
             (filter (λ r, row_timestamp r
                           < PingRepository.cutoff_time t (retention_days settings))
                (ping_results s))))));
        [reflexivity|]; do 2 f_equal; simpl; lia ].
Qed.

(** X23: the scheduled jobs never raise and do what the manual triggers
    do: in every world the daily cleanup leaves the database and the
    service exactly as [cleanup_now] would, and the monthly vacuum as
    [vacuum_now] would. *)
Theorem scheduled_jobs_as_manual (settings : Settings) (self : CleanupService.t)
    (w : world) :
  (∃ d self' w',
     CleanupService.cleanup_now settings self w = (Ok (d, self'), w')
     ∧ CleanupJobs._run_cleanup settings self w = (Ok self', w'))
  ∧ (∃ d self' w',
       CleanupService.vacuum_now self w = (Ok (d, self'), w')
       ∧ CleanupJobs._run_vacuum self w = (Ok self', w')).
Proof.
  destruct w as [s fs net t tr]. split.
  - destruct fs as [|[m0|] [|[m1|] fs]]; eexists _, _, _; split; reflexivity.
  - destruct fs as [|[m0|] fs]; eexists _, _, _; split; reflexivity.
Qed.

(** ** The remaining routes *)

(** X24: the ping-data route refuses a range with [start >= end] with 400
    before it touches the storage.  Otherwise, without a storage fault and
    with bounds and a limit SQLite can hold, it answers with the rows of
    the range query and the statistics of the whole window: with
    [0 <= limit] the data are cut to [limit] rows while the statistics
    still count every row of the window.  A bound or a limit outside 64
    bits gives 500, and so does a storage fault at the first connection. *)
Theorem route_get_ping_data_ends (name : string) (start_time end_time limit : Z)
    (w : world) :
  (end_time ≤ start_time →
     router.get_ping_data name start_time end_time limit w
     = (Raise (HTTPException 400 "Start time must be before end time"), w))
  ∧ (start_time < end_time → w_faults w = [] →
     sqlite_int start_time → sqlite_int end_time → sqlite_int limit →
     ∃ d st w',
       router.get_ping_data name start_time end_time limit w
       = (Ok (router.mkPingDataResponse name d st), w')
       ∧ fst (PingRepository.get_ping_data name start_time end_time limit w) = Ok d
       ∧ fst (PingRepository.calculate_stats name start_time end_time w) = Ok st
       ∧ (0 ≤ limit →
          length d = Nat.min (Z.to_nat limit)
                       (length (window_rows name start_time end_time (w_db w)))))
  ∧ (start_time < end_time → w_faults w = [] →
     ¬ (sqlite_int start_time ∧ sqlite_int end_time ∧ sqlite_int limit) →
     router.get_ping_data name start_time end_time limit w
     = (Raise (HTTPException 500 "Failed to fetch ping data"), w))
  ∧ (start_time < end_time → ∀ msg, next_fault w = Some msg →
     fst (router.get_ping_data name start_time end_time limit w)
     = Raise (HTTPException 500 "Failed to fetch ping data")).
Proof.
  destruct w as [s fs net t tr]. split; [|split; [|split]].
  - intros Hle. unfold router.get_ping_data, try_except.
    assert (E : (end_time <=? start_time) = true) by (apply Z.leb_le; lia).
    rewrite E. reflexivity.
  - intros Hlt Hquiet Hlo Hhi Hfit. simpl in Hquiet. subst fs.
    unfold router.get_ping_data, try_except, mbind, M_bind.
    assert (E : (end_time <=? start_time) = false) by (apply Z.leb_gt; lia).
    rewrite E. rewrite get_ping_data_quiet, calculate_stats_quiet.
    rewrite !decide_True by (first [apply three_fit | apply two_fit]; auto).
    eexists _, _, _. split; [reflexivity|]. split; [reflexivity|].
    split; [reflexivity|].
    intros Hlim. rewrite length_fmap.
    unfold SQL.select_ping_data, SQL.limit, SQL.order_by_timestamp.
    destruct (limit <? 0) eqn:El; [apply Z.ltb_lt in El; lia|].
    rewrite length_take, length_reverse. reflexivity.
  - intros Hlt Hquiet Hno. simpl in Hquiet. subst fs.
    unfold router.get_ping_data, try_except, mbind, M_bind.
    assert (E : (end_time <=? start_time) = false) by (apply Z.leb_gt; lia).
    rewrite E. rewrite get_ping_data_quiet.
    rewrite decide_False by (rewrite three_fit; exact Hno). reflexivity.
  - intros Hlt msg Hfault. unfold next_fault in Hfault. simpl in Hfault.
    destruct fs as [|[m0|] fs]; try discriminate.
    unfold router.get_ping_data, try_except, mbind, M_bind.
    assert (E : (end_time <=? start_time) = false) by (apply Z.leb_gt; lia).
    rewrite E. reflexivity.
Qed.

Lemma route_get_ping_data_ends_witness :
  1702468800000 ≤ 1702468800000
  ∧ router.get_ping_data "router.local" 1702468800000 1702468800000 1000
      failing_disk_world
    = (Raise (HTTPException 400 "Start time must be before end time"),
       failing_disk_world)
  ∧ 0 < 1702468800000
  ∧ sqlite_int 0 ∧ sqlite_int 1702468800000 ∧ sqlite_int 1
  ∧ (∃ d st w',
       router.get_ping_data "router.local" 0 1702468800000 1
         (quiet_world example_store silent_net)
       = (Ok (router.mkPingDataResponse "router.local" d st), w')
       ∧ length d = 1%nat
       ∧ length (window_rows "router.local" 0 1702468800000 example_store) = 2%nat)
  ∧ 0 < 2 ^ 63
  ∧ ¬ (sqlite_int 0 ∧ sqlite_int (2 ^ 63) ∧ sqlite_int 1)
  ∧ router.get_ping_data "router.local" 0 (2 ^ 63) 1
      (quiet_world example_store silent_net)
    = (Raise (HTTPException 500 "Failed to fetch ping data"),
       quiet_world example_store silent_net).
Proof.
  destruct (route_get_ping_data_ends "router.local" 1702468800000 1702468800000
              1000 failing_disk_world) as (Hbad & _).
  destruct (route_get_ping_data_ends "router.local" 0 1702468800000 1
              (quiet_world example_store silent_net)) as (_ & Hgood & _).
  destruct (route_get_ping_data_ends "router.local" 0 (2 ^ 63) 1
              (quiet_world example_store silent_net)) as (_ & _ & Hbig & _).
  assert (H1 : 1702468800000 ≤ 1702468800000) by lia.
  assert (H2 : 0 < 1702468800000) by lia.
  assert (F0 : sqlite_int 0) by (unfold sqlite_int; lia).
  assert (F1 : sqlite_int 1702468800000) by (unfold sqlite_int; lia).
  assert (F2 : sqlite_int 1) by (unfold sqlite_int; lia).
  assert (H3 : 0 < 2 ^ 63) by lia.
  assert (H4 : ¬ (sqlite_int 0 ∧ sqlite_int (2 ^ 63) ∧ sqlite_int 1))
    by (unfold sqlite_int; lia).
  split; [exact H1|]. split; [exact (Hbad H1)|]. split; [exact H2|].
  split; [exact F0|]. split; [exact F1|]. split; [exact F2|].
  split.
  { destruct (Hgood H2 eq_refl F0 F1 F2) as (d & st & w' & E & _ & _ & Hlen).
    exists d, st, w'. split; [exact E|]. split; [|reflexivity].
    rewrite Hlen by lia. reflexivity. }
  split; [exact H3|]. split; [exact H4|].
  exact (Hbig H3 eq_refl H4).
Defined.

(** X25: the routes for a manual probe, a manual cleanup and a manual
    vacuum never raise: in every world they return what the service
    returned, so their 500 branch is never taken. *)
Theorem service_routes_never_raise (settings : Settings) (self : CleanupService.t)
    (svc : PingService) (name : string) (w : world) :
  (∃ d w', router.manual_ping svc name w = (Ok d, w')
           ∧ SchedulerService.ping_now svc name w = (Ok d, w'))
  ∧ (∃ d w', router.trigger_cleanup settings self w = (Ok d, w')
             ∧ CleanupService.cleanup_now settings self w = (Ok d, w'))
  ∧ (∃ d w', router.trigger_vacuum self w = (Ok d, w')
             ∧ CleanupService.vacuum_now self w = (Ok d, w')).
Proof.
  split; [|split].
  - destruct (execute_ping_then svc name w) as (r & tr' & E & _).
    unfold router.manual_ping, SchedulerService.ping_now, try_except, mbind, M_bind.
    rewrite E. destruct w as [s fs net t tr]. simpl.
    destruct fs as [|[msg|] fs]; eexists _, _; split; reflexivity.
  - destruct w as [s fs net t tr].
    destruct fs as [|[m0|] [|[m1|] fs]]; eexists _, _; split; reflexivity.
  - destruct w as [s fs net t tr].
    destruct fs as [|[m0|] fs]; eexists _, _; split; reflexivity.
Qed.

(** ** Comma-separated settings *)

Section Strings.

Lemma append_empty (s : string) : (s +:+ "")%string = s.
Proof.
  induction s as [|c s IH]; [reflexivity|].
  change (String c (s +:+ "") = String c s). rewrite IH. reflexivity.
Qed.

Lemma append_assoc (a b c : string) : (a +:+ (b +:+ c) = (a +:+ b) +:+ c)%string.
Proof.
  induction a as [|ch a IH]; [reflexivity|].
  change (String ch (a +:+ (b +:+ c)) = String ch ((a +:+ b) +:+ c)).
  rewrite IH. reflexivity.
Qed.

Lemma lstrip_idemp s : PyStr.lstrip (PyStr.lstrip s) = PyStr.lstrip s.
Proof.
  induction s as [|c s IH]; [reflexivity|]. simpl.
  destruct (PyStr.is_space c) eqn:E; [exact IH|]. simpl. rewrite E. reflexivity.
Qed.

Lemma rstrip_cons c s :
  PyStr.rstrip (String c s)
  = match PyStr.rstrip s with
    | EmptyString => if PyStr.is_space c then EmptyString else String c EmptyString
    | kept => String c kept
    end.
Proof. reflexivity. Qed.

Lemma rstrip_idemp s : PyStr.rstrip (PyStr.rstrip s) = PyStr.rstrip s.
Proof.
  induction s as [|c s IH]; [reflexivity|]. rewrite rstrip_cons.
  destruct (PyStr.rstrip s) as [|c' kept] eqn:E.
  - destruct (PyStr.is_space c) eqn:Ec; [reflexivity|].
    rewrite rstrip_cons. simpl. rewrite Ec. reflexivity.
  - rewrite rstrip_cons. rewrite IH. reflexivity.
Qed.

(** Stripping on the left keeps a right end that is already stripped. *)
Lemma rstrip_lstrip s : PyStr.rstrip s = s → PyStr.rstrip (PyStr.lstrip s) = PyStr.lstrip s.
Proof.
  induction s as [|c s IH]; intros Hs; [reflexivity|]. simpl.
  destruct (PyStr.is_space c) eqn:Ec; [|exact Hs].
  apply IH. rewrite rstrip_cons in Hs.
  destruct (PyStr.rstrip s) as [|c' kept]; [rewrite Ec in Hs; discriminate|].
  injection Hs as Hs. exact Hs.
Qed.

Lemma contains_lstrip c s :
  PyStr.contains c s = false → PyStr.contains c (PyStr.lstrip s) = false.
Proof.
  induction s as [|c' s IH]; intros H0; [reflexivity|]. simpl in *.
  apply orb_false_iff in H0 as [H1 H2].
  destruct (PyStr.is_space c'); [apply IH, H2|]. simpl. rewrite H1, H2. reflexivity.
Qed.

Lemma contains_rstrip c s :
  PyStr.contains c s = false → PyStr.contains c (PyStr.rstrip s) = false.
Proof.
  induction s as [|c' s IH]; intros H0; [reflexivity|]. simpl in H0.
  apply orb_false_iff in H0 as [H1 H2]. specialize (IH H2). rewrite rstrip_cons.
  destruct (PyStr.rstrip s) as [|c'' kept].
  - destruct (PyStr.is_space c'); [reflexivity|]. simpl. rewrite H1. reflexivity.
  - simpl in *. rewrite H1. exact IH.
Qed.

(** The pieces of a split hold no separator. *)
Lemma split_pieces sep s :
  PyStr.split sep s ≠ [] ∧ Forall (λ p, PyStr.contains sep p = false) (PyStr.split sep s).
Proof.
  induction s as [|c s [Hne IH]]; [split; [discriminate|repeat constructor]|]. simpl.
  destruct (Ascii.eqb c sep) eqn:E.
  - split; [discriminate|]. constructor; [reflexivity|exact IH].
  - destruct (PyStr.split sep s) as [|p more]; [contradiction|].
    split; [discriminate|]. apply Forall_cons in IH as [Hp Hmore].
    constructor; [|exact Hmore]. simpl. rewrite E, Hp. reflexivity.
Qed.

Lemma split_whole sep s : PyStr.contains sep s = false → PyStr.split sep s = [s].
Proof.
  induction s as [|c s IH]; intros H0; [reflexivity|]. simpl in *.
  apply orb_false_iff in H0 as [H1 H2]. rewrite H1, (IH H2). reflexivity.
Qed.

Lemma split_at sep s rest :
  PyStr.contains sep s = false →
  PyStr.split sep (s +:+ String sep rest) = s :: PyStr.split sep rest.
Proof.
  induction s as [|c s IH]; intros H0.
  - simpl. rewrite Ascii.eqb_refl. reflexivity.
  - simpl in *. apply orb_false_iff in H0 as [H1 H2]. rewrite H1, (IH H2). reflexivity.
Qed.

Lemma contains_app c s1 s2 :
  PyStr.contains c (s1 +:+ s2) = PyStr.contains c s1 || PyStr.contains c s2.
Proof.
  induction s1 as [|c' s1 IH]; [reflexivity|]. simpl. rewrite IH.
  apply orb_assoc.
Qed.

Lemma blank_no_comma pad : blank pad → PyStr.contains PyStr.comma pad = false.
Proof.
  unfold blank. induction pad as [|c pad IH]; intros H0; [reflexivity|]. simpl in *.
  destruct (PyStr.is_space c) eqn:Ec; [|discriminate].
  rewrite (IH H0), orb_false_r.
  destruct (Ascii.eqb c PyStr.comma) eqn:E; [|reflexivity].
  apply Ascii.eqb_eq in E. subst c. vm_compute in Ec. discriminate.
Qed.

Lemma lstrip_blank_app pad s : blank pad → PyStr.lstrip (pad +:+ s) = PyStr.lstrip s.
Proof.
  unfold blank. induction pad as [|c pad IH]; intros H0; [reflexivity|]. simpl in *.
  destruct (PyStr.is_space c); [apply IH, H0|discriminate].
Qed.

Lemma rstrip_app_kept pad s :
  s ≠ EmptyString → PyStr.rstrip s = s → PyStr.rstrip (pad +:+ s) = pad +:+ s.
Proof.
  intros Hne Hs. induction pad as [|c pad IH]; [exact Hs|].
  change (String c pad +:+ s) with (String c (pad +:+ s)).
  rewrite rstrip_cons, IH.
  destruct (pad +:+ s) as [|c' rest] eqn:E; [|reflexivity].
  destruct pad; simpl in E; [contradiction|discriminate].
Qed.

Lemma strip_padded pad e : blank pad → clean_entry e → PyStr.strip (pad +:+ e) = e.
Proof.
  intros Hpad (Hne & Hl & Hr & _). unfold PyStr.strip.
  rewrite rstrip_app_kept by assumption.
  rewrite lstrip_blank_app by exact Hpad. exact Hl.
Qed.

Lemma strip_blank pad : blank pad → PyStr.strip pad = EmptyString.
Proof.
  unfold blank, PyStr.strip. intros H0.
  assert (Hall : ∀ s, PyStr.lstrip s = EmptyString → PyStr.rstrip s = EmptyString).
  { induction s as [|c s IH]; intros Hs; [reflexivity|]. simpl in Hs.
    rewrite rstrip_cons. destruct (PyStr.is_space c) eqn:Ec; [|discriminate].
    rewrite (IH Hs). reflexivity. }
  rewrite (Hall pad H0). reflexivity.
Qed.

End Strings.

(** X26: every entry of a parsed comma-separated setting (the monitored
    hosts, the CORS origins) is non-empty, has no white space at either
    end and holds no comma. *)
Theorem comma_list_entries (text : string) :
  Forall clean_entry (SettingsText.get_monitored_hosts_list text)
  ∧ Forall clean_entry (SettingsText.get_cors_origins_list text).
Proof.
  assert (H0 : Forall clean_entry (SettingsText.comma_list text)).
  { unfold SettingsText.comma_list.
    destruct (split_pieces PyStr.comma text) as [_ Hpieces].
    induction Hpieces as [|p ps Hp _ IH]; [constructor|]. simpl.
    destruct (PyStr.strip p) as [|c e] eqn:E; [exact IH|].
    simpl. constructor; [|exact IH]. rewrite <- E. unfold clean_entry.
    split; [rewrite E; discriminate|]. unfold PyStr.strip. split; [|split].
    - apply lstrip_idemp.
    - apply rstrip_lstrip, rstrip_idemp.
    - apply contains_lstrip, contains_rstrip, Hp. }
  split; exact H0.
Qed.

Lemma comma_list_last lead e :
  blank lead → clean_entry e → SettingsText.comma_list (lead +:+ e) = [e].
Proof.
  intros Hlead He. unfold SettingsText.comma_list. rewrite split_whole.
  - cbn [omap list_omap]. rewrite strip_padded by assumption.
    destruct He as (Hne & _). destruct e; [contradiction|reflexivity].
  - rewrite contains_app, (blank_no_comma lead Hlead).
    destruct He as (_ & _ & _ & Hc). exact Hc.
Qed.

Lemma comma_list_at lead e rest :
  blank lead → clean_entry e →
  SettingsText.comma_list ((lead +:+ e) +:+ String PyStr.comma rest)
  = e :: SettingsText.comma_list rest.
Proof.
  intros Hlead He. unfold SettingsText.comma_list. rewrite split_at.
  - cbn [omap list_omap]. rewrite strip_padded by assumption.
    destruct He as (Hne & _). destruct e; [contradiction|reflexivity].
  - rewrite contains_app, (blank_no_comma lead Hlead).
    destruct He as (_ & _ & _ & Hc). exact Hc.
Qed.

Lemma comma_list_blank lead : blank lead → SettingsText.comma_list lead = [].
Proof.
  intros Hlead. unfold SettingsText.comma_list.
  rewrite split_whole by (apply blank_no_comma, Hlead).
  cbn [omap list_omap]. rewrite strip_blank by exact Hlead. reflexivity.
Qed.

(** The parser undoes a join with commas, each followed by any white
    space. *)
Lemma comma_list_join pad (names : list string) : ∀ lead,
  blank pad → blank lead → Forall clean_entry names →
  SettingsText.comma_list
    (lead +:+ PyStr.join (String PyStr.comma pad) names) = names.
Proof.
  intros lead Hpad. revert lead.
  induction names as [|x [|y more] IH]; intros lead Hlead Hclean.
  - simpl PyStr.join. rewrite append_empty. apply comma_list_blank, Hlead.
  - simpl PyStr.join. apply Forall_cons in Hclean as [Hx _].
    apply comma_list_last; assumption.
  - apply Forall_cons in Hclean as [Hx Hrest].
    change (PyStr.join (String PyStr.comma pad) (x :: y :: more))
      with (x +:+ String PyStr.comma (pad +:+ PyStr.join (String PyStr.comma pad) (y :: more))).
    rewrite append_assoc, comma_list_at by assumption.
    f_equal. apply IH; assumption.
Qed.

(** X27: parsing undoes joining: hostnames that are non-empty, without
    white space at their ends and without a comma, joined with commas
    (each followed by any white space, or none), are parsed back as the
    same list, in the same order. *)
Theorem comma_list_roundtrip (pad : string) (names : list string) :
  blank pad →
  Forall clean_entry names →
  SettingsText.get_monitored_hosts_list (PyStr.join (String PyStr.comma pad) names)
  = names.
Proof.
  intros Hpad Hclean.
  apply (comma_list_join pad names EmptyString Hpad); [reflexivity|exact Hclean].
Qed.

Lemma comma_list_roundtrip_witness :
  blank " "
  ∧ Forall clean_entry ["router.local"; "8.8.8.8"; "1.1.1.1"]%string
  ∧ SettingsText.get_monitored_hosts_list "router.local, 8.8.8.8, 1.1.1.1"
    = ["router.local"; "8.8.8.8"; "1.1.1.1"]%string.
Proof.
  assert (Hpad : blank " ") by reflexivity.
  assert (Hclean : Forall clean_entry ["router.local"; "8.8.8.8"; "1.1.1.1"]%string).
  { repeat constructor; try discriminate; reflexivity. }
  split; [exact Hpad|]. split; [exact Hclean|].
  exact (comma_list_roundtrip " " _ Hpad Hclean).
Defined.

(** ** Seeding the monitored hosts at startup *)

Section Seeding.

Variable title : string → string.

Lemma seed_hosts_cons name rest s net t tr :
  seedable title s name →
  Startup.seed_hosts title (name :: rest) (mkWorld s [] net t tr)
  = Startup.seed_hosts title rest (mkWorld (seeded_with title t name s) [] net t tr).
Proof.
  intros [Hrow Hnew].
  unfold seeded_with. simpl Startup.seed_hosts. unfold mbind at 1, M_bind.
  destruct (decide (name ∈ row_hostname <$> hosts s)) as [Hin|Hnot].
  - pose proof (filter_present row_hostname _ _ Hin) as Hne.
    run_db. unfold SQL.select_host_by_hostname.
    destruct (filter (λ r, row_hostname r = name) (hosts s)) as [|row more] eqn:E;
      [contradiction|].
    apply first_of_filter in E as [Hel Hname].
    rewrite Host_init_valid by (apply Hrow; assumption). reflexivity.
  - pose proof (filter_absent row_hostname _ _ Hnot) as Hnil.
    run_db. unfold SQL.select_host_by_hostname, SQL.insert_host. rewrite Hnil. simpl.
    rewrite bool_decide_eq_false_2 by exact Hnot. simpl.
    rewrite Host_init_valid by (apply Hnew, Hnot). reflexivity.
Qed.

(** One step keeps the rows there were, adds at most the one hostname, and
    keeps hostnames unique. *)
Lemma seeded_with_step t name s :
  unique_hostnames s →
  unique_hostnames (seeded_with title t name s)
  ∧ name ∈ row_hostname <$> hosts (seeded_with title t name s)
  ∧ probes_table (seeded_with title t name s) = probes_table s
  ∧ ∃ added,
      hosts (seeded_with title t name s) = hosts s ++ added
      ∧ Forall (λ r, row_hostname r = name
                     ∧ (name ∉ row_hostname <$> hosts s)
                     ∧ row_enabled r = 1
                     ∧ row_display_name r = Startup.display_name_for title name) added.
Proof.
  intros Huniq. unfold seeded_with.
  destruct (decide (name ∈ row_hostname <$> hosts s)) as [Hin|Hnot].
  - split; [exact Huniq|]. split; [exact Hin|]. split; [reflexivity|].
    exists []. rewrite app_nil_r. split; [reflexivity|constructor].
  - split; [|split; [|split]].
    + unfold unique_hostnames. simpl. rewrite fmap_app. apply NoDup_app.
      split; [exact Huniq|]. split; [|apply NoDup_singleton].
      intros x Hx Hx'. apply list_elem_of_singleton in Hx'. subst x. contradiction.
    + simpl. rewrite fmap_app. apply elem_of_app. right. apply list_elem_of_here.
    + reflexivity.
    + eexists. split; [reflexivity|]. repeat constructor; auto.
Qed.

(** A hostname the seeding gets past stays one after a step. *)
Lemma seedable_step t name s other :
  seedable title s name → seedable title s other →
  seedable title (seeded_with title t name s) other.
Proof.
  intros [_ Hnew] [Hrow' Hnew']. unfold seeded_with.
  destruct (decide (name ∈ row_hostname <$> hosts s)) as [Hin|Hnot];
    [split; assumption|].
  split; simpl.
  - intros row Hel Hname. apply elem_of_app in Hel as [Hel|Hel].
    + apply Hrow'; assumption.
    + apply list_elem_of_singleton in Hel. subst row. exact (Hnew Hnot).
  - intros Habsent. apply Hnew'. intros Hold. apply Habsent.
    rewrite fmap_app. apply elem_of_app. left. exact Hold.
Qed.

Lemma seed_hosts_present names : ∀ s net t tr,
  Forall (seedable title s) names →
  (∀ name, name ∈ names → name ∈ row_hostname <$> hosts s) →
  Startup.seed_hosts title names (mkWorld s [] net t tr) = (Ok tt, mkWorld s [] net t tr).
Proof.
  induction names as [|name rest IH]; intros s net t tr Hok Hall; [reflexivity|].
  apply Forall_cons in Hok as [Hname Hrest].
  rewrite seed_hosts_cons by exact Hname. unfold seeded_with.
  rewrite decide_True by (apply Hall, list_elem_of_here).
  apply IH; [exact Hrest|]. intros n Hn. apply Hall. apply elem_of_cons. right. exact Hn.
Qed.

Lemma seed_hosts_run names : ∀ s net t tr,
  unique_hostnames s →
  Forall (seedable title s) names →
  ∃ s' added,
    Startup.seed_hosts title names (mkWorld s [] net t tr)
    = (Ok tt, mkWorld s' [] net t tr)
    ∧ hosts s' = hosts s ++ added
    ∧ probes_table s' = probes_table s
    ∧ unique_hostnames s'
    ∧ (∀ name, name ∈ names → name ∈ row_hostname <$> hosts s')
    ∧ Forall (seedable title s') names
    ∧ Forall (λ r, row_hostname r ∈ names
                   ∧ (row_hostname r ∉ row_hostname <$> hosts s)
                   ∧ row_enabled r = 1
                   ∧ row_display_name r
                     = Startup.display_name_for title (row_hostname r)) added.
Proof.
  induction names as [|name rest IH]; intros s net t tr Huniq Hok.
  - exists s, []. rewrite app_nil_r. split; [reflexivity|].
    repeat split; auto. intros name Hname. apply elem_of_nil in Hname as [].
  - apply Forall_cons in Hok as [Hname Hrest].
    rewrite seed_hosts_cons by exact Hname.
    destruct (seeded_with_step t name s Huniq)
      as (Huniq1 & Hin1 & Hprobes1 & added1 & Hhosts1 & Hadded1).
    assert (Hrest1 : Forall (seedable title (seeded_with title t name s)) rest).
    { eapply Forall_impl; [exact Hrest|]. intros other Hother.
      apply seedable_step; assumption. }
    destruct (IH (seeded_with title t name s) net t tr Huniq1 Hrest1)
      as (s' & added & E & Hhosts & Hprobes & Huniq' & Hall & Hok' & Hadded).
    assert (Hname' : name ∈ row_hostname <$> hosts s').
    { rewrite Hhosts, fmap_app. apply elem_of_app. left. exact Hin1. }
    exists s', (added1 ++ added). split; [exact E|].
    split; [rewrite Hhosts, Hhosts1, app_assoc; reflexivity|].
    split; [congruence|]. split; [exact Huniq'|]. split; [|split].
    + intros n Hn. apply elem_of_cons in Hn as [->|Hn]; [exact Hname'|apply Hall, Hn].
    + constructor; [|exact Hok']. split; [|intros Habsent; contradiction].
      intros row Hel Hrow. rewrite Hhosts in Hel. apply elem_of_app in Hel as [Hel|Hel].
      * pose proof (seedable_step t name s name Hname Hname) as [Hread _].
        apply Hread; assumption.
      * rewrite Forall_forall in Hadded. destruct (Hadded row Hel) as (_ & Hfresh & _).
        exfalso. apply Hfresh. rewrite Hrow. exact Hin1.
    + apply Forall_app. split.
      * eapply Forall_impl; [exact Hadded1|]. intros r (Hr & Hnew & He & Hd).
        rewrite Hr. repeat split; auto. apply list_elem_of_here.
      * eapply Forall_impl; [exact Hadded|]. intros r (Hr & Hnew & He & Hd).
        repeat split; auto.
        -- apply elem_of_cons. right. exact Hr.
        -- intros Hold. apply Hnew. rewrite Hhosts1, fmap_app.
           apply elem_of_app. left. exact Hold.
Qed.

(** The seeding stops at a hostname that is missing and that [Host]
    refuses, with its row committed. *)
Lemma seed_hosts_refused name rest s net t tr :
  name ∉ row_hostname <$> hosts s →
  ¬ (field_ok name ∧ field_ok (Startup.display_name_for title name)) →
  Startup.seed_hosts title (name :: rest) (mkWorld s [] net t tr)
  = (Raise (ValidationError
              (mkHost (Some (SQL.next_host_id s)) name
                 (Startup.display_name_for title name) true
                 (Some (PyFloat.to_int (t * 1000)%float)))),
     mkWorld (seeded_with title t name s) [] net t tr).
Proof.
  intros Hnot Hbad. unfold seeded_with. rewrite decide_False by exact Hnot.
  pose proof (filter_absent row_hostname _ _ Hnot) as Hnil.
  simpl Startup.seed_hosts. unfold mbind at 1, M_bind.
  run_db. unfold SQL.select_host_by_hostname, SQL.insert_host. rewrite Hnil. simpl.
  rewrite bool_decide_eq_false_2 by exact Hnot. simpl.
  rewrite Host_init_invalid by exact Hbad. reflexivity.
Qed.

(** A lookup by hostname raises on a row [Host] refuses. *)
Lemma get_host_by_hostname_unreadable name row s net t tr :
  unique_hostnames s →
  row ∈ hosts s → row_hostname row = name → ¬ readable row →
  PingRepository.get_host_by_hostname name (mkWorld s [] net t tr)
  = (Raise (ValidationError (PingRepository.host_of_row row)), mkWorld s [] net t tr).
Proof.
  intros Huniq Hel Hname Hbad. rewrite get_host_by_hostname_quiet.
  assert (Hone : filter (λ r, row_hostname r = name) (hosts s) = [row]).
  { assert (Hlen : length (filter (λ r, row_hostname r = name) (hosts s)) = 1%nat).
    { apply (filter_unique row_hostname); [exact Huniq|].
      apply list_elem_of_fmap. exists row. split; [symmetry; exact Hname|exact Hel]. }
    assert (Hin : row ∈ filter (λ r, row_hostname r = name) (hosts s))
      by (apply list_elem_of_filter; split; assumption).
    destruct (filter (λ r, row_hostname r = name) (hosts s)) as [|r0 [|r1 more]];
      try discriminate Hlen.
    apply list_elem_of_singleton in Hin. subst r0. reflexivity. }
  rewrite Hone. simpl. rewrite decide_False by exact Hbad. reflexivity.
Qed.

(** So the seeding stops at such a hostname, with nothing changed. *)
Lemma seed_hosts_unreadable name rest row s net t tr :
  unique_hostnames s →
  row ∈ hosts s → row_hostname row = name → ¬ readable row →
  Startup.seed_hosts title (name :: rest) (mkWorld s [] net t tr)
  = (Raise (ValidationError (PingRepository.host_of_row row)), mkWorld s [] net t tr).
Proof.
  intros Huniq Hel Hname Hbad.
  simpl Startup.seed_hosts. unfold mbind, M_bind.
  rewrite (get_host_by_hostname_unreadable name row) by assumption. reflexivity.
Qed.

End Seeding.

(** X28: seeding never re-adds or overwrites a host.  On a store with
    unique hostnames, without a storage fault and for monitored hostnames
    the seeding gets past (a row that is there is one [Host] accepts; for
    a missing one, [Host] accepts the hostname and its display name), the
    startup loop keeps every row of [hosts] where it was and appends one
    enabled row for each monitored hostname that was missing, named by the
    display-name rule; afterwards every monitored hostname is present,
    hostnames are still unique, no probe row has changed, and seeding
    again changes nothing. *)
Theorem seed_hosts_effect (title : string → string) (names : list string)
    (s : store) (net : nat → result ResponseList) (t : float) (tr : list event) :
  unique_hostnames s →
  Forall (seedable title s) names →
  ∃ w' added,
    Startup.seed_hosts title names (mkWorld s [] net t tr) = (Ok tt, w')
    ∧ hosts (w_db w') = hosts s ++ added
    ∧ Forall (λ r, row_hostname r ∈ names
                   ∧ (row_hostname r ∉ row_hostname <$> hosts s)
                   ∧ row_enabled r = 1
                   ∧ row_display_name r
                     = Startup.display_name_for title (row_hostname r)) added
    ∧ (∀ name, name ∈ names → name ∈ row_hostname <$> hosts (w_db w'))
    ∧ unique_hostnames (w_db w')
    ∧ probes_table (w_db w') = probes_table s
    ∧ Startup.seed_hosts title names w' = (Ok tt, w').
Proof.
  intros Huniq Hok.
  destruct (seed_hosts_run title names s net t tr Huniq Hok)
    as (s' & added & E & Hhosts & Hprobes & Huniq' & Hall & Hok' & Hadded).
  exists (mkWorld s' [] net t tr), added. simpl.
  repeat match goal with |- _ ∧ _ => split end; try assumption.
  apply seed_hosts_present; assumption.
Qed.

Lemma seed_hosts_effect_witness :
  unique_hostnames example_store
  ∧ Forall (seedable Startup.ascii_title example_store)
      (SettingsText.get_monitored_hosts_list SettingsText.default_monitored_hosts)
  ∧ ∃ w',
      Startup.seed_hosts Startup.ascii_title
        (SettingsText.get_monitored_hosts_list SettingsText.default_monitored_hosts)
        (quiet_world example_store silent_net) = (Ok tt, w')
      ∧ hosts (w_db w')
        = hosts example_store
          ++ [mkHostRow 3 "1.1.1.1" "1" 1 1702468800500]
      ∧ Startup.seed_hosts Startup.ascii_title
          (SettingsText.get_monitored_hosts_list SettingsText.default_monitored_hosts)
          w' = (Ok tt, w').
Proof.
  assert (Huniq : unique_hostnames example_store)
    by (apply (bool_decide_unpack _); vm_compute; exact I).
  assert (Hread : readable_hosts example_store)
    by (apply (bool_decide_unpack _); vm_compute; exact I).
  assert (Hok : Forall (seedable Startup.ascii_title example_store)
                  (SettingsText.get_monitored_hosts_list
                     SettingsText.default_monitored_hosts)).
  { apply Forall_forall. intros name Hname. split.
    - intros row Hrow _. unfold readable_hosts in Hread.
      rewrite Forall_forall in Hread. apply Hread, Hrow.
    - intros _. revert name Hname. apply Forall_forall.
      apply (bool_decide_unpack _). vm_compute. exact I. }
  split; [exact Huniq|]. split; [exact Hok|].
  destruct (seed_hosts_effect Startup.ascii_title
              (SettingsText.get_monitored_hosts_list SettingsText.default_monitored_hosts)
              example_store silent_net 1702468800.5 [] Huniq Hok)
    as (w' & added & E & _ & _ & _ & _ & _ & Hagain).
  exists w'. split; [exact E|]. split; [|exact Hagain].
  assert (E' : Startup.seed_hosts Startup.ascii_title
            (SettingsText.get_monitored_hosts_list SettingsText.default_monitored_hosts)
            (quiet_world example_store silent_net)
          = (Ok tt,
             mkWorld (mkStore (ping_results example_store) 3
                        (hosts example_store
                         ++ [mkHostRow 3 "1.1.1.1" "1" 1 1702468800500]) 3)
               [] silent_net 1702468800.5 [])) by reflexivity.
  unfold quiet_world in E'. rewrite E' in E. injection E as <-. reflexivity.
Defined.

(** X29: the seeding stores a host before it validates it.  For a
    monitored hostname that is missing and whose hostname or display name
    [Host] refuses (a hostname that starts with a dot has the empty
    display name), the loop commits the row and then raises the
    validation error: the hostnames after it are not seeded, and every
    later run that monitors this hostname first raises at it again and
    changes nothing, whatever the clock and the rest of the list. *)
Theorem seed_hosts_aborts (title : string → string) (name : string)
    (rest : list string) (s : store) (net : nat → result ResponseList)
    (t : float) (tr : list event) :
  unique_hostnames s →
  name ∉ row_hostname <$> hosts s →
  ¬ (field_ok name ∧ field_ok (Startup.display_name_for title name)) →
  ∃ e s',
    Startup.seed_hosts title (name :: rest) (mkWorld s [] net t tr)
    = (Raise e, mkWorld s' [] net t tr)
    ∧ hosts s'
      = hosts s ++ [mkHostRow (SQL.next_host_id s) name
                      (Startup.display_name_for title name) 1
                      (PyFloat.to_int (t * 1000)%float)]
    ∧ probes_table s' = probes_table s
    ∧ (∀ (rest' : list string) (t' : float),
         Startup.seed_hosts title (name :: rest') (mkWorld s' [] net t' tr)
         = (Raise e, mkWorld s' [] net t' tr))
    ∧ fst (PingRepository.get_host_by_hostname name (mkWorld s' [] net t tr))
      = Raise e.
Proof.
  intros Huniq Hnot Hbad.
  set (row := mkHostRow (SQL.next_host_id s) name
                (Startup.display_name_for title name) 1
                (PyFloat.to_int (t * 1000)%float)).
  exists (ValidationError (PingRepository.host_of_row row)),
    (seeded_with title t name s).
  assert (Hs' : seeded_with title t name s
                = mkStore (ping_results s) (ping_results_seq s) (hosts s ++ [row])
                    (SQL.next_host_id s)).
  { unfold seeded_with. rewrite decide_False by exact Hnot. reflexivity. }
  assert (Huniq' : unique_hostnames (seeded_with title t name s)).
  { apply seeded_with_step, Huniq. }
  assert (Hel : row ∈ hosts (seeded_with title t name s)).
  { rewrite Hs'. simpl. apply elem_of_app. right. apply list_elem_of_here. }
  split; [apply (seed_hosts_refused title); assumption|].
  split; [rewrite Hs'; reflexivity|]. split; [rewrite Hs'; reflexivity|]. split.
  - intros rest' t'.
    apply (seed_hosts_unreadable title name rest' row); auto.
  - rewrite (get_host_by_hostname_unreadable name row) by auto. reflexivity.
Qed.

(** With [".local"] first among the monitored hostnames, [8.8.4.4] is
    never added. *)
Lemma seed_hosts_aborts_witness :
  unique_hostnames empty_store
  ∧ (".local"%string ∉ row_hostname <$> hosts empty_store)
  ∧ ¬ (field_ok ".local"
       ∧ field_ok (Startup.display_name_for Startup.ascii_title ".local"))
  ∧ ∃ e,
      Startup.seed_hosts Startup.ascii_title [".local"; "8.8.4.4"]%string
        (quiet_world empty_store silent_net)
      = (Raise e, quiet_world dot_local_store silent_net)
      ∧ Startup.seed_hosts Startup.ascii_title [".local"; "8.8.4.4"]%string
          (quiet_world dot_local_store silent_net)
        = (Raise e, quiet_world dot_local_store silent_net).
Proof.
  assert (Huniq : unique_hostnames empty_store) by apply NoDup_nil_2.
  assert (Hnot : ".local"%string ∉ row_hostname <$> hosts empty_store)
    by apply not_elem_of_nil.
  assert (Hbad : ¬ (field_ok ".local"
                    ∧ field_ok (Startup.display_name_for Startup.ascii_title ".local"))).
  { intros [_ Hd]. unfold field_ok in Hd. vm_compute in Hd. lia. }
  split; [exact Huniq|]. split; [exact Hnot|]. split; [exact Hbad|].
  destruct (seed_hosts_aborts Startup.ascii_title ".local" ["8.8.4.4"%string]
              empty_store silent_net 1702468800.5 [] Huniq Hnot Hbad)
    as (e & s' & E & Hhosts & Hprobes & Hagain & _).
  exists e.
  assert (Hs' : s' = dot_local_store).
  { assert (E' : Startup.seed_hosts Startup.ascii_title [".local"; "8.8.4.4"]%string
                   (mkWorld empty_store [] silent_net 1702468800.5 [])
                 = (Raise (ValidationError
                             (mkHost (Some 1) ".local" "" true (Some 1702468800500))),
                    mkWorld dot_local_store [] silent_net 1702468800.5 []))
      by reflexivity.
    rewrite E' in E. injection E as _ <-. reflexivity. }
  subst s'. split; [exact E|]. apply (Hagain ["8.8.4.4"%string] 1702468800.5%float).
Defined.
